(** * sunvoy-challenge: the scraper script [src/index.ts]

    A shallow embedding of the script and the properties of its
    specification.  The script is a linear orchestration of effects:
    files, HTTP requests, a cookie jar and a headless browser.  It is
    embedded in a state-and-exception monad over an explicit world; the
    text formats it hands to libraries (HTML, JSON, Set-Cookie headers,
    the serialised cookie jar) are parsed by those libraries, which are
    parameters of the development. *)

From Stdlib Require Import String Ascii List ZArith QArith Bool Lia.
From stdpp Require Import base gmap strings list.
Import ListNotations.
Local Open Scope string_scope.
#[local] Set Warnings "-register-all,-clear-no-such-hyp".


(** ** Strings

    A JavaScript string is represented by its UTF-8 bytes. *)

Module Text.

Definition nl : string := String (ascii_of_nat 10) EmptyString.

(** The double quote character, as a one-character string. *)
Definition dq : string := String (ascii_of_nat 34) EmptyString.

(** Texts with double quotes are written with apostrophes in their
    place and put through [requote]. *)
Fixpoint requote (s : string) : string :=
  match s with
  | EmptyString => EmptyString
  | String c rest =>
      if Ascii.eqb c "'"%char then dq ++ requote rest
      else String c (requote rest)
  end.

(** [hay.includes(needle)] *)
Fixpoint includes (needle hay : string) : bool :=
  String.prefix needle hay ||
  match hay with
  | EmptyString => false
  | String _ rest => includes needle rest
  end.

Definition hex_upper (n : N) : ascii :=
  if (n <? 10)%N then ascii_of_N (48 + n) else ascii_of_N (55 + n).

Definition hex_lower (n : N) : ascii :=
  if (n <? 10)%N then ascii_of_N (48 + n) else ascii_of_N (87 + n).

Definition is_alnum (n : N) : bool :=
  ((48 <=? n) && (n <=? 57) || (65 <=? n) && (n <=? 90) ||
   (97 <=? n) && (n <=? 122))%N.

(** The application/x-www-form-urlencoded byte serialiser. *)
Fixpoint urlencode (s : string) : string :=
  match s with
  | EmptyString => EmptyString
  | String c rest =>
      let n := N_of_ascii c in
      if (n =? 32)%N then String "+" (urlencode rest)
      else if is_alnum n || (n =? 42)%N || (n =? 45)%N || (n =? 46)%N
              || (n =? 95)%N
      then String c (urlencode rest)
      else String "%" (String (hex_upper (n / 16))
                        (String (hex_upper (n mod 16)) (urlencode rest)))
  end.

(** [new URLSearchParams(fields).toString()] *)
Definition URLSearchParams_toString (fields : list (string * string)) : string :=
  String.concat "&"
    (map (fun kv => urlencode (fst kv) ++ "=" ++ urlencode (snd kv)) fields).

(** Iterating a string yields its code points: a new item starts at
    every byte that is not a UTF-8 continuation byte. *)
Definition is_continuation (c : ascii) : bool :=
  let n := N_of_ascii c in ((128 <=? n) && (n <? 192))%N.

Fixpoint code_points_from (cur : string) (s : string) : list string :=
  match s with
  | EmptyString => [cur]
  | String c rest =>
      if is_continuation c
      then code_points_from (cur ++ String c EmptyString) rest
      else cur :: code_points_from (String c EmptyString) rest
  end.

Definition code_points (s : string) : list string :=
  match s with
  | EmptyString => []
  | String c rest => code_points_from (String c EmptyString) rest
  end.

End Text.

(** ** JSON values *)

Module JSON.

(** A number is kept as the text [String(n)] gives for it, which for a
    finite number is the text [JSON.stringify] prints; the properties
    of an object are listed in enumeration order. *)
Inductive json : Type :=
| JNull
| JBool (b : bool)
| JNum (text : string)
| JStr (s : string)
| JArr (items : list json)
| JObj (props : list (string * json)).

(** [o[k]]: [None] stands for [undefined]. *)
Fixpoint lookup_prop (k : string) (props : list (string * json)) : option json :=
  match props with
  | [] => None
  | (k', v) :: rest => if String.eqb k k' then Some v else lookup_prop k rest
  end.

Definition prop (k : string) (j : json) : option json :=
  match j with
  | JObj props => lookup_prop k props
  | _ => None
  end.

Definition escape_char (c : ascii) : string :=
  let n := N_of_ascii c in
  if (n =? 34)%N then "\" ++ Text.dq
  else if (n =? 92)%N then "\\"
  else if (n =? 8)%N then "\b"
  else if (n =? 12)%N then "\f"
  else if (n =? 10)%N then "\n"
  else if (n =? 13)%N then "\r"
  else if (n =? 9)%N then "\t"
  else if (n <? 32)%N
  then "\u00" ++ String (Text.hex_lower (n / 16))
                   (String (Text.hex_lower (n mod 16)) EmptyString)
  else String c EmptyString.

Fixpoint escape (s : string) : string :=
  match s with
  | EmptyString => EmptyString
  | String c rest => escape_char c ++ escape rest
  end.

Definition quote (s : string) : string := Text.dq ++ escape s ++ Text.dq.

Fixpoint spaces (n : nat) : string :=
  match n with
  | O => EmptyString
  | S n' => String " " (spaces n')
  end.

(** SerializeJSONProperty with the gap [gap] at indentation [indent]. *)
Fixpoint serialize (gap indent : string) (j : json) : string :=
  let inner := indent ++ gap in
  let pretty := negb (String.eqb gap EmptyString) in
  let sep := if pretty then "," ++ Text.nl ++ inner else "," in
  let wrap (o c body : string) :=
    if pretty then o ++ Text.nl ++ inner ++ body ++ Text.nl ++ indent ++ c
    else o ++ body ++ c in
  match j with
  | JNull => "null"
  | JBool true => "true"
  | JBool false => "false"
  | JNum text =>
      if String.eqb text "Infinity" || String.eqb text "-Infinity"
      then "null" else text
  | JStr s => quote s
  | JArr [] => "[]"
  | JArr items => wrap "[" "]" (String.concat sep (map (serialize gap inner) items))
  | JObj [] => "{}"
  | JObj props =>
      wrap "{" "}"
        (String.concat sep
           (map (fun kv => match kv with
                           | (k, v) => quote k ++ (if pretty then ": " else ":")
                                         ++ serialize gap inner v
                           end) props))
  end.

(** [JSON.stringify(value, null, space)] for a number [space]. *)
Definition stringify (value : json) (space : nat) : string :=
  serialize (spaces (Nat.min space 10)) EmptyString value.

(** [[...value]]: arrays and strings are iterable, nothing else that
    [JSON.parse] returns is. *)
Definition spread (value : json) : option (list json) :=
  match value with
  | JArr items => Some items
  | JStr s => Some (map JStr (Text.code_points s))
  | _ => None
  end.

(** [String(value)], as a template literal or [Array.prototype.join]
    turns a value into text. *)
Fixpoint toString (value : json) : string :=
  match value with
  | JNull => "null"
  | JBool true => "true"
  | JBool false => "false"
  | JNum text => text
  | JStr s => s
  | JArr items =>
      String.concat ","
        (map (fun item => match item with
                          | JNull => EmptyString
                          | _ => toString item
                          end) items)
  | JObj _ => "[object Object]"
  end.

(** Structural equality; on strings, numbers, booleans and [null] it
    is [===]. *)
Fixpoint eqb (a b : json) : bool :=
  match a, b with
  | JNull, JNull => true
  | JBool x, JBool y => Bool.eqb x y
  | JNum x, JNum y => String.eqb x y
  | JStr x, JStr y => String.eqb x y
  | JArr xs, JArr ys =>
      (fix all2 (xs ys : list json) : bool :=
         match xs, ys with
         | [], [] => true
         | x :: xs', y :: ys' => eqb x y && all2 xs' ys'
         | _, _ => false
         end) xs ys
  | JObj ps, JObj qs =>
      (fix all2 (ps qs : list (string * json)) : bool :=
         match ps, qs with
         | [], [] => true
         | (k, x) :: ps', (l, y) :: qs' => String.eqb k l && eqb x y && all2 ps' qs'
         | _, _ => false
         end) ps qs
  | _, _ => false
  end.

End JSON.

(** ** Parsed markup and the cheerio queries of the script *)

Module Dom.

Inductive node : Type :=
| Element (tag : string) (attribs : list (string * string)) (children : list node)
| TextNode (data : string).

Fixpoint lookup_attr (name : string) (attribs : list (string * string)) : option string :=
  match attribs with
  | [] => None
  | (k, v) :: rest => if String.eqb name k then Some v else lookup_attr name rest
  end.

(** One compound selector: a tag name, optionally a class and an
    attribute test [[name="value"]]. *)
Record compound : Type := Compound {
  sel_tag : string;
  sel_class : option string;
  sel_attr : option (string * string)
}.

(** A chain of compound selectors joined by the descendant combinator;
    the last one names the selected elements. *)
Record selector : Type := Selector {
  ancestors : list compound;
  target : compound
}.

Definition is_space (c : ascii) : bool :=
  let n := N_of_ascii c in
  ((n =? 32) || (n =? 9) || (n =? 10) || (n =? 12) || (n =? 13))%N.

Fixpoint tokens_from (cur : string) (s : string) : list string :=
  match s with
  | EmptyString => [cur]
  | String c rest =>
      if is_space c then cur :: tokens_from EmptyString rest
      else tokens_from (cur ++ String c EmptyString) rest
  end.

Definition has_class (c : string) (attribs : list (string * string)) : bool :=
  match lookup_attr "class" attribs with
  | None => false
  | Some v => existsb (String.eqb c) (tokens_from EmptyString v)
  end.

Definition matches (s : compound) (n : node) : bool :=
  match n with
  | TextNode _ => false
  | Element tag attribs _ =>
      String.eqb tag (sel_tag s)
      && match sel_class s with
         | None => true
         | Some c => has_class c attribs
         end
      && match sel_attr s with
         | None => true
         | Some (k, v) =>
             match lookup_attr k attribs with
             | Some v' => String.eqb v v'
             | None => false
             end
         end
  end.

(** The elements under [n] (itself included) that the chain selects,
    in document order; [pending] are the ancestors still to be met. *)
Fixpoint select_node (pending : list compound) (tgt : compound) (n : node) : list node :=
  match n with
  | TextNode _ => []
  | Element _ _ children =>
      let here :=
        match pending with
        | [] => if matches tgt n then [n] else []
        | _ :: _ => []
        end in
      let pending' :=
        match pending with
        | [] => []
        | a :: rest => if matches a n then rest else pending
        end in
      here ++ flat_map (select_node pending' tgt) children
  end.

(** [$(selector)] on a loaded document. *)
Definition select (s : selector) (doc : list node) : list node :=
  flat_map (select_node (ancestors s) (target s)) doc.

(** [.eq(i)] for an index [i >= 0]. *)
Definition eq (i : nat) (sel : list node) : list node :=
  match nth_error sel i with
  | Some n => [n]
  | None => []
  end.

(** [.val()] with no argument, on a selection of [input] elements: the
    [value] attribute of the first element; a radio button or checkbox
    without one reads ["on"]; [None] stands for [undefined]. *)
Definition val (sel : list node) : option string :=
  match sel with
  | Element "input" attribs _ :: _ =>
      match lookup_attr "value" attribs with
      | Some v => Some v
      | None =>
          match lookup_attr "type" attribs with
          | Some "radio" | Some "checkbox" => Some "on"
          | _ => None
          end
      end
  | _ => None
  end.

(** ['input[name="nonce"]'] *)
Definition input_name_nonce : selector :=
  Selector [] (Compound "input" None (Some ("name", "nonce"))).

(** ["form input"] *)
Definition form_input : selector :=
  Selector [Compound "form" None None] (Compound "input" None None).

(** ["form.space-y-4 input"] *)
Definition form_space_y_4_input : selector :=
  Selector [Compound "form" (Some "space-y-4") None] (Compound "input" None None).

End Dom.

(** ** Numbers

    The one computation of the script on numbers is the division of a
    time value by 1000.  A finite double is kept as the rational number
    it stands for, in lowest terms. *)

Module Number.

Inductive number : Type :=
| NaN
| Num (q : Q).

(** An integer that is a double itself. *)
Definition of_Z (n : Z) : number := Num (n # 1).

(** [num / den] rounded to the nearest integer, ties to the even one,
    for [0 < den]. *)
Definition nearest_even (num den : Z) : Z :=
  let q := (num / den)%Z in
  let r := (num mod den)%Z in
  if (2 * r <? den)%Z then q
  else if (den <? 2 * r)%Z then (q + 1)%Z
  else if Z.even q then q else (q + 1)%Z.

(** Two integers whose quotient is [a / (d * 2 ^ e)]. *)
Definition scaled_num (a e : Z) : Z := (a * 2 ^ Z.max 0 (- e))%Z.

Definition scaled_den (d e : Z) : Z := (d * 2 ^ Z.max 0 e)%Z.

(** The exponent [e] of the double nearest to [a / d], for [0 < a] and
    [0 < d]: the one with [2 ^ 52 <= a / (d * 2 ^ e) < 2 ^ 53]. *)
Definition exponent (a d : Z) : Z :=
  let e := (Z.log2 a - Z.log2 d - 52)%Z in
  if (2 ^ 52 * scaled_den d e <=? scaled_num a e)%Z then e else (e - 1)%Z.

(** [n / d] in double arithmetic (round to nearest, ties to even), for
    two integers that are doubles themselves, [0 < d], and a quotient
    that is zero or in the range of the normal doubles. *)
Definition div (n d : Z) : number :=
  if (n =? 0)%Z then of_Z 0
  else
    let a := Z.abs n in
    let e := exponent a d in
    let m := (Z.sgn n * nearest_even (scaled_num a e) (scaled_den d e))%Z in
    Num (Qred (if (0 <=? e)%Z then (m * 2 ^ e)%Z # 1
               else m # Z.to_pos (2 ^ (- e)))).

End Number.

(** ** Cookies *)

Module Tough.

(** [cookie.expires]: the string ["Infinity"], a date, kept as its
    time value (the milliseconds since the epoch), a date that is not
    valid, or [null]. *)
Inductive Expires : Type :=
| Infinity
| Date (ms : Z)
| InvalidDate
| Null.

(** The properties of a tough-cookie [Cookie] that the script reads.
    Parsing a Set-Cookie header gives strings and booleans; a session
    file is read back property by property, so that these can hold any
    JSON value. *)
Record Cookie : Type := {
  key : JSON.json;
  value : JSON.json;
  domain : JSON.json;
  path : JSON.json;
  expires : Expires;
  secure : JSON.json;
  httpOnly : JSON.json
}.

(** [cookie.cookieString()], as [Array.prototype.join] prints it. *)
Definition cookieString (c : Cookie) : string :=
  let val :=
    match value c with
    | JSON.JNull => EmptyString
    | v => JSON.toString v
    end in
  match key c with
  | JSON.JStr EmptyString => val
  | k => JSON.toString k ++ "=" ++ val
  end.

(** [new Date(expires).getTime()], [None] for [NaN]: a date holds a
    time value of at most 8.64e15 in magnitude. *)
Definition getTime (e : Expires) : option Z :=
  match e with
  | Infinity => None
  | Date ms => if (Z.abs ms <=? 8640000000000000)%Z then Some ms else None
  | InvalidDate => None
  | Null => Some 0%Z
  end.

End Tough.

Module Puppeteer.

(** The [CookieParam] the script builds. *)
Record CookieParam : Type := {
  name : JSON.json;
  value : JSON.json;
  domain : option JSON.json;
  path : option JSON.json;
  expires : Number.number;
  secure : JSON.json;
  httpOnly : JSON.json
}.

(** What the browser shows once a navigation has completed: whether an
    element matching a selector appears before the default timeout,
    and the markup [page.content()] returns. *)
Record Page : Type := {
  appears : Dom.selector -> bool;
  content : string
}.

End Puppeteer.

(** ** HTTP *)

Inductive Method : Type := GET | POST.

Record Request : Type := {
  url : string;
  method : Method;
  headers : list (string * string);
  body : option string;
  redirect_manual : bool
}.

Record Response : Type := {
  status : Z;
  getSetCookie : list string;
  text : string
}.

(** [response.ok] *)
Definition ok (r : Response) : bool :=
  ((200 <=? status r) && (status r <=? 299))%Z.

(** ** Configuration *)

(** [path.join(dir, file)] for a normalised absolute directory and a
    plain file name. *)
Definition path_join (dir file : string) : string :=
  if String.eqb dir "/" then dir ++ file else dir ++ "/" ++ file.

(** [path.resolve(p)] in the working directory [cwd], for normalised
    paths: how [readFile] and [writeFile] find the file of a path. *)
Definition path_resolve (cwd p : string) : string :=
  if String.prefix "/" p then p else path_join cwd p.

Record Credentials : Type := {
  username : string;
  password : string
}.

Record Config : Type := {
  domain : string;
  loginUrl : string;
  usersApiUrl : string;
  settingsPageUrl : string;
  credentials : Credentials;
  cookieFilePath : string;
  outputFilePath : string
}.

(** [config]; [cwd] is what [process.cwd()] returns. *)
Definition config (cwd : string) : Config := {|
  domain := "https://challenge.sunvoy.com";
  loginUrl := "https://challenge.sunvoy.com/login";
  usersApiUrl := "https://challenge.sunvoy.com/api/users";
  settingsPageUrl := "https://challenge.sunvoy.com/settings";
  credentials := {| username := "demo@example.org"; password := "test" |};
  cookieFilePath := "cookies.json";
  outputFilePath := path_join cwd "users.json"
|}.

(** [interface User] *)
Record User : Type := {
  id : option string;
  firstName : option string;
  lastName : option string;
  email : option string
}.

(** A [User] as a value inside [allData]: a property that is
    [undefined] reads back as [undefined] and is not printed by
    [JSON.stringify], so it is left out of the object. *)
Definition User_value (u : User) : JSON.json :=
  let field (k : string) (v : option string) :=
    match v with
    | Some s => [(k, JSON.JStr s)]
    | None => []
    end in
  JSON.JObj (field "id" (id u) ++ field "firstName" (firstName u)
             ++ field "lastName" (lastName u) ++ field "email" (email u)).

(** The object with the four fields of a user, all strings. *)
Definition user_object (i f l e : string) : JSON.json :=
  JSON.JObj [("id", JSON.JStr i); ("firstName", JSON.JStr f);
             ("lastName", JSON.JStr l); ("email", JSON.JStr e)].

(** ** Errors, observable events and the world *)

Inductive Error : Type :=
| SessionLoadError      (* readFile or CookieJar.fromJSON throws in loadCookies *)
| ProtocolError         (* "Could not find nonce value on the login page." *)
| AuthenticationError   (* "Authentication failed. The server did not return a valid session." *)
| FetchError            (* "Users API fetch failed." *)
| NetworkError          (* fetch rejects: no response was received *)
| CookieRejected        (* cookieJar.setCookie rejects the header *)
| WriteError            (* writeFile rejects *)
| ParseError            (* response.json() rejects *)
| NotIterable           (* spreading a value that is not iterable *)
| LaunchError           (* puppeteer.launch rejects *)
| PageCookieError       (* page.setCookie rejects *)
| NavigationError       (* page.goto rejects *)
| TimeoutError          (* page.waitForSelector times out *)
| JarError              (* cookieJar.getCookies or getCookieString rejects *)
| TypeError.            (* key.includes is not a function *)

(** The message of the errors the script itself throws. *)
Definition message (e : Error) : option string :=
  match e with
  | ProtocolError => Some "Could not find nonce value on the login page."
  | AuthenticationError =>
      Some "Authentication failed. The server did not return a valid session."
  | FetchError => Some "Users API fetch failed."
  | _ => None
  end.

Inductive Message : Type :=
| NoValidSession
| ReusingSession
| Success (path : string)
| TotalItems (n : nat)
| Failed (e : Error).

(** The calls the script makes to the outside, in the order it makes them. *)
Inductive Event : Type :=
| ReadFile (path : string)
| WriteFile (path content : string)
| Fetch (req : Request)
| Launch
| NewPage
| PageSetCookie (c : Puppeteer.CookieParam)
| Goto (url : string)
| WaitForSelector (s : Dom.selector)
| Content
| Close
| Log (m : Message)
| Exit (code : Z).

(** Everything outside the script that a run depends on. *)
Record World : Type := {
  (** the working directory of the process, by the names on its path *)
  directory : list string;
  (** whether [writeFile] to a file, named by its resolved path, succeeds *)
  writable : string -> bool;
  (** the successive readings of the clock *)
  now : nat -> Z;
  (** the answer to a request, [None] when none arrives *)
  network : Request -> option Response;
  (** whether the browser starts *)
  launches : bool;
  (** whether the page takes a cookie *)
  accepts : Puppeteer.CookieParam -> bool;
  (** the page shown at a URL to a browser holding the cookies set so
      far, [None] when the navigation fails *)
  navigate : list Puppeteer.CookieParam -> string -> option Puppeteer.Page
}.

(** [process.cwd()]: an absolute, normalised path. *)
Definition cwd (w : World) : string :=
  String "/" (String.concat "/" (directory w)).

(** The libraries the script calls on text and on the cookie jar. *)
Class Libraries : Type := {
  (** a tough-cookie [CookieJar] *)
  Jar : Type;
  (** [new CookieJar()] *)
  CookieJar_new : Jar;
  (** [CookieJar.fromJSON(text)], [None] when it throws *)
  CookieJar_fromJSON : string -> option Jar;
  (** [JSON.stringify(jar.toJSON())] *)
  CookieJar_toJSON : Jar -> string;
  (** [jar.getCookies(url)] at a time: the cookies sent to [url] and
      the jar afterwards, [None] when it rejects *)
  CookieJar_getCookies : Z -> string -> Jar -> option (list Tough.Cookie * Jar);
  (** [jar.setCookie(header, url)] at a time, [None] when it rejects *)
  CookieJar_setCookie : Z -> string -> string -> Jar -> option Jar;
  (** [cheerio.load(html)] *)
  cheerio_load : string -> list Dom.node;
  (** [JSON.parse(text)], [None] when it throws *)
  JSON_parse : string -> option JSON.json;
  (** a new jar yields no cookie for the domain of the script *)
  new_jar_empty : forall t cwd,
    option_map fst (CookieJar_getCookies t (domain (config cwd)) CookieJar_new)
    = Some []
}.

(** What an awaited call settles to. *)
Inductive Result (A : Type) : Type :=
| Return (a : A)
| Throw (e : Error).
Arguments Return {A} a.
Arguments Throw {A} e.

(** ** The script *)

Section Script.

Context {L : Libraries}.

(** The module-level [cookieJar], the files by their resolved paths,
    the clock and the open browser page (its cookies), with the calls
    made so far. *)
Record State : Type := {
  cookieJar : Jar;
  disk : gmap string string;
  ticks : nat;
  page : option (list Puppeteer.CookieParam);
  trace : list Event
}.

(** An asynchronous computation: what it settles to and the state it
    leaves, which survives a rejection. *)
Definition M (A : Type) : Type := World -> State -> Result A * State.

Definition ret {A} (a : A) : M A := fun _ st => (Return a, st).

Definition throw {A} (e : Error) : M A := fun _ st => (Throw e, st).

Definition bind {A B} (m : M A) (k : A -> M B) : M B :=
  fun w st =>
    match m w st with
    | (Return a, st') => k a w st'
    | (Throw e, st') => (Throw e, st')
    end.

(** [try { m } catch (error) { handler(error) }] *)
Definition try_catch {A} (m : M A) (handler : Error -> M A) : M A :=
  fun w st =>
    match m w st with
    | (Return a, st') => (Return a, st')
    | (Throw e, st') => handler e w st'
    end.

Definition emit (e : Event) : M unit :=
  fun _ st =>
    (Return tt,
     {| cookieJar := cookieJar st; disk := disk st; ticks := ticks st;
        page := page st; trace := trace st ++ [e] |}).

End Script.

Declare Scope script_scope.
Delimit Scope script_scope with script.
Notation "x <- m ;; k" := (bind m (fun x => k))
  (at level 100, m at next level, right associativity) : script_scope.
Notation "m ;; k" := (bind m (fun _ => k))
  (at level 100, right associativity) : script_scope.

Local Open Scope script_scope.

Section Program.

Context {L : Libraries}.

Definition with_jar (j : Jar) (st : State) : State :=
  {| cookieJar := j; disk := disk st; ticks := ticks st;
     page := page st; trace := trace st |}.

Definition with_disk (d : gmap string string) (st : State) : State :=
  {| cookieJar := cookieJar st; disk := d; ticks := ticks st;
     page := page st; trace := trace st |}.

Definition with_page (p : option (list Puppeteer.CookieParam)) (st : State) : State :=
  {| cookieJar := cookieJar st; disk := disk st; ticks := ticks st;
     page := p; trace := trace st |}.

(** *** The calls to the outside *)

(** [Date.now()], read inside the cookie jar *)
Definition tick : M Z :=
  fun w st =>
    (Return (now w (ticks st)),
     {| cookieJar := cookieJar st; disk := disk st; ticks := S (ticks st);
        page := page st; trace := trace st |}).

(** [readFile(path, "utf-8")] *)
Definition readFile (path : string) : M string :=
  emit (ReadFile path) ;;
  fun w st =>
    match disk st !! path_resolve (cwd w) path with
    | Some content => (Return content, st)
    | None => (Throw SessionLoadError, st)
    end.

(** [writeFile(path, content)] *)
Definition writeFile (path content : string) : M unit :=
  emit (WriteFile path content) ;;
  fun w st =>
    let file := path_resolve (cwd w) path in
    if writable w file
    then (Return tt, with_disk (<[file := content]> (disk st)) st)
    else (Throw WriteError, st).

(** [fetch(url, init)] *)
Definition fetch (req : Request) : M Response :=
  emit (Fetch req) ;;
  fun w st =>
    match network w req with
    | Some res => (Return res, st)
    | None => (Throw NetworkError, st)
    end.

(** [cookieJar.getCookies(url)] *)
Definition getCookies (url : string) : M (list Tough.Cookie) :=
  t <- tick ;;
  fun _ st =>
    match CookieJar_getCookies t url (cookieJar st) with
    | Some (cookies, jar) => (Return cookies, with_jar jar st)
    | None => (Throw JarError, st)
    end.

(** [cookieJar.getCookieString(url)] *)
Definition getCookieString (url : string) : M string :=
  cookies <- getCookies url ;;
  ret (String.concat "; " (map Tough.cookieString cookies)).

(** [cookieJar.setCookie(cookie, url)] *)
Definition setCookie (cookie url : string) : M unit :=
  t <- tick ;;
  fun _ st =>
    match CookieJar_setCookie t cookie url (cookieJar st) with
    | Some jar => (Return tt, with_jar jar st)
    | None => (Throw CookieRejected, st)
    end.

(** [response.json()] *)
Definition json (res : Response) : M JSON.json :=
  match JSON_parse (text res) with
  | Some v => ret v
  | None => throw ParseError
  end.

(** [puppeteer.launch()] *)
Definition launch : M unit :=
  emit Launch ;;
  fun w st => if launches w then (Return tt, st) else (Throw LaunchError, st).

(** [browser.newPage()] *)
Definition newPage : M unit :=
  emit NewPage ;;
  fun _ st => (Return tt, with_page (Some []) st).

(** [page.setCookie(cookie)] *)
Definition page_setCookie (cookie : Puppeteer.CookieParam) : M unit :=
  emit (PageSetCookie cookie) ;;
  fun w st =>
    match page st with
    | Some cookies =>
        if accepts w cookie
        then (Return tt, with_page (Some (cookies ++ [cookie])%list) st)
        else (Throw PageCookieError, st)
    | None => (Throw PageCookieError, st)
    end.

(** [page.goto(url)] *)
Definition goto (url : string) : M Puppeteer.Page :=
  emit (Goto url) ;;
  fun w st =>
    match page st with
    | Some cookies =>
        match navigate w cookies url with
        | Some shown => (Return shown, st)
        | None => (Throw NavigationError, st)
        end
    | None => (Throw NavigationError, st)
    end.

(** [page.waitForSelector(selector)] *)
Definition waitForSelector (shown : Puppeteer.Page) (s : Dom.selector) : M unit :=
  emit (WaitForSelector s) ;;
  if Puppeteer.appears shown s then ret tt else throw TimeoutError.

(** [page.content()] *)
Definition content (shown : Puppeteer.Page) : M string :=
  emit Content ;; ret (Puppeteer.content shown).

(** [browser.close()] *)
Definition close : M unit :=
  emit Close ;;
  fun _ st => (Return tt, with_page None st).

(** [console.log] and [console.error] *)
Definition log (m : Message) : M unit := emit (Log m).

(** [process.exit(code)] *)
Definition exit (code : Z) : M unit := emit (Exit code).

(** [for (const x of xs) { await f(x); }] *)
Fixpoint for_each {A} (xs : list A) (f : A -> M unit) : M unit :=
  match xs with
  | [] => ret tt
  | x :: rest => f x ;; for_each rest f
  end.

(** *** The functions of [index.ts] *)

Definition loadCookies : M unit :=
  fun w =>
    try_catch
      (cookieFile <- readFile (cookieFilePath (config (cwd w))) ;;
       match CookieJar_fromJSON cookieFile with
       | Some jar => fun _ st => (Return tt, with_jar jar st)
       | None => throw SessionLoadError
       end)
      (fun _ => ret tt) w.

Definition saveCookies : M unit :=
  fun w st =>
    writeFile (cookieFilePath (config (cwd w))) (CookieJar_toJSON (cookieJar st)) w st.

(** [key?.includes(needle)] as the condition of [find]: a string has
    [String.prototype.includes], an array [Array.prototype.includes];
    on [null] the optional chain gives [undefined]; any other value
    has no method of that name and the call throws. *)
Definition includes (key : JSON.json) (needle : string) : Result bool :=
  match key with
  | JSON.JNull => Return false
  | JSON.JStr s => Return (Text.includes needle s)
  | JSON.JArr items => Return (existsb (JSON.eqb (JSON.JStr needle)) items)
  | JSON.JBool _ | JSON.JNum _ | JSON.JObj _ => Throw TypeError
  end.

(** [xs.find(p)] for a callback that can throw. *)
Fixpoint find_first {A} (p : A -> Result bool) (xs : list A) : Result (option A) :=
  match xs with
  | [] => Return None
  | x :: rest =>
      match p x with
      | Return true => Return (Some x)
      | Return false => find_first p rest
      | Throw e => Throw e
      end
  end.

(** A computation with no effect. *)
Definition settle {A} (r : Result A) : M A := fun _ st => (r, st).

Definition hasValidSession : M bool :=
  fun w =>
    (cookies <- getCookies (domain (config (cwd w))) ;;
     sessionCookie <-
       settle (find_first (fun c => includes (Tough.key c) "session") cookies) ;;
     ret (match sessionCookie with Some _ => true | None => false end)) w.

Definition login_page_request (c : Config) : Request := {|
  url := loginUrl c;
  method := GET;
  headers := [];
  body := None;
  redirect_manual := false
|}.

Definition login_submit_request (c : Config) (nonce : string) : Request := {|
  url := loginUrl c;
  method := POST;
  headers := [("Content-Type", "application/x-www-form-urlencoded")];
  body := Some (Text.URLSearchParams_toString
                  [("nonce", nonce);
                   ("username", username (credentials c));
                   ("password", password (credentials c))]);
  redirect_manual := true
|}.

Definition authenticate : M unit :=
  fun w =>
    let c := config (cwd w) in
    (loginPageRes <- fetch (login_page_request c) ;;
     let html := text loginPageRes in
     let doc := cheerio_load html in
     let nonce := Dom.val (Dom.select Dom.input_name_nonce doc) in
     match nonce with
     | None => throw ProtocolError
     | Some nonce =>
         authRes <- fetch (login_submit_request c nonce) ;;
         let cookieHeaders := getSetCookie authRes in
         if negb (status authRes =? 302)%Z || (length cookieHeaders =? 0)%nat
         then throw AuthenticationError
         else for_each cookieHeaders (fun cookie => setCookie cookie (domain c))
     end) w.

Definition users_request (c : Config) (cookieString : string) : Request := {|
  url := usersApiUrl c;
  method := POST;
  headers := [("Cookie", cookieString)];
  body := None;
  redirect_manual := false
|}.

(** [v ?? undefined] *)
Definition or_undefined (v : JSON.json) : option JSON.json :=
  match v with
  | JSON.JNull => None
  | _ => Some v
  end.

(** The conversion of a tough-cookie to the format Puppeteer expects. *)
Definition toPuppeteer (cookie : Tough.Cookie) : Puppeteer.CookieParam := {|
  Puppeteer.name := Tough.key cookie;
  Puppeteer.value := Tough.value cookie;
  Puppeteer.domain := or_undefined (Tough.domain cookie);
  Puppeteer.path := or_undefined (Tough.path cookie);
  Puppeteer.expires :=
    match Tough.expires cookie with
    | Tough.Infinity => Number.of_Z (-1)
    | expires =>
        match Tough.getTime expires with
        | Some ms => Number.div ms 1000
        | None => Number.NaN
        end
    end;
  Puppeteer.secure := Tough.secure cookie;
  Puppeteer.httpOnly := Tough.httpOnly cookie
|}.

(** [v || ""] *)
Definition or_empty (v : option string) : string :=
  match v with
  | Some s => if String.eqb s EmptyString then EmptyString else s
  | None => EmptyString
  end.

(** The record scraped from the loaded settings markup. *)
Definition currentUser (doc : list Dom.node) : User :=
  let inputs := Dom.select Dom.form_input doc in
  {| id := Some (or_empty (Dom.val (Dom.eq 0 inputs)));
     firstName := Some (or_empty (Dom.val (Dom.eq 1 inputs)));
     lastName := Some (or_empty (Dom.val (Dom.eq 2 inputs)));
     email := Some (or_empty (Dom.val (Dom.eq 3 inputs))) |}.

Definition fetchData : M (list JSON.json) :=
  fun w =>
    let c := config (cwd w) in
    (cookieString <- getCookieString (domain c) ;;
     usersResponse <- fetch (users_request c cookieString) ;;
     if negb (ok usersResponse) then throw FetchError else
     userList <- json usersResponse ;;
     launch ;;
     newPage ;;
     toughCookies <- getCookies (domain c) ;;
     let puppeteerCookies := map toPuppeteer toughCookies in
     for_each puppeteerCookies page_setCookie ;;
     shown <- goto (settingsPageUrl c) ;;
     waitForSelector shown Dom.form_space_y_4_input ;;
     settingsHtml <- content shown ;;
     close ;;
     let doc := cheerio_load settingsHtml in
     match JSON.spread userList with
     | Some items => ret (items ++ [User_value (currentUser doc)])%list
     | None => throw NotIterable
     end) w.

(** The [try] block of [main]. *)
Definition main_try : M unit :=
  fun w =>
    let c := config (cwd w) in
    (loadCookies ;;
     valid <- hasValidSession ;;
     (if negb valid
      then log NoValidSession ;; authenticate ;; saveCookies
      else log ReusingSession) ;;
     allData <- fetchData ;;
     writeFile (outputFilePath c) (JSON.stringify (JSON.JArr allData) 2) ;;
     log (Success (outputFilePath c)) ;;
     log (TotalItems (length allData))) w.

Definition main : M unit :=
  try_catch main_try (fun error => log (Failed error) ;; exit 1).

(** The state the module starts in: a new jar, no page. *)
Definition initial (files : gmap string string) : State := {|
  cookieJar := CookieJar_new;
  disk := files;
  ticks := 0;
  page := None;
  trace := []
|}.

(** A run of the script over the files present at its start, each under
    its resolved path. *)
Definition run (w : World) (files : gmap string string) : State :=
  snd (main w (initial files)).

(** The exit code of the process. *)
Definition exit_code (st : State) : Z :=
  match last (trace st) with
  | Some (Exit code) => code
  | _ => 0%Z
  end.

End Program.

(** ** A sample of the libraries and of the world

    The general results below hold for every behaviour of the libraries.
    To run the script on concrete worlds, this instance answers the
    library calls on a handful of texts the way the libraries do, by
    table.  The examples stay inside the tables; outside them a
    Set-Cookie header is rejected, a JSON text does not parse, an HTML
    text loads as an empty document and a jar is saved as an empty one. *)

Module Sample.

Fixpoint assoc {A} (k : string) (table : list (string * A)) : option A :=
  match table with
  | [] => None
  | (k', v) :: rest => if String.eqb k k' then Some v else assoc k rest
  end.

Definition host : string := "challenge.sunvoy.com".

(** 2026-11-02T00:00:00Z, 2020-01-01T00:00:00Z and 2030-01-01T00:00:00Z
    in milliseconds since the epoch. *)
Definition today : Z := 1793577600000.
Definition new_year_2020 : Z := 1577836800000.
Definition new_year_2030 : Z := 1893456000000.

(** A cookie of the host, as the jar keeps it, under a name that can be
    any value a session file holds. *)
Definition named_cookie (name : JSON.json) (e : Tough.Expires) : Tough.Cookie := {|
  Tough.key := name;
  Tough.value := JSON.JStr "abc";
  Tough.domain := JSON.JStr host;
  Tough.path := JSON.JStr "/";
  Tough.expires := e;
  Tough.secure := JSON.JBool false;
  Tough.httpOnly := JSON.JBool true
|}.

Definition session_cookie (e : Tough.Expires) : Tough.Cookie :=
  named_cookie (JSON.JStr "session") e.

Definition theme_cookie : Tough.Cookie := {|
  Tough.key := JSON.JStr "theme";
  Tough.value := JSON.JStr "dark";
  Tough.domain := JSON.JStr host;
  Tough.path := JSON.JStr "/";
  Tough.expires := Tough.Infinity;
  Tough.secure := JSON.JBool false;
  Tough.httpOnly := JSON.JBool false
|}.

(** A header whose Domain attribute names another host: the jar rejects
    it ("Cookie not in this host's domain"). *)
Definition foreign_header : string := "session=abc; Domain=example.org".

(** Set-Cookie headers received from the host, as [Cookie.parse] and
    the jar's checks read them; [None] for a header the jar rejects. *)
Definition set_cookie_headers : list (string * option Tough.Cookie) :=
  [ ("session=abc; Path=/; HttpOnly", Some (session_cookie Tough.Infinity));
    ("theme=dark; Path=/", Some theme_cookie);
    (foreign_header, None) ].

(** Saved jars, as [JSON.stringify(jar.toJSON())] prints them. *)
Definition jar_text (cookies : string) : string :=
  Text.requote ("{'version':'tough-cookie@4.1.4','storeType':'MemoryCookieStore',"
    ++ "'rejectPublicSuffixes':true,'cookies':[" ++ cookies ++ "]}").

Definition cookie_text (name expiry created : string) : string :=
  "{'key':" ++ name ++ ",'value':'abc'," ++ expiry
  ++ "'domain':'challenge.sunvoy.com','path':'/','httpOnly':true,'hostOnly':true,"
  ++ "'creation':'" ++ created ++ "','lastAccessed':'" ++ created ++ "'}".

Definition session_text (expiry created : string) : string :=
  cookie_text "'session'" expiry created.

Definition theme_text : string :=
  "{'key':'theme','value':'dark','domain':'challenge.sunvoy.com','path':'/',"
  ++ "'hostOnly':true,'creation':'2026-11-02T00:00:00.000Z',"
  ++ "'lastAccessed':'2026-11-02T00:00:00.000Z'}".

(** A session file left by a run of December 2019, whose session cookie
    expired with the year. *)
Definition expired_session_file : string :=
  jar_text (session_text "'expires':'2020-01-01T00:00:00.000Z',"
                         "2019-12-01T00:00:00.000Z").

(** The same with a session cookie good until 2030. *)
Definition valid_session_file : string :=
  jar_text (session_text "'expires':'2030-01-01T00:00:00.000Z',"
                         "2019-12-01T00:00:00.000Z").

(** Session files edited by hand: one whose session cookie has the
    expiry [null], one whose cookie is named by the number 7, and one
    in which that cookie comes after a session cookie. *)
Definition null_expiry_file : string :=
  jar_text (session_text "'expires':null," "2019-12-01T00:00:00.000Z").

Definition number_key_file : string :=
  jar_text (cookie_text "7" EmptyString "2019-12-01T00:00:00.000Z").

Definition session_then_number_file : string :=
  jar_text (session_text EmptyString "2019-12-01T00:00:00.000Z" ++ ","
            ++ cookie_text "7" EmptyString "2019-12-02T00:00:00.000Z").

Definition saved_jars : list (string * list Tough.Cookie) :=
  [ (expired_session_file, [session_cookie (Tough.Date new_year_2020)]);
    (valid_session_file, [session_cookie (Tough.Date new_year_2030)]);
    (jar_text (session_text EmptyString "2026-11-02T00:00:00.000Z"),
     [session_cookie Tough.Infinity]);
    (jar_text theme_text, [theme_cookie]);
    (jar_text (session_text EmptyString "2026-11-02T00:00:00.000Z" ++ "," ++ theme_text),
     [session_cookie Tough.Infinity; theme_cookie]);
    (null_expiry_file, [session_cookie Tough.Null]);
    (number_key_file, [named_cookie (JSON.JNum "7") Tough.Infinity]);
    (session_then_number_file,
     [session_cookie Tough.Infinity; named_cookie (JSON.JNum "7") Tough.Infinity]);
    (jar_text EmptyString, []) ].

Definition same_expires (a b : Tough.Expires) : bool :=
  match a, b with
  | Tough.Infinity, Tough.Infinity => true
  | Tough.Date x, Tough.Date y => (x =? y)%Z
  | Tough.InvalidDate, Tough.InvalidDate => true
  | Tough.Null, Tough.Null => true
  | _, _ => false
  end.

Definition same_cookie (a b : Tough.Cookie) : bool :=
  JSON.eqb (Tough.key a) (Tough.key b)
  && JSON.eqb (Tough.value a) (Tough.value b)
  && JSON.eqb (Tough.domain a) (Tough.domain b)
  && JSON.eqb (Tough.path a) (Tough.path b)
  && same_expires (Tough.expires a) (Tough.expires b)
  && JSON.eqb (Tough.secure a) (Tough.secure b)
  && JSON.eqb (Tough.httpOnly a) (Tough.httpOnly b).

Fixpoint same_jar (a b : list Tough.Cookie) : bool :=
  match a, b with
  | [], [] => true
  | x :: a', y :: b' => same_cookie x y && same_jar a' b'
  | _, _ => false
  end.

Definition same_slot (a b : Tough.Cookie) : bool :=
  JSON.eqb (Tough.key a) (Tough.key b)
  && JSON.eqb (Tough.domain a) (Tough.domain b)
  && JSON.eqb (Tough.path a) (Tough.path b).

(** Storing a cookie replaces the one with the same domain, path and
    key, or adds it after the others. *)
Fixpoint put (c : Tough.Cookie) (jar : list Tough.Cookie) : list Tough.Cookie :=
  match jar with
  | [] => [c]
  | c' :: rest => if same_slot c c' then c :: rest else c' :: put c rest
  end.

(** [cookie.expiryTime() <= now]: a date that is not valid compares
    false. *)
Definition expired (t : Z) (c : Tough.Cookie) : bool :=
  match Tough.expires c with
  | Tough.Date ms => (ms <=? t)%Z
  | _ => false
  end.

(** The cookies of the jar sent to the root of the host. *)
Definition sent_to_host (c : Tough.Cookie) : bool :=
  JSON.eqb (Tough.domain c) (JSON.JStr host)
  && JSON.eqb (Tough.path c) (JSON.JStr "/").

(** On a cookie whose expiry is [null] the jar's expiry check throws
    ([expires.getTime] of [null]). *)
Definition unreadable (c : Tough.Cookie) : bool :=
  sent_to_host c
  && match Tough.expires c with Tough.Null => true | _ => false end.

Definition getCookies (t : Z) (url : string) (jar : list Tough.Cookie)
  : option (list Tough.Cookie * list Tough.Cookie) :=
  if String.eqb url "https://challenge.sunvoy.com"
  then
    if existsb unreadable jar then None
    else Some (List.filter (fun c => sent_to_host c && negb (expired t c)) jar,
               List.filter (fun c => negb (sent_to_host c && expired t c)) jar)
  else Some ([], jar).

Definition setCookie (t : Z) (header url : string) (jar : list Tough.Cookie)
  : option (list Tough.Cookie) :=
  if String.eqb url "https://challenge.sunvoy.com"
  then match assoc header set_cookie_headers with
       | Some (Some c) => Some (put c jar)
       | Some None | None => None
       end
  else None.

Definition toJSON (jar : list Tough.Cookie) : string :=
  match find (fun entry => same_jar (snd entry) jar) saved_jars with
  | Some entry => fst entry
  | None => jar_text EmptyString
  end.

(** The documents [cheerio.load] builds for the sample pages. *)
Definition document (body : list Dom.node) : list Dom.node :=
  [Dom.Element "html" [] [Dom.Element "head" [] []; Dom.Element "body" [] body]].

Definition input (attribs : list (string * string)) : Dom.node :=
  Dom.Element "input" attribs [].

Definition login_html : string :=
  "<form method='post' action='/login'>"
  ++ "<input type='hidden' name='nonce' value='n0nce'>"
  ++ "<input type='email' name='username'>"
  ++ "<input type='password' name='password'>"
  ++ "<button type='submit'>Login</button></form>".

Definition login_html_without_nonce : string :=
  "<form method='post' action='/login'>"
  ++ "<input type='email' name='username'>"
  ++ "<input type='password' name='password'>"
  ++ "<button type='submit'>Login</button></form>".

Definition settings_html : string :=
  "<form class='space-y-4'><input value='42'><input value='John'>"
  ++ "<input value='Doe'><input value='john@doe.com'></form>".

(** The same values under field names that point elsewhere. *)
Definition settings_html_renamed : string :=
  "<form class='space-y-4'><input name='email' id='email' value='42'>"
  ++ "<input name='lastName' value='John'><input name='firstName' value='Doe'>"
  ++ "<input name='id' value='john@doe.com'></form>".

(** A form with an empty value, an input without value and no fourth input. *)
Definition settings_html_short : string :=
  "<form class='space-y-4'><input value='42'><input value=''><input></form>".

(** The settings form below a search box that is in no form. *)
Definition settings_html_search : string :=
  "<input name='q' value='find'>" ++ settings_html.

Definition login_form (fields : list Dom.node) : list Dom.node :=
  document
    [Dom.Element "form" [("method", "post"); ("action", "/login")]
       (fields ++
        [input [("type", "email"); ("name", "username")];
         input [("type", "password"); ("name", "password")];
         Dom.Element "button" [("type", "submit")] [Dom.TextNode "Login"]])%list].

Definition settings_form (fields : list Dom.node) : list Dom.node :=
  document [Dom.Element "form" [("class", "space-y-4")] fields].

Definition documents : list (string * list Dom.node) :=
  [ (login_html,
     login_form [input [("type", "hidden"); ("name", "nonce"); ("value", "n0nce")]]);
    (login_html_without_nonce, login_form []);
    (settings_html,
     settings_form [input [("value", "42")]; input [("value", "John")];
                    input [("value", "Doe")]; input [("value", "john@doe.com")]]);
    (settings_html_renamed,
     settings_form [input [("name", "email"); ("id", "email"); ("value", "42")];
                    input [("name", "lastName"); ("value", "John")];
                    input [("name", "firstName"); ("value", "Doe")];
                    input [("name", "id"); ("value", "john@doe.com")]]);
    (settings_html_short,
     settings_form [input [("value", "42")]; input [("value", EmptyString)]; input []]);
    (settings_html_search,
     document
       [input [("name", "q"); ("value", "find")];
        Dom.Element "form" [("class", "space-y-4")]
          [input [("value", "42")]; input [("value", "John")];
           input [("value", "Doe")]; input [("value", "john@doe.com")]]]) ].

Definition load (html : string) : list Dom.node :=
  match assoc html documents with
  | Some doc => doc
  | None => document []
  end.

(** The bodies the users endpoint answers with in the examples. *)
Definition one_user_json : string :=
  Text.requote "[{'id':'1','firstName':'A','lastName':'B','email':'a@b.com'}]".

Definition partial_user_json : string := Text.requote "[{'id':'7'}]".

Definition john_json : string :=
  Text.requote "[{'id':'42','firstName':'John','lastName':'Doe','email':'john@doe.com'}]".

Definition json_texts : list (string * JSON.json) :=
  [ ("[]", JSON.JArr []);
    (one_user_json, JSON.JArr [user_object "1" "A" "B" "a@b.com"]);
    (partial_user_json, JSON.JArr [JSON.JObj [("id", JSON.JStr "7")]]);
    (john_json, JSON.JArr [user_object "42" "John" "Doe" "john@doe.com"]) ].

#[global] Instance libraries : Libraries := {|
  Jar := list Tough.Cookie;
  CookieJar_new := [];
  CookieJar_fromJSON text := assoc text saved_jars;
  CookieJar_toJSON := toJSON;
  CookieJar_getCookies := getCookies;
  CookieJar_setCookie := setCookie;
  cheerio_load := load;
  JSON_parse text := assoc text json_texts;
  new_jar_empty := fun _ _ => eq_refl
|}.

(** A server and a browser: what the login page shows, how the login
    submission is answered, how the users endpoint answers and what the
    settings page renders to. *)
Record Scenario : Type := {
  login_page : string;
  submit_status : Z;
  submit_cookies : list string;
  users_status : Z;
  users_body : string;
  settings_page : string
}.

Definition world (s : Scenario) : World := {|
  directory := ["home"; "app"];
  writable := fun _ => true;
  now := fun _ => today;
  network := fun req =>
    if String.eqb (url req) "https://challenge.sunvoy.com/login" then
      match method req with
      | GET => Some {| status := 200; getSetCookie := []; text := login_page s |}
      | POST => Some {| status := submit_status s;
                        getSetCookie := submit_cookies s;
                        text := EmptyString |}
      end
    else if String.eqb (url req) "https://challenge.sunvoy.com/api/users" then
      Some {| status := users_status s; getSetCookie := []; text := users_body s |}
    else None;
  launches := true;
  accepts := fun _ => true;
  navigate := fun _ url =>
    if String.eqb url "https://challenge.sunvoy.com/settings" then
      Some {| Puppeteer.appears := fun sel =>
                match Dom.select sel (load (settings_page s)) with
                | [] => false
                | _ :: _ => true
                end;
              Puppeteer.content := settings_page s |}
    else None
|}.


(** Variations on the usual day. *)
Definition with_users (code : Z) (body : string) (s : Scenario) : Scenario := {|
  login_page := login_page s;
  submit_status := submit_status s;
  submit_cookies := submit_cookies s;
  users_status := code;
  users_body := body;
  settings_page := settings_page s
|}.

Definition with_settings (html : string) (s : Scenario) : Scenario := {|
  login_page := login_page s;
  submit_status := submit_status s;
  submit_cookies := submit_cookies s;
  users_status := users_status s;
  users_body := users_body s;
  settings_page := html
|}.

Definition with_login (html : string) (code : Z) (cookies : list string)
  (s : Scenario) : Scenario := {|
  login_page := html;
  submit_status := code;
  submit_cookies := cookies;
  users_status := users_status s;
  users_body := users_body s;
  settings_page := settings_page s
|}.

(** The server of the challenge on a day when all goes well. *)
Definition usual : Scenario := {|
  login_page := login_html;
  submit_status := 302;
  submit_cookies := ["session=abc; Path=/; HttpOnly"];
  users_status := 200;
  users_body := one_user_json;
  settings_page := settings_html
|}.

(** The users endpoint lists the current user too. *)
Definition john_listed : Scenario := with_users 200 john_json usual.

(** The users endpoint answers 403. *)
Definition users_forbidden : Scenario := with_users 403 EmptyString usual.

(** The login page shows no nonce. *)
Definition without_nonce : Scenario :=
  with_login login_html_without_nonce 302 ["session=abc; Path=/; HttpOnly"] usual.

(** The login is answered with a redirect and a cookie that is no
    session cookie. *)
Definition theme_only : Scenario :=
  with_login login_html 302 ["theme=dark; Path=/"] usual.

(** The login is answered with a redirect and a cookie for another host. *)
Definition foreign_cookie : Scenario :=
  with_login login_html 302 [foreign_header] usual.

(** The login is answered with a redirect and three cookies, the second
    for another host. *)
Definition theme_then_foreign : Scenario :=
  with_login login_html 302
    ["theme=dark; Path=/"; foreign_header; "session=abc; Path=/; HttpOnly"] usual.

(** The login is answered with a redirect, a session cookie and one
    more cookie. *)
Definition session_and_theme : Scenario :=
  with_login login_html 302
    ["session=abc; Path=/; HttpOnly"; "theme=dark; Path=/"] usual.

(** The settings page renders to an empty document. *)
Definition blank_settings : Scenario := with_settings EmptyString usual.

(** The settings page has a search box above its form. *)
Definition with_search : Scenario := with_settings settings_html_search usual.

(** The configuration in the working directory of the sample worlds. *)
Definition home : Config := config "/home/app".


Definition fresh_files : gmap string string :=
  {[ "/home/app/cookies.json" := valid_session_file ]}.

(** A session file that is no JSON, the session files edited by hand,
    and the output of an earlier run. *)
Definition broken_files : gmap string string :=
  {[ "/home/app/cookies.json" := "{ not json" ]}.

Definition null_expiry_files : gmap string string :=
  {[ "/home/app/cookies.json" := null_expiry_file ]}.

Definition number_key_files : gmap string string :=
  {[ "/home/app/cookies.json" := number_key_file ]}.

Definition earlier_output : gmap string string :=
  {[ "/home/app/users.json" := "[]" ]}.

(** A file of the working directory that the script knows nothing of. *)
Definition other_files : gmap string string :=
  {[ "/home/app/notes.txt" := "keep" ]}.

End Sample.


(** ** Notions used in the statements *)

Section Notions.

Context {L : Libraries}.

Definition is_fetch (e : Event) : bool :=
  match e with Fetch _ => true | _ => false end.

Definition is_write (e : Event) : bool :=
  match e with WriteFile _ _ => true | _ => false end.

(** A request to the login URL, the page or the submission. *)
Definition is_login_request (c : Config) (e : Event) : bool :=
  match e with Fetch req => String.eqb (url req) (loginUrl c) | _ => false end.

(** The authenticated fetch of the user list. *)
Definition is_users_request (c : Config) (e : Event) : bool :=
  match e with Fetch req => String.eqb (url req) (usersApiUrl c) | _ => false end.

(** The calls of [writeFile] with the path of the session file, and
    with the path of the output file. *)
Definition is_session_write (c : Config) (e : Event) : bool :=
  match e with WriteFile p _ => String.eqb p (cookieFilePath c) | _ => false end.

Definition is_output_write (c : Config) (e : Event) : bool :=
  match e with WriteFile p _ => String.eqb p (outputFilePath c) | _ => false end.

(** The session file of a run, by its resolved path; the path of the
    output file is absolute. *)
Definition session_file (w : World) : string :=
  path_resolve (cwd w) (cookieFilePath (config (cwd w))).

(** The session as loaded and checked at the start of a run. *)
Definition checked (w : World) (files : gmap string string) : Result bool * State :=
  (loadCookies ;; hasValidSession) w (initial files).

(** What the check of the loaded session settles to. *)
Definition valid_on_load (w : World) (files : gmap string string) : Result bool :=
  fst (checked w files).

(** The state in which [authenticate] is called when the session is not valid. *)
Definition before_login (w : World) (files : gmap string string) : State :=
  snd (log NoValidSession w (snd (checked w files))).

(** The branch of [main] on the validity of the session. *)
Definition login_phase (valid : bool) : M unit :=
  if negb valid
  then log NoValidSession ;; authenticate ;; saveCookies
  else log ReusingSession.

(** The end of the [try] block, once [fetchData] has returned. *)
Definition output_phase (allData : list JSON.json) : M unit :=
  fun w =>
    let c := config (cwd w) in
    (writeFile (outputFilePath c) (JSON.stringify (JSON.JArr allData) 2) ;;
     log (Success (outputFilePath c)) ;;
     log (TotalItems (length allData))) w.

(** What follows the branch: the data are fetched and written out. *)
Definition finish : M unit :=
  allData <- fetchData ;; output_phase allData.

(** The [catch] block of [main], on what the [try] block settled to. *)
Definition report (outcome : Result unit * State) : State :=
  match outcome with
  | (Return _, st) => st
  | (Throw e, st) =>
      {| cookieJar := cookieJar st; disk := disk st; ticks := ticks st;
         page := page st;
         trace := (trace st ++ [Log (Failed e); Exit 1])%list |}
  end.


(** The jar after the headers were handed to it one after the other,
    the first at the [n]-th reading of the clock; [None] when the jar
    rejects one of them. *)
Fixpoint merged (w : World) (url : string) (n : nat) (cookieHeaders : list string)
  (jar : Jar) : option Jar :=
  match cookieHeaders with
  | [] => Some jar
  | cookie :: rest =>
      match CookieJar_setCookie (now w n) cookie url jar with
      | Some jar' => merged w url (S n) rest jar'
      | None => None
      end
  end.

(** What the jar answers when asked, in the state [st], for the cookies
    it sends to the domain. *)
Definition sent_cookies (w : World) (st : State) : option (list Tough.Cookie * Jar) :=
  CookieJar_getCookies (now w (ticks st)) (domain (config (cwd w))) (cookieJar st).

(** The Cookie header made of some cookies. *)
Definition cookie_header (cookies : list Tough.Cookie) : string :=
  String.concat "; " (map Tough.cookieString cookies).

(** A name that [includes("session")] holds of: a string with that
    substring, or an array with that element. *)
Definition names_session (key : JSON.json) : Prop :=
  (exists before after, key = JSON.JStr (before ++ "session" ++ after))
  \/ (exists items, key = JSON.JArr items /\ In (JSON.JStr "session") items).

(** A name on which calling [includes] throws: it is neither a string
    nor an array, and not [null]. *)
Definition has_no_includes (key : JSON.json) : Prop :=
  match key with
  | JSON.JBool _ | JSON.JNum _ | JSON.JObj _ => True
  | _ => False
  end.

(** What the check of the session settles to on the cookies the jar
    yields. *)
Definition session_check (cookies : list Tough.Cookie) : Result bool :=
  match find_first (fun c => includes (Tough.key c) "session") cookies with
  | Return (Some _) => Return true
  | Return None => Return false
  | Throw e => Throw e
  end.

(** What [.val()] reads on each element of ["form input"], in document order. *)
Definition input_values (doc : list Dom.node) : list (option string) :=
  map (fun n => Dom.val [n]) (Dom.select Dom.form_input doc).

(** The value at a position, [undefined] beyond the last input. *)
Definition value_at (i : nat) (doc : list Dom.node) : option string :=
  match nth_error (input_values doc) i with
  | Some v => v
  | None => None
  end.

(** The input elements of the markup, in a form or not, as the
    specification words it: the selector ["input"]. *)
Definition any_input : Dom.selector :=
  Dom.Selector [] (Dom.Compound "input" None None).

Definition markup_input_values (doc : list Dom.node) : list (option string) :=
  map (fun n => Dom.val [n]) (Dom.select any_input doc).

Definition markup_value_at (i : nat) (doc : list Dom.node) : option string :=
  match nth_error (markup_input_values doc) i with
  | Some v => v
  | None => None
  end.

(** The cookies the page was handed by the loop: all up to and with the
    first one it does not take; and those it took. *)
Fixpoint attempted (w : World) (cookies : list Puppeteer.CookieParam)
  : list Puppeteer.CookieParam :=
  match cookies with
  | [] => []
  | c :: rest => c :: (if accepts w c then attempted w rest else [])
  end.

Fixpoint taken (w : World) (cookies : list Puppeteer.CookieParam)
  : list Puppeteer.CookieParam :=
  match cookies with
  | [] => []
  | c :: rest => if accepts w c then c :: taken w rest else []
  end.

(** The value of the first input named nonce, when it is a string. *)
Definition nonce_of (html : string) : option string :=
  Dom.val (Dom.select Dom.input_name_nonce (cheerio_load html)).

(** The output file of the example of the specification, as the script
    prints it. *)
Definition spec_example_output : string :=
  Text.requote
    (String.concat Text.nl
       [ "[";
         "  {";
         "    'id': '1',";
         "    'firstName': 'A',";
         "    'lastName': 'B',";
         "    'email': 'a@b.com'";
         "  },";
         "  {";
         "    'id': '42',";
         "    'firstName': 'John',";
         "    'lastName': 'Doe',";
         "    'email': 'john@doe.com'";
         "  }";
         "]" ]).

(** The calls to the browser. *)
Definition is_browser_call (e : Event) : bool :=
  match e with
  | Launch | NewPage | PageSetCookie _ | Goto _ | WaitForSelector _
  | Content | Close => true
  | _ => false
  end.


(** The lines printed at the end of a run, and the exit. *)
Definition is_report (e : Event) : bool :=
  match e with
  | Log (Success _) | Log (TotalItems _) | Log (Failed _) | Exit _ => true
  | _ => false
  end.

(** The number of times the character [c] occurs in [s]. *)
Fixpoint count_char (c : ascii) (s : string) : nat :=
  match s with
  | EmptyString => 0
  | String c' rest => (if Ascii.eqb c c' then 1 else 0) + count_char c rest
  end.

(** The time values a date can hold. *)
Definition time_value (ms : Z) : Prop := (Z.abs ms <= 8640000000000000)%Z.

End Notions.

(** ** Properties *)

Section Properties.

Context {L : Libraries}.

(** *** Strings *)

Lemma prefix_app (n h : string) :
  String.prefix n h = true <-> exists z, h = n ++ z.
Proof.
  revert h. induction n as [|c n IH]; intros h.
  - split; [intros _; exists h; reflexivity | intros _; destruct h; reflexivity].
  - destruct h as [|d h]; simpl.
    + split; [discriminate | intros [z Hz]; discriminate].
    + destruct (Ascii.ascii_dec c d) as [Heq|Hne].
      * subst d. rewrite IH. split; intros [z Hz]; exists z.
        -- now rewrite Hz.
        -- now injection Hz.
      * split; [discriminate | intros [z Hz]; injection Hz; congruence].
Qed.

Lemma includes_app (n h : string) :
  Text.includes n h = true <-> exists a z, h = a ++ n ++ z.
Proof.
  induction h as [|d h IH].
  - change (Text.includes n EmptyString) with (String.prefix n EmptyString || false).
    rewrite orb_false_r, prefix_app. split.
    + intros [z Hz]. exists EmptyString, z. exact Hz.
    + intros [a [z Hz]]. destruct a; simpl in Hz; [exists z; exact Hz | discriminate].
  - change (Text.includes n (String d h))
      with (String.prefix n (String d h) || Text.includes n h).
    rewrite orb_true_iff, prefix_app, IH. split.
    + intros [[z Hz] | [a [z Hz]]].
      * exists EmptyString, z. exact Hz.
      * exists (String d a), z. simpl. now rewrite Hz.
    + intros [a [z Hz]]. destruct a as [|d' a]; simpl in Hz.
      * left. exists z. exact Hz.
      * right. exists a, z. now injection Hz.
Qed.

Lemma length_append (a b : string) :
  String.length (a ++ b) = String.length a + String.length b.
Proof. induction a as [|c a IH]; simpl; [reflexivity | now rewrite IH]. Qed.

Lemma append_assoc (s t u : string) : (s ++ t) ++ u = s ++ (t ++ u).
Proof.
  induction s as [|h rest IH]; [reflexivity|].
  change (String h ((rest ++ t) ++ u) = String h (rest ++ (t ++ u))).
  f_equal. exact IH.
Qed.

(** Two texts that are equal end alike. *)
Lemma append_inj_tail (a b x y : string) :
  String.length x = String.length y -> a ++ x = b ++ y -> x = y.
Proof.
  revert b. induction a as [|c a IH]; intros [|d b] Hlen Heq.
  - exact Heq.
  - change (x = String d (b ++ y)) in Heq. rewrite Heq in Hlen.
    cbn [String.length] in Hlen. rewrite length_append in Hlen. lia.
  - change (String c (a ++ x) = y) in Heq. rewrite <- Heq in Hlen.
    cbn [String.length] in Hlen. rewrite length_append in Hlen. lia.
  - change (String c (a ++ x) = String d (b ++ y)) in Heq.
    injection Heq as _ Heq. exact (IH b Hlen Heq).
Qed.

Lemma count_char_app (c : ascii) (s t : string) :
  count_char c (s ++ t) = count_char c s + count_char c t.
Proof.
  induction s as [|h rest IH]; [reflexivity|].
  change (String h rest ++ t) with (String h (rest ++ t)).
  cbn [count_char]. rewrite IH. lia.
Qed.

(** No character the serialiser writes for a value separates fields or
    a name from its value. *)
Lemma urlencode_no_separator (s : string) :
  count_char "&" (Text.urlencode s) = 0 /\ count_char "=" (Text.urlencode s) = 0.
Proof.
  induction s as [|c rest [IHamp IHeq]]; [split; reflexivity|].
  destruct c as [[] [] [] [] [] [] [] []]; split; cbn; assumption.
Qed.

(** *** The files of a run *)

Lemma path_join_tail (dir file : string) :
  exists start, path_join dir file = start ++ "/" ++ file.
Proof.
  unfold path_join. destruct (String.eqb dir "/") eqn:E.
  - apply String.eqb_eq in E. subst dir. exists EmptyString. reflexivity.
  - exists dir. reflexivity.
Qed.

Lemma session_file_eq (w : World) :
  session_file w = path_join (cwd w) "cookies.json".
Proof. reflexivity. Qed.

(** The path of the output file resolves to itself. *)
Lemma output_file_resolved (w : World) :
  path_resolve (cwd w) (outputFilePath (config (cwd w)))
  = outputFilePath (config (cwd w)).
Proof.
  assert (H : String.prefix "/" (outputFilePath (config (cwd w))) = true).
  { cbn [outputFilePath config]. unfold path_join, cwd.
    destruct (String.eqb _ "/");
      match goal with
      | |- context [String "/" ?r ++ ?x] =>
          change (String "/" r ++ x) with ("/" ++ (r ++ x))
      end; apply prefix_app; eexists; reflexivity. }
  unfold path_resolve. rewrite H. reflexivity.
Qed.

(** The output file is not the session file. *)
Lemma files_differ (w : World) :
  session_file w <> outputFilePath (config (cwd w)).
Proof.
  rewrite session_file_eq. cbn [outputFilePath config].
  destruct (path_join_tail (cwd w) "cookies.json") as [s ->].
  destruct (path_join_tail (cwd w) "users.json") as [t ->].
  intros H.
  change (s ++ "/" ++ "cookies.json") with (s ++ "/c" ++ "ookies.json") in H.
  rewrite <- append_assoc in H.
  apply append_inj_tail in H; [discriminate H | reflexivity].
Qed.

(** *** Finding the session cookie *)

Lemma eqb_JStr (s : string) (j : JSON.json) :
  JSON.eqb (JSON.JStr s) j = true <-> j = JSON.JStr s.
Proof.
  destruct j; cbn; try (split; [discriminate | discriminate]).
  rewrite String.eqb_eq. split; [intros ->; reflexivity | intros [= ->]; reflexivity].
Qed.

Lemma includes_true (key : JSON.json) :
  includes key "session" = Return true <-> names_session key.
Proof.
  unfold names_session. destruct key as [|b|text|s|items|props]; cbn [includes].
  - split; [discriminate | intros [[a [z H]] | [items [H _]]]; discriminate H].
  - split; [discriminate | intros [[a [z H]] | [items [H _]]]; discriminate H].
  - split; [discriminate | intros [[a [z H]] | [items [H _]]]; discriminate H].
  - split.
    + intros [= H]. apply includes_app in H as [a [z ->]]. left. eauto.
    + intros [[a [z [= ->]]] | [items [H _]]]; [|discriminate H].
      f_equal. apply includes_app. eauto.
  - split.
    + intros [= H]. right. exists items. split; [reflexivity|].
      destruct (proj1 (existsb_exists _ _) H) as [item [Hin Hitem]].
      apply (eqb_JStr "session" item) in Hitem. subst item. exact Hin.
    + intros [[a [z H]] | [items' [[= <-] Hin]]]; [discriminate H|].
      f_equal. apply existsb_exists. exists (JSON.JStr "session").
      split; [exact Hin | apply (eqb_JStr "session"); reflexivity].
  - split; [discriminate | intros [[a [z H]] | [items [H _]]]; discriminate H].
Qed.

Lemma find_first_found {A} (p : A -> Result bool) (xs : list A) (x : A) :
  find_first p xs = Return (Some x)
  <-> exists before after,
        xs = (before ++ x :: after)%list
        /\ p x = Return true
        /\ Forall (fun y => p y = Return false) before.
Proof.
  induction xs as [|h rest IH]; cbn [find_first].
  - split; [discriminate | intros [[|? ?] [after [H _]]]; discriminate H].
  - destruct (p h) as [[|]|e] eqn:Hh.
    + split.
      * intros [= <-]. exists [], rest. auto.
      * intros [[|b before] [after [Heq [Hx Hall]]]].
        -- injection Heq as <- _. reflexivity.
        -- injection Heq as <- _. apply Forall_cons in Hall as [Hb _]. congruence.
    + rewrite IH. split.
      * intros [before [after [-> [Hx Hall]]]]. exists (h :: before), after.
        repeat split; [exact Hx | constructor; assumption].
      * intros [[|b before] [after [Heq [Hx Hall]]]].
        -- injection Heq as <- _. congruence.
        -- injection Heq as <- ->. apply Forall_cons in Hall as [_ Hall]. eauto.
    + split; [discriminate|].
      intros [[|b before] [after [Heq [Hx Hall]]]].
      * injection Heq as <- _. congruence.
      * injection Heq as <- _. apply Forall_cons in Hall as [Hb _]. congruence.
Qed.

Lemma find_first_none {A} (p : A -> Result bool) (xs : list A) :
  find_first p xs = Return None <-> Forall (fun y => p y = Return false) xs.
Proof.
  induction xs as [|h rest IH]; cbn [find_first].
  - split; [constructor | reflexivity].
  - destruct (p h) as [[|]|e] eqn:Hh.
    + split; [discriminate | intros H; apply Forall_cons in H as [H _]; congruence].
    + rewrite IH. split; [intros H; constructor; assumption|].
      intros H. apply Forall_cons in H as [_ H]. exact H.
    + split; [discriminate | intros H; apply Forall_cons in H as [H _]; congruence].
Qed.

Lemma find_first_throws {A} (p : A -> Result bool) (xs : list A) (e : Error) :
  find_first p xs = Throw e
  <-> exists before x after,
        xs = (before ++ x :: after)%list
        /\ p x = Throw e
        /\ Forall (fun y => p y = Return false) before.
Proof.
  induction xs as [|h rest IH]; cbn [find_first].
  - split; [discriminate | intros [[|? ?] [x [after [H _]]]]; discriminate H].
  - destruct (p h) as [[|]|e'] eqn:Hh.
    + split; [discriminate|].
      intros [[|b before] [x [after [Heq [Hx Hall]]]]].
      * injection Heq as <- _. congruence.
      * injection Heq as <- _. apply Forall_cons in Hall as [Hb _]. congruence.
    + rewrite IH. split.
      * intros [before [x [after [-> [Hx Hall]]]]]. exists (h :: before), x, after.
        repeat split; [exact Hx | constructor; assumption].
      * intros [[|b before] [x [after [Heq [Hx Hall]]]]].
        -- injection Heq as <- _. congruence.
        -- injection Heq as <- ->. apply Forall_cons in Hall as [_ Hall].
           exists before, x, after. auto.
    + split.
      * intros [= <-]. exists [], h, rest. auto.
      * intros [[|b before] [x [after [Heq [Hx Hall]]]]].
        -- injection Heq as <- _. congruence.
        -- injection Heq as <- _. apply Forall_cons in Hall as [Hb _]. congruence.
Qed.

Lemma includes_throws (key : JSON.json) (e : Error) :
  includes key "session" = Throw e <-> e = TypeError /\ has_no_includes key.
Proof.
  destruct key; cbn [includes has_no_includes];
    (split;
     [intros H; first [discriminate H | injection H as <-; split; [reflexivity | exact I]]
     |intros [-> H]; first [reflexivity | destruct H]]).
Qed.

Lemma session_check_true (cookies : list Tough.Cookie) :
  session_check cookies = Return true
  <-> exists before cookie after,
        cookies = (before ++ cookie :: after)%list
        /\ names_session (Tough.key cookie)
        /\ Forall (fun c => includes (Tough.key c) "session" = Return false) before.
Proof.
  unfold session_check.
  destruct (find_first _ cookies) as [[found|]|e] eqn:Hfind.
  - apply find_first_found in Hfind as [before [after [Heq [Hx Hall]]]].
    split; [intros _|reflexivity].
    exists before, found, after. split; [exact Heq|].
    split; [apply includes_true; exact Hx | exact Hall].
  - split; [discriminate|]. intros [before [cookie [after [Heq [Hx Hall]]]]].
    apply find_first_none in Hfind. rewrite Heq in Hfind.
    apply Forall_app in Hfind as [_ Hfind]. apply Forall_cons in Hfind as [Hc _].
    apply includes_true in Hx. congruence.
  - split; [discriminate|]. intros [before [cookie [after [Heq [Hx Hall]]]]].
    exfalso. apply includes_true in Hx.
    assert (Hfound : find_first (fun c => includes (Tough.key c) "session") cookies
                     = Return (Some cookie)).
    { apply find_first_found. exists before, after. auto. }
    congruence.
Qed.

Lemma session_check_false (cookies : list Tough.Cookie) :
  session_check cookies = Return false
  <-> Forall (fun c => includes (Tough.key c) "session" = Return false) cookies.
Proof.
  unfold session_check. rewrite <- find_first_none.
  destruct (find_first _ cookies) as [[found|]|e]; split; congruence.
Qed.

Lemma session_check_throws (cookies : list Tough.Cookie) (e : Error) :
  session_check cookies = Throw e
  <-> e = TypeError
      /\ exists before cookie after,
           cookies = (before ++ cookie :: after)%list
           /\ has_no_includes (Tough.key cookie)
           /\ Forall (fun c => includes (Tough.key c) "session" = Return false) before.
Proof.
  unfold session_check.
  destruct (find_first _ cookies) as [[found|]|e'] eqn:Hfind.
  - split; [discriminate|]. intros [-> [before [cookie [after [Heq [Hx Hall]]]]]].
    exfalso.
    assert (Hthrows : find_first (fun c => includes (Tough.key c) "session") cookies
                      = Throw TypeError).
    { apply find_first_throws. exists before, cookie, after.
      split; [exact Heq|]. split; [apply includes_throws; auto | exact Hall]. }
    congruence.
  - split; [discriminate|]. intros [-> [before [cookie [after [Heq [Hx Hall]]]]]].
    exfalso.
    assert (Hthrows : find_first (fun c => includes (Tough.key c) "session") cookies
                      = Throw TypeError).
    { apply find_first_throws. exists before, cookie, after.
      split; [exact Heq|]. split; [apply includes_throws; auto | exact Hall]. }
    congruence.
  - apply find_first_throws in Hfind as [before [cookie [after [Heq [Hx Hall]]]]].
    apply includes_throws in Hx as [-> Hx].
    split.
    + intros [= <-]. split; [reflexivity|]. exists before, cookie, after. auto.
    + intros [-> _]. reflexivity.
Qed.

(** *** The session store *)

Lemma loadCookies_eq (w : World) (st : State) :
  loadCookies w st =
  (Return tt,
   let st1 := snd (emit (ReadFile (cookieFilePath (config (cwd w)))) w st) in
   match disk st !! session_file w with
   | Some cookieFile =>
       match CookieJar_fromJSON cookieFile with
       | Some jar => with_jar jar st1
       | None => st1
       end
   | None => st1
   end).
Proof.
  unfold loadCookies, try_catch, readFile, bind, emit, throw, ret, session_file.
  cbn [fst snd cookieJar disk ticks page trace].
  destruct (disk st !! _) as [cookieFile|]; [|reflexivity].
  destruct (CookieJar_fromJSON cookieFile); reflexivity.
Qed.

Lemma hasValidSession_eq (w : World) (st : State) :
  hasValidSession w st =
  let st1 := {| cookieJar := cookieJar st; disk := disk st; ticks := S (ticks st);
                page := page st; trace := trace st |} in
  match sent_cookies w st with
  | Some (cookies, jar) => (session_check cookies, with_jar jar st1)
  | None => (Throw JarError, st1)
  end.
Proof.
  unfold hasValidSession, getCookies, bind, tick, ret, settle, with_jar, sent_cookies,
    session_check.
  cbn [fst snd cookieJar disk ticks page trace].
  destruct (CookieJar_getCookies _ _ _) as [[cookies jar]|]; [|reflexivity].
  destruct (find_first _ cookies) as [[found|]|e]; reflexivity.
Qed.

Lemma saveCookies_eq (w : World) (st : State) :
  saveCookies w st =
  let text := CookieJar_toJSON (cookieJar st) in
  (if writable w (session_file w) then Return tt else Throw WriteError,
   {| cookieJar := cookieJar st;
      disk := if writable w (session_file w)
              then <[session_file w := text]> (disk st) else disk st;
      ticks := ticks st; page := page st;
      trace := (trace st ++ [WriteFile (cookieFilePath (config (cwd w))) text])%list |}).
Proof.
  unfold saveCookies, writeFile, bind, emit, with_disk, session_file.
  cbn [cookieJar disk ticks page trace fst snd].
  destruct (writable w _); reflexivity.
Qed.

Lemma setCookie_eq (w : World) (cookie url : string) (st : State) :
  setCookie cookie url w st =
  let st1 := {| cookieJar := cookieJar st; disk := disk st; ticks := S (ticks st);
                page := page st; trace := trace st |} in
  match CookieJar_setCookie (now w (ticks st)) cookie url (cookieJar st) with
  | Some jar => (Return tt, with_jar jar st1)
  | None => (Throw CookieRejected, st1)
  end.
Proof. reflexivity. Qed.

Lemma for_each_setCookie_merged (w : World) (url : string) (cookieHeaders : list string)
  (st : State) (jar : Jar) :
  merged w url (ticks st) cookieHeaders (cookieJar st) = Some jar ->
  for_each cookieHeaders (fun cookie => setCookie cookie url) w st =
  (Return tt,
   {| cookieJar := jar; disk := disk st;
      ticks := length cookieHeaders + ticks st;
      page := page st; trace := trace st |}).
Proof.
  revert st. induction cookieHeaders as [|h rest IH]; intros st; cbn [for_each merged].
  - intros [= <-]. unfold ret. destruct st; reflexivity.
  - destruct (CookieJar_setCookie (now w (ticks st)) h url (cookieJar st))
      as [jar'|] eqn:Hset; [|discriminate].
    intros Hrest.
    unfold bind. rewrite setCookie_eq, Hset. cbv beta iota zeta.
    rewrite (IH (with_jar jar' {| cookieJar := cookieJar st; disk := disk st;
                                 ticks := S (ticks st); page := page st;
                                 trace := trace st |}) Hrest).
    cbn. f_equal. f_equal. lia.
Qed.

Lemma for_each_setCookie_rejected (w : World) (url : string) (cookieHeaders : list string)
  (st : State) :
  merged w url (ticks st) cookieHeaders (cookieJar st) = None ->
  exists st',
    for_each cookieHeaders (fun cookie => setCookie cookie url) w st
    = (Throw CookieRejected, st')
    /\ disk st' = disk st /\ trace st' = trace st /\ page st' = page st.
Proof.
  revert st. induction cookieHeaders as [|h rest IH]; intros st; cbn [for_each merged].
  - discriminate.
  - destruct (CookieJar_setCookie (now w (ticks st)) h url (cookieJar st))
      as [jar'|] eqn:Hset; intros Hrest; unfold bind; rewrite setCookie_eq, Hset; cbv beta iota zeta.
    + destruct (IH (with_jar jar' {| cookieJar := cookieJar st; disk := disk st;
                                    ticks := S (ticks st); page := page st;
                                    trace := trace st |}) Hrest)
        as [st' [Heq [Hd [Ht Hp]]]].
      exists st'. rewrite Heq. auto.
    + eexists. split; [reflexivity|]. auto.
Qed.

(** The loop over the returned cookies stops at the first one the jar
    rejects. *)
Lemma for_each_setCookie_stops (w : World) (url : string)
  (before : list string) (rejected : string) (after : list string)
  (st : State) (jar : Jar) :
  merged w url (ticks st) before (cookieJar st) = Some jar ->
  CookieJar_setCookie (now w (length before + ticks st)) rejected url jar = None ->
  for_each (before ++ rejected :: after) (fun cookie => setCookie cookie url) w st
  = (Throw CookieRejected,
     {| cookieJar := jar; disk := disk st;
        ticks := S (length before + ticks st);
        page := page st; trace := trace st |}).
Proof.
  revert st. induction before as [|h rest IH]; intros st;
    cbn [app for_each merged length Nat.add].
  - intros [= <-] Hrej. unfold bind. rewrite setCookie_eq, Hrej. reflexivity.
  - destruct (CookieJar_setCookie (now w (ticks st)) h url (cookieJar st))
      as [jar'|] eqn:Hset; [|discriminate].
    intros Hrest Hrej. unfold bind. rewrite setCookie_eq, Hset. cbv beta iota zeta.
    rewrite (IH (with_jar jar' {| cookieJar := cookieJar st; disk := disk st;
                                 ticks := S (ticks st); page := page st;
                                 trace := trace st |})).
    + cbn. f_equal. f_equal. lia.
    + exact Hrest.
    + cbn [with_jar ticks cookieJar]. rewrite Nat.add_succ_r. exact Hrej.
Qed.

Lemma authenticate_eq (w : World) (st : State) :
  authenticate w st =
  let c := config (cwd w) in
  let st1 := snd (emit (Fetch (login_page_request c)) w st) in
  match network w (login_page_request c) with
  | None => (Throw NetworkError, st1)
  | Some loginPageRes =>
      match nonce_of (text loginPageRes) with
      | None => (Throw ProtocolError, st1)
      | Some nonce =>
          let st2 := snd (emit (Fetch (login_submit_request c nonce)) w st1) in
          match network w (login_submit_request c nonce) with
          | None => (Throw NetworkError, st2)
          | Some authRes =>
              if negb (status authRes =? 302)%Z
                 || (length (getSetCookie authRes) =? 0)%nat
              then (Throw AuthenticationError, st2)
              else for_each (getSetCookie authRes)
                     (fun cookie => setCookie cookie (domain c)) w st2
          end
      end
  end.
Proof.
  unfold authenticate, nonce_of, fetch, bind, emit, throw; simpl.
  destruct (network w _) as [loginPageRes|]; [|reflexivity].
  destruct (Dom.val _) as [nonce|]; [|reflexivity].
  destruct (network w _) as [authRes|]; [|reflexivity].
  destruct (negb _ || _); reflexivity.
Qed.

Lemma bad_response_iff (res : Response) :
  negb (status res =? 302)%Z || (length (getSetCookie res) =? 0)%nat = true
  <-> status res <> 302%Z \/ getSetCookie res = [].
Proof.
  rewrite orb_true_iff, negb_true_iff, Z.eqb_neq, Nat.eqb_eq.
  split; (intros [H|H]; [left; exact H | right]).
  - destruct (getSetCookie res); [reflexivity | discriminate].
  - rewrite H. reflexivity.
Qed.

(** [authenticate] touches no file and no page, and issues the login
    page request, then at most the submission. *)
Lemma authenticate_frame (w : World) (st : State) :
  let c := config (cwd w) in
  let r := fst (authenticate w st) in
  let st' := snd (authenticate w st) in
  disk st' = disk st /\ page st' = page st
  /\ exists events,
       trace st' = (trace st ++ Fetch (login_page_request c) :: events)%list
       /\ (events = [] \/ exists nonce, events = [Fetch (login_submit_request c nonce)])
       /\ (r = Return tt -> events <> []).
Proof.
  intros c r st'. subst r st'. rewrite authenticate_eq. cbv zeta. fold c.
  destruct (network w (login_page_request c)) as [loginPageRes|].
  2:{ cbn. repeat split. exists []. repeat split; [now left | discriminate]. }
  destruct (nonce_of (text loginPageRes)) as [nonce|].
  2:{ cbn. repeat split. exists []. repeat split; [now left | discriminate]. }
  assert (Hsub : forall r st',
    disk st' = disk st -> page st' = page st ->
    trace st' = ((trace st ++ [Fetch (login_page_request c)])
                 ++ [Fetch (login_submit_request c nonce)])%list ->
    disk (snd (r, st')) = disk st /\ page (snd (r, st')) = page st
    /\ exists events,
         trace (snd (r : Result unit, st'))
         = (trace st ++ Fetch (login_page_request c) :: events)%list
         /\ (events = [] \/ exists nonce, events = [Fetch (login_submit_request c nonce)])
         /\ (fst (r, st') = Return tt -> events <> [])).
  { intros r st' Hd Hp Ht. cbn. repeat split; auto.
    exists [Fetch (login_submit_request c nonce)]. rewrite Ht, <- app_assoc.
    repeat split; [right; eauto | discriminate]. }
  destruct (network w (login_submit_request c nonce)) as [authRes|].
  2:{ apply Hsub; reflexivity. }
  destruct (negb _ || _).
  { apply Hsub; reflexivity. }
  set (st2 := snd (emit _ w (snd (emit _ w st)))).
  destruct (merged w (domain c) (ticks st2) (getSetCookie authRes) (cookieJar st2))
    as [jar|] eqn:Hm.
  - rewrite (for_each_setCookie_merged _ _ _ _ _ Hm). apply Hsub; reflexivity.
  - destruct (for_each_setCookie_rejected _ _ _ _ Hm) as [st' [-> [Hd [Ht Hp]]]].
    apply Hsub; [rewrite Hd | rewrite Hp | rewrite Ht]; reflexivity.
Qed.

(** A login that fails on the nonce or on the answer to the submission
    leaves the jar, the files and the page as they were. *)
Lemma authenticate_fails_fast (w : World) (st : State) (e : Error) :
  fst (authenticate w st) = Throw e ->
  e = ProtocolError \/ e = AuthenticationError \/ e = NetworkError ->
  cookieJar (snd (authenticate w st)) = cookieJar st
  /\ disk (snd (authenticate w st)) = disk st
  /\ ticks (snd (authenticate w st)) = ticks st.
Proof.
  rewrite authenticate_eq. cbv zeta.
  destruct (network w _) as [loginPageRes|]; [|intros; repeat split; reflexivity].
  destruct (nonce_of _) as [nonce|]; [|intros; repeat split; reflexivity].
  destruct (network w _) as [authRes|]; [|intros; repeat split; reflexivity].
  destruct (negb _ || _); [intros; repeat split; reflexivity|].
  set (st2 := snd (emit _ w (snd (emit _ w st)))).
  destruct (merged w (domain (config (cwd w))) (ticks st2) (getSetCookie authRes)
              (cookieJar st2)) as [jar|] eqn:Hm.
  - rewrite (for_each_setCookie_merged _ _ _ _ _ Hm). discriminate.
  - destruct (for_each_setCookie_rejected _ _ _ _ Hm) as [st' [-> _]].
    cbn [fst]. intros [= <-] [H | [H | H]]; discriminate H.
Qed.

(** The two errors [authenticate] throws itself. *)
Lemma authenticate_raises (w : World) (st : State) :
  let c := config (cwd w) in
  ((exists loginPage,
      network w (login_page_request c) = Some loginPage
      /\ nonce_of (text loginPage) = None) ->
   fst (authenticate w st) = Throw ProtocolError)
  /\ ((exists loginPage nonce res,
         network w (login_page_request c) = Some loginPage
         /\ nonce_of (text loginPage) = Some nonce
         /\ network w (login_submit_request c nonce) = Some res
         /\ (status res <> 302%Z \/ getSetCookie res = [])) ->
      fst (authenticate w st) = Throw AuthenticationError).
Proof.
  intros c. rewrite authenticate_eq. cbv zeta. fold c. split.
  - intros [loginPage [-> ->]]. reflexivity.
  - intros [loginPage [nonce [res [-> [-> [-> Hbad]]]]]].
    apply bad_response_iff in Hbad. rewrite Hbad. reflexivity.
Qed.

(** *** The user list and the scraped record *)

Lemma page_setCookie_eq (w : World) (cookie : Puppeteer.CookieParam) (st : State)
  (cookies : list Puppeteer.CookieParam) :
  page st = Some cookies ->
  page_setCookie cookie w st =
  let st1 := snd (emit (PageSetCookie cookie) w st) in
  if accepts w cookie
  then (Return tt, with_page (Some (cookies ++ [cookie])%list) st1)
  else (Throw PageCookieError, st1).
Proof.
  intros Hpage. unfold page_setCookie, bind, emit; simpl. rewrite Hpage.
  destruct (accepts w cookie); reflexivity.
Qed.

Lemma for_each_page_setCookie_eq (w : World) (cookies : list Puppeteer.CookieParam)
  (st : State) (held : list Puppeteer.CookieParam) :
  page st = Some held ->
  for_each cookies page_setCookie w st =
  (if forallb (accepts w) cookies then Return tt else Throw PageCookieError,
   {| cookieJar := cookieJar st; disk := disk st; ticks := ticks st;
      page := Some (held ++ taken w cookies)%list;
      trace := (trace st ++ map PageSetCookie (attempted w cookies))%list |}).
Proof.
  revert st held. induction cookies as [|c rest IH]; intros st held Hpage;
    cbn [for_each forallb taken attempted map].
  - unfold ret. rewrite !app_nil_r. destruct st; simpl in *; subst; reflexivity.
  - unfold bind. rewrite (page_setCookie_eq w c st held Hpage). cbv beta iota zeta.
    destruct (accepts w c); cbv beta iota zeta.
    + erewrite IH by reflexivity. cbn.
      rewrite <- !app_assoc. reflexivity.
    + cbn. rewrite app_nil_r, Hpage. reflexivity.
Qed.

Lemma forallb_taken (w : World) (cookies : list Puppeteer.CookieParam) :
  forallb (accepts w) cookies = true ->
  taken w cookies = cookies /\ attempted w cookies = cookies.
Proof.
  induction cookies as [|c rest IH]; simpl; [auto|].
  destruct (accepts w c); simpl; [|discriminate].
  intros H. destruct (IH H) as [-> ->]. auto.
Qed.

Lemma fetchData_eq (w : World) (st : State) :
  fetchData w st =
  let c := config (cwd w) in
  let at_ (jar : Jar) (n : nat) (p : option (list Puppeteer.CookieParam))
          (events : list Event) :=
    {| cookieJar := jar; disk := disk st; ticks := n + ticks st; page := p;
       trace := (trace st ++ events)%list |} in
  match sent_cookies w st with
  | None => (Throw JarError, at_ (cookieJar st) 1 (page st) [])
  | Some (sent, jar1) =>
  let req := users_request c (cookie_header sent) in
  match network w req with
  | None => (Throw NetworkError, at_ jar1 1 (page st) [Fetch req])
  | Some usersResponse =>
      if ok usersResponse then
        match JSON_parse (text usersResponse) with
        | None => (Throw ParseError, at_ jar1 1 (page st) [Fetch req])
        | Some userList =>
            if launches w then
              match CookieJar_getCookies (now w (S (ticks st))) (domain c) jar1 with
              | None =>
                  (Throw JarError, at_ jar1 2 (Some []) [Fetch req; Launch; NewPage])
              | Some (again, jar2) =>
              let cookies := map toPuppeteer again in
              let set := Fetch req :: Launch :: NewPage
                         :: map PageSetCookie (attempted w cookies) in
              if forallb (accepts w) cookies then
                match navigate w cookies (settingsPageUrl c) with
                | None =>
                    (Throw NavigationError,
                     at_ jar2 2 (Some cookies)
                       (set ++ [Goto (settingsPageUrl c)])%list)
                | Some shown =>
                    if Puppeteer.appears shown Dom.form_space_y_4_input then
                      (match JSON.spread userList with
                       | Some items =>
                           Return (items ++ [User_value
                                      (currentUser (cheerio_load (Puppeteer.content shown)))])%list
                       | None => Throw NotIterable
                       end,
                       at_ jar2 2 None
                         (set ++ [Goto (settingsPageUrl c);
                                  WaitForSelector Dom.form_space_y_4_input;
                                  Content; Close])%list)
                    else
                      (Throw TimeoutError,
                       at_ jar2 2 (Some cookies)
                         (set ++ [Goto (settingsPageUrl c);
                                  WaitForSelector Dom.form_space_y_4_input])%list)
                end
              else (Throw PageCookieError, at_ jar2 2 (Some (taken w cookies)) set)
              end
            else (Throw LaunchError, at_ jar1 1 (page st) [Fetch req; Launch])
        end
      else (Throw FetchError, at_ jar1 1 (page st) [Fetch req])
  end
  end.
Proof.
  unfold fetchData, getCookieString, getCookies, fetch, json, launch, newPage,
    goto, waitForSelector, content, close, bind, ret, throw, emit, tick,
    with_jar, with_page, sent_cookies, cookie_header.
  cbn [cookieJar disk ticks page trace fst snd].
  destruct (CookieJar_getCookies (now w (ticks st)) _ (cookieJar st))
    as [[sent jar1]|] eqn:Hsent; [|rewrite app_nil_r; reflexivity].
  cbn [cookieJar disk ticks page trace fst snd].
  destruct (network w _) as [usersResponse|]; [|reflexivity].
  cbn [cookieJar disk ticks page trace fst snd negb].
  destruct (ok usersResponse); cbn [negb]; [|reflexivity].
  destruct (JSON_parse (text usersResponse)) as [userList|]; [|reflexivity].
  cbn [cookieJar disk ticks page trace fst snd negb].
  destruct (launches w); [|rewrite <- app_assoc; reflexivity].
  cbn [cookieJar disk ticks page trace fst snd negb].
  destruct (CookieJar_getCookies (now w (S (ticks st))) _ jar1)
    as [[again jar2]|] eqn:Hagain.
  2:{ rewrite <- !app_assoc. reflexivity. }
  cbn [cookieJar disk ticks page trace fst snd].
  erewrite for_each_page_setCookie_eq by reflexivity.
  cbn [cookieJar disk ticks page trace fst snd app].
  destruct (forallb (accepts w) (map toPuppeteer again)) eqn:Hall.
  - destruct (forallb_taken _ _ Hall) as [-> ->].
    destruct (navigate w _ _) as [shown|].
    + cbn [cookieJar disk ticks page trace fst snd app].
      destruct (Puppeteer.appears shown _).
      * cbn [cookieJar disk ticks page trace fst snd app].
        destruct (JSON.spread userList);
          rewrite <- !app_assoc; reflexivity.
      * cbn [cookieJar disk ticks page trace fst snd app].
        rewrite <- !app_assoc; reflexivity.
    + rewrite <- !app_assoc; reflexivity.
  - rewrite <- !app_assoc; reflexivity.
Qed.

(** *** The orchestration *)

Lemma main_try_eq (w : World) (st : State) :
  main_try w st =
  match hasValidSession w (snd (loadCookies w st)) with
  | (Return valid, st2) =>
      match login_phase valid w st2 with
      | (Return _, st3) =>
          match fetchData w st3 with
          | (Return allData, st4) => output_phase allData w st4
          | (Throw e, st4) => (Throw e, st4)
          end
      | (Throw e, st3) => (Throw e, st3)
      end
  | (Throw e, st2) => (Throw e, st2)
  end.
Proof.
  unfold main_try. unfold bind at 1. rewrite loadCookies_eq. cbn [snd].
  unfold bind at 1. destruct (hasValidSession w _) as [[valid|e] st2]; [|reflexivity].
  unfold bind at 1. fold (login_phase valid).
  destruct (login_phase valid w st2) as [[[]|e] st3]; [|reflexivity].
  unfold bind at 1. destruct (fetchData w st3) as [[allData|e] st4]; reflexivity.
Qed.

Lemma main_eq (w : World) (st : State) :
  main w st =
  match main_try w st with
  | (Return a, st') => (Return a, st')
  | (Throw e, st') =>
      (Return tt,
       {| cookieJar := cookieJar st'; disk := disk st'; ticks := ticks st';
          page := page st';
          trace := (trace st' ++ [Log (Failed e); Exit 1])%list |})
  end.
Proof.
  unfold main, try_catch. destruct (main_try w st) as [[a|e] st']; [reflexivity|].
  unfold bind, log, exit, emit; cbn. rewrite <- app_assoc. reflexivity.
Qed.

Lemma output_phase_eq (w : World) (allData : list JSON.json) (st : State) :
  output_phase allData w st =
  let out := outputFilePath (config (cwd w)) in
  let text := JSON.stringify (JSON.JArr allData) 2 in
  if writable w (outputFilePath (config (cwd w)))
  then (Return tt,
        {| cookieJar := cookieJar st; disk := <[outputFilePath (config (cwd w)) := text]> (disk st);
           ticks := ticks st; page := page st;
           trace := (trace st ++ [WriteFile out text; Log (Success out);
                                  Log (TotalItems (length allData))])%list |})
  else (Throw WriteError,
        {| cookieJar := cookieJar st; disk := disk st; ticks := ticks st;
           page := page st; trace := (trace st ++ [WriteFile out text])%list |}).
Proof.
  unfold output_phase, writeFile, log, bind, emit, with_disk.
  cbv zeta. rewrite output_file_resolved.
  cbn [cookieJar disk ticks page trace fst snd].
  destruct (writable w _); [|reflexivity].
  cbn [cookieJar disk ticks page trace fst snd]. rewrite <- !app_assoc. reflexivity.
Qed.

(** The path of the output file is not the path of the session file. *)
Lemma output_is_not_session_file (dir : string) :
  outputFilePath (config dir) <> cookieFilePath (config dir).
Proof.
  cbn [outputFilePath cookieFilePath config]. unfold path_join.
  destruct (String.eqb dir "/") eqn:E.
  - apply String.eqb_eq in E. subst dir. discriminate.
  - intros H. pose proof (f_equal String.length H) as Hlen.
    rewrite length_append in Hlen.
    change (String.length ("/" ++ "users.json")) with 11 in Hlen.
    change (String.length "cookies.json") with 12 in Hlen.
    destruct dir as [|c [|d dir]]; cbn [String.length] in Hlen; try lia.
    vm_compute in H. discriminate H.
Qed.

Lemma session_write_is_not_output (w : World) (content : string) :
  is_output_write (config (cwd w))
    (WriteFile (cookieFilePath (config (cwd w))) content) = false.
Proof.
  cbn [is_output_write]. apply String.eqb_neq.
  intros H. apply (output_is_not_session_file (cwd w)). symmetry. exact H.
Qed.

Lemma output_write_is_not_session (w : World) (content : string) :
  is_session_write (config (cwd w))
    (WriteFile (outputFilePath (config (cwd w))) content) = false.
Proof.
  cbn [is_session_write]. apply String.eqb_neq. apply output_is_not_session_file.
Qed.

Lemma main_try_finish (w : World) (st : State) :
  main_try w st =
  match hasValidSession w (snd (loadCookies w st)) with
  | (Return valid, st2) =>
      match login_phase valid w st2 with
      | (Return _, st3) => finish w st3
      | (Throw e, st3) => (Throw e, st3)
      end
  | (Throw e, st2) => (Throw e, st2)
  end.
Proof. rewrite main_try_eq. reflexivity. Qed.

Lemma Forall_page_cookies (Q : Event -> Prop) (cookies : list Puppeteer.CookieParam) :
  (forall c, Q (PageSetCookie c)) -> Forall Q (map PageSetCookie cookies).
Proof. intros HQ. induction cookies; simpl; constructor; auto. Qed.

Lemma not_in_page_cookies (e : Event) (cookies : list Puppeteer.CookieParam) :
  (forall c, e <> PageSetCookie c) -> ~ In e (map PageSetCookie cookies).
Proof.
  intros Hne Hin. apply in_map_iff in Hin as [c [Hc _]]. apply (Hne c). congruence.
Qed.

(** [fetchData] touches no file. *)
Lemma fetchData_disk (w : World) (st : State) :
  disk (snd (fetchData w st)) = disk st.
Proof.
  rewrite fetchData_eq. cbv zeta.
  destruct (sent_cookies w st) as [[sent jar1]|]; [|reflexivity].
  destruct (network w _) as [usersResponse|]; [|reflexivity].
  destruct (ok usersResponse); [|reflexivity].
  destruct (JSON_parse _) as [userList|]; [|reflexivity].
  destruct (launches w); [|reflexivity].
  destruct (CookieJar_getCookies _ _ jar1) as [[again jar2]|]; [|reflexivity].
  destruct (forallb _ _); [|reflexivity].
  destruct (navigate w _ _) as [shown|]; [|reflexivity].
  destruct (Puppeteer.appears shown _); reflexivity.
Qed.

(** The calls of [fetchData]: none when the jar does not give its
    cookies; otherwise the users request, then calls to the browser
    only. *)
Lemma fetchData_calls (w : World) (st : State) :
  let c := config (cwd w) in
  match sent_cookies w st with
  | None =>
      fst (fetchData w st) = Throw JarError
      /\ trace (snd (fetchData w st)) = trace st
  | Some (sent, _) =>
      exists calls,
        trace (snd (fetchData w st))
        = (trace st ++ Fetch (users_request c (cookie_header sent)) :: calls)%list
        /\ Forall (fun e => is_browser_call e = true) calls
  end.
Proof.
  intros c. rewrite fetchData_eq. cbv zeta. fold c.
  destruct (sent_cookies w st) as [[sent jar1]|];
    [|cbn [fst snd trace]; rewrite app_nil_r; split; reflexivity].
  set (req := users_request c (cookie_header sent)).
  assert (Hcookies : forall l : list Puppeteer.CookieParam,
            Forall (fun e => is_browser_call e = true) (map PageSetCookie l)).
  { intros l. apply Forall_page_cookies. reflexivity. }
  destruct (network w req) as [usersResponse|]; cbn [snd trace];
    [|exists []; split; [reflexivity | constructor]].
  destruct (ok usersResponse); cbn [snd trace];
    [|exists []; split; [reflexivity | constructor]].
  destruct (JSON_parse _) as [userList|]; cbn [snd trace];
    [|exists []; split; [reflexivity | constructor]].
  destruct (launches w); cbn [snd trace];
    [|exists [Launch]; split; [reflexivity | repeat constructor]].
  destruct (CookieJar_getCookies _ _ jar1) as [[again jar2]|]; cbn [snd trace];
    [|exists [Launch; NewPage]; split; [reflexivity | repeat constructor]].
  destruct (forallb _ _); cbn [snd trace].
  2:{ eexists. split; [reflexivity|]. repeat (constructor; [reflexivity|]). apply Hcookies. }
  destruct (navigate w _ _) as [shown|]; cbn [snd trace].
  2:{ eexists. split; [reflexivity|]. cbn [app]. repeat (constructor; [reflexivity|]).
      apply Forall_app; split; [apply Hcookies | repeat constructor]. }
  destruct (Puppeteer.appears shown _); cbn [snd trace].
  - eexists. split; [reflexivity|]. cbn [app]. repeat (constructor; [reflexivity|]).
    apply Forall_app; split; [apply Hcookies | repeat constructor].
  - eexists. split; [reflexivity|]. cbn [app]. repeat (constructor; [reflexivity|]).
    apply Forall_app; split; [apply Hcookies | repeat constructor].
Qed.

(** When [fetchData] returns, the browser has been closed. *)
Lemma fetchData_returns_closed (w : World) (st : State) (allData : list JSON.json) :
  fst (fetchData w st) = Return allData ->
  exists calls,
    trace (snd (fetchData w st)) = (trace st ++ calls ++ [Close])%list
    /\ Forall (fun e => is_write e = false /\ is_report e = false) calls.
Proof.
  rewrite fetchData_eq. cbv zeta.
  assert (Hcookies : forall l : list Puppeteer.CookieParam,
            Forall (fun e => is_write e = false /\ is_report e = false)
              (map PageSetCookie l)).
  { intros l. apply Forall_page_cookies. intros; split; reflexivity. }
  destruct (sent_cookies w st) as [[sent jar1]|]; cbn [fst snd trace]; [|discriminate].
  destruct (network w _) as [usersResponse|]; cbn [fst snd trace]; [|discriminate].
  destruct (ok usersResponse); cbn [fst snd trace]; [|discriminate].
  destruct (JSON_parse _) as [userList|]; cbn [fst snd trace]; [|discriminate].
  destruct (launches w); cbn [fst snd trace]; [|discriminate].
  destruct (CookieJar_getCookies _ _ jar1) as [[again jar2]|];
    cbn [fst snd trace]; [|discriminate].
  destruct (forallb _ _); cbn [fst snd trace]; [|discriminate].
  destruct (navigate w _ _) as [shown|]; cbn [fst snd trace]; [|discriminate].
  destruct (Puppeteer.appears shown _); cbn [fst snd trace]; [|discriminate].
  intros _. eexists. split.
  - f_equal. cbn [app].
    match goal with
    | |- (?a :: ?b :: ?c :: ?l ++ [?g; ?s; ?t; Close])%list = _ =>
        change (a :: b :: c :: l ++ [g; s; t; Close])%list
          with ((a :: b :: c :: l) ++ [g; s; t] ++ [Close])%list
    end.
    rewrite app_assoc. reflexivity.
  - apply Forall_app; split; [|repeat constructor].
    repeat (constructor; [split; reflexivity|]). apply Hcookies.
Qed.

Lemma finish_eq (w : World) (st : State) :
  finish w st =
  match fetchData w st with
  | (Return allData, st') => output_phase allData w st'
  | (Throw e, st') => (Throw e, st')
  end.
Proof. reflexivity. Qed.

Lemma exit_code_failed (e : Error) (st : State) :
  exit_code (report (Throw e, st)) = 1%Z.
Proof.
  unfold exit_code. cbn [report trace].
  rewrite last_app_cons. reflexivity.
Qed.

Lemma browser_call_is_quiet (c : Config) (e : Event) :
  is_browser_call e = true ->
  is_fetch e = false /\ is_write e = false /\ is_report e = false
  /\ is_login_request c e = false /\ is_users_request c e = false
  /\ is_session_write c e = false /\ is_output_write c e = false.
Proof. destruct e; cbn; intros H; try discriminate H; repeat split. Qed.

(** What follows the login branch, with the [catch] block: at most
    the users request, then calls to the browser, then the output
    write and the report. *)
Lemma finish_events (w : World) (st : State) :
  let c := config (cwd w) in
  let out := outputFilePath c in
  exists request calls ending,
    trace (report (finish w st)) = (trace st ++ request ++ calls ++ ending)%list
    /\ match sent_cookies w st with
       | None => request = [] /\ calls = [] /\ ending = [Log (Failed JarError); Exit 1]
       | Some (sent, _) => request = [Fetch (users_request c (cookie_header sent))]
       end
    /\ Forall (fun e => is_browser_call e = true) calls
    /\ match fst (fetchData w st) with
       | Throw e => ending = [Log (Failed e); Exit 1]
       | Return allData =>
           let text := JSON.stringify (JSON.JArr allData) 2 in
           In Close calls
           /\ ending = if writable w out
                       then [WriteFile out text; Log (Success out);
                             Log (TotalItems (length allData))]
                       else [WriteFile out text; Log (Failed WriteError); Exit 1]
       end.
Proof.
  intros c out. rewrite finish_eq.
  pose proof (fetchData_calls w st) as Hcalls. cbv zeta in Hcalls. fold c in Hcalls.
  destruct (sent_cookies w st) as [[sent jar1]|] eqn:Hsent.
  - destruct Hcalls as [calls [Ht Hcalls]].
    destruct (fetchData w st) as [[allData|e] st4] eqn:Hfetch; cbn [fst snd] in *.
    + destruct (fetchData_returns_closed w st allData) as [calls' [Ht' _]];
        [rewrite Hfetch; reflexivity|].
      rewrite Hfetch in Ht'. cbn [snd] in Ht'.
      assert (Hclose : In Close calls).
      { rewrite Ht in Ht'. apply app_inv_head in Ht'.
        assert (Hin : In Close (Fetch (users_request c (cookie_header sent)) :: calls)).
        { rewrite Ht'. apply in_or_app. right. left. reflexivity. }
        destruct Hin as [H | H]; [discriminate H | exact H]. }
      rewrite output_phase_eq. cbv zeta. fold c. fold out.
      exists [Fetch (users_request c (cookie_header sent))], calls.
      destruct (writable w out); cbn [report trace];
        eexists; (split; [rewrite Ht; cbn [app]; rewrite <- !app_assoc; reflexivity|]);
        (split; [reflexivity|]); (split; [exact Hcalls|]); (split; [exact Hclose|]);
        reflexivity.
    + cbn [report trace].
      exists [Fetch (users_request c (cookie_header sent))], calls, [Log (Failed e); Exit 1].
      split; [rewrite Ht; cbn [app]; rewrite <- !app_assoc; reflexivity|].
      split; [reflexivity|]. split; [exact Hcalls | reflexivity].
  - destruct Hcalls as [Hr Ht].
    destruct (fetchData w st) as [[allData|e] st4] eqn:Hfetch; cbn [fst snd] in *;
      [discriminate Hr|].
    injection Hr as ->. cbn [report trace].
    exists [], [], [Log (Failed JarError); Exit 1].
    split; [rewrite Ht; reflexivity|]. split; [auto|]. split; [constructor | reflexivity].
Qed.

(** The same, as far as its requests and its writes to the session
    file go. *)
Lemma finish_frame (w : World) (st : State) :
  let c := config (cwd w) in
  exists request events,
    trace (report (finish w st)) = (trace st ++ request ++ events)%list
    /\ (request = [] \/ exists req, url req = usersApiUrl c /\ request = [Fetch req])
    /\ Forall (fun e => is_fetch e = false /\ is_session_write c e = false) events.
Proof.
  intros c.
  destruct (finish_events w st) as [request [calls [ending [Ht [Hreq [Hcalls Hend]]]]]].
  fold c in Hreq, Hend.
  exists request, (calls ++ ending)%list. split; [exact Ht|]. split.
  - destruct (sent_cookies w st) as [[sent jar1]|].
    + right. eexists. split; [|exact Hreq]. reflexivity.
    + left. apply Hreq.
  - apply Forall_app. split.
    + eapply Forall_impl; [exact Hcalls|]. intros e He.
      destruct (browser_call_is_quiet c e He) as [H1 [_ [_ [_ [_ [H2 _]]]]]]. auto.
    + destruct (fst (fetchData w st)) as [allData|e].
      * destruct Hend as [_ ->].
        pose proof (output_write_is_not_session w
                      (JSON.stringify (JSON.JArr allData) 2)) as Hout. fold c in Hout.
        destruct (writable w (outputFilePath c));
          repeat (constructor; [split; [reflexivity | first [exact Hout | reflexivity]]|]);
          constructor.
      * rewrite Hend. repeat constructor.
Qed.

(** What follows the login branch changes no file but the output file. *)
Lemma finish_disk (w : World) (st : State) (p : string) :
  p <> outputFilePath (config (cwd w)) ->
  disk (report (finish w st)) !! p = disk st !! p.
Proof.
  intros Hp. rewrite finish_eq.
  pose proof (fetchData_disk w st) as Hdisk.
  destruct (fetchData w st) as [[allData|e] st4]; cbn [snd] in Hdisk.
  - rewrite output_phase_eq. cbv zeta.
    destruct (writable w _); cbn [report disk].
    + rewrite lookup_insert_ne by congruence. rewrite Hdisk. reflexivity.
    + rewrite Hdisk. reflexivity.
  - cbn [report disk]. rewrite Hdisk. reflexivity.
Qed.

Lemma checked_eq (w : World) (files : gmap string string) :
  checked w files = hasValidSession w (snd (loadCookies w (initial files))).
Proof. unfold checked, bind. rewrite loadCookies_eq. reflexivity. Qed.

Lemma checked_frame (w : World) (files : gmap string string) :
  trace (snd (checked w files)) = [ReadFile (cookieFilePath (config (cwd w)))]
  /\ disk (snd (checked w files)) = files
  /\ page (snd (checked w files)) = None.
Proof.
  rewrite checked_eq, hasValidSession_eq, loadCookies_eq. cbv zeta.
  destruct (sent_cookies w _) as [[cookies jar]|]; cbn [snd trace disk page with_jar];
    destruct (disk (initial files) !! session_file w) as [cookieFile|];
    try destruct (CookieJar_fromJSON cookieFile);
    repeat split; reflexivity.
Qed.

(** A check that raises raises one of two errors: the jar's, or the
    one of a name without [includes]. *)
Lemma checked_throws (w : World) (files : gmap string string) (e : Error) :
  valid_on_load w files = Throw e -> e = JarError \/ e = TypeError.
Proof.
  unfold valid_on_load. rewrite checked_eq, hasValidSession_eq. cbv zeta.
  destruct (sent_cookies w _) as [[cookies jar]|]; cbn [fst];
    [|intros [= <-]; left; reflexivity].
  intros Hcheck. apply session_check_throws in Hcheck as [-> _]. right. reflexivity.
Qed.

Lemma run_eq (w : World) (files : gmap string string) :
  run w files =
  report (match checked w files with
          | (Return valid, st2) =>
              match login_phase valid w st2 with
              | (Return _, st3) => finish w st3
              | (Throw e, st3) => (Throw e, st3)
              end
          | (Throw e, st2) => (Throw e, st2)
          end).
Proof.
  unfold run. rewrite main_eq, main_try_finish, <- checked_eq.
  destruct (checked w files) as [[valid|e] st2]; [|reflexivity].
  destruct (login_phase valid w st2) as [[[]|e] st3].
  - destruct (finish w st3) as [[[]|e] st4]; reflexivity.
  - reflexivity.
Qed.

Lemma run_checked (w : World) (files : gmap string string) (valid : bool) :
  valid_on_load w files = Return valid ->
  run w files =
  report (match login_phase valid w (snd (checked w files)) with
          | (Return _, st3) => finish w st3
          | (Throw e, st3) => (Throw e, st3)
          end).
Proof.
  unfold valid_on_load. intros Hcheck. rewrite run_eq.
  destruct (checked w files) as [[valid'|e] st2]; cbn [fst snd] in *; [|discriminate].
  injection Hcheck as ->. reflexivity.
Qed.

(** A run whose check of the session raises stops there. *)
Lemma run_unchecked (w : World) (files : gmap string string) (e : Error) :
  valid_on_load w files = Throw e ->
  trace (run w files)
  = [ReadFile (cookieFilePath (config (cwd w))); Log (Failed e); Exit 1]
  /\ disk (run w files) = files
  /\ exit_code (run w files) = 1%Z.
Proof.
  unfold valid_on_load. intros Hcheck.
  destruct (checked_frame w files) as [Htrace [Hdisk _]].
  rewrite run_eq.
  destruct (checked w files) as [[valid|e'] st2]; cbn [fst snd] in *; [discriminate|].
  injection Hcheck as ->.
  split; [cbn [report trace]; rewrite Htrace; reflexivity|].
  split; [exact Hdisk | apply exit_code_failed].
Qed.

Lemma login_phase_valid (w : World) (st : State) :
  login_phase true w st = (Return tt, snd (log ReusingSession w st)).
Proof. reflexivity. Qed.

Lemma login_phase_invalid (w : World) (st : State) :
  login_phase false w st =
  match authenticate w (snd (log NoValidSession w st)) with
  | (Return _, st') => saveCookies w st'
  | (Throw e, st') => (Throw e, st')
  end.
Proof. reflexivity. Qed.


(** The calls of a run that logs in: the login page request, the
    submission when the page has a nonce, and either the failure of the
    login or the session write followed by the rest of the run. *)
Lemma run_trace_invalid (w : World) (files : gmap string string) :
  let c := config (cwd w) in
  let login := authenticate w (before_login w files) in
  valid_on_load w files = Return false ->
  exists attempt rest,
    trace (run w files)
    = (ReadFile (cookieFilePath c) :: Log NoValidSession
       :: Fetch (login_page_request c) :: attempt ++ rest)%list
    /\ (attempt = [] \/ exists nonce, attempt = [Fetch (login_submit_request c nonce)])
    /\ ((exists e, fst login = Throw e /\ rest = [Log (Failed e); Exit 1])
        \/ (fst login = Return tt /\ attempt <> []
            /\ exists rest',
                 rest = WriteFile (cookieFilePath c) (CookieJar_toJSON (cookieJar (snd login)))
                        :: rest'
                 /\ ((writable w (session_file w) = false
                      /\ rest' = [Log (Failed WriteError); Exit 1])
                     \/ (writable w (session_file w) = true
                         /\ exists request events,
                              rest' = (request ++ events)%list
                              /\ (request = []
                                  \/ exists req,
                                       url req = usersApiUrl c /\ request = [Fetch req])
                              /\ Forall (fun e => is_fetch e = false
                                                  /\ is_session_write c e = false)
                                   events)))).
Proof.
  intros c login Hvalid.
  rewrite (run_checked w files false Hvalid), login_phase_invalid.
  fold (before_login w files). fold login.
  destruct (authenticate_frame w (before_login w files))
    as [Hd [Hp [attempt [Ht [Hshape Hret]]]]].
  fold c in Ht, Hshape. fold login in Hd, Hp, Ht, Hret.
  assert (Hstart : trace (before_login w files)
                   = [ReadFile (cookieFilePath c); Log NoValidSession]).
  { unfold before_login. cbn [log emit snd trace].
    destruct (checked_frame w files) as [-> _]. reflexivity. }
  rewrite Hstart in Ht. cbn [app] in Ht.
  destruct login as [[[]|e] st3] eqn:Hlogin; cbn [fst snd] in *.
  - rewrite saveCookies_eq. cbv zeta. fold c.
    destruct (writable w (session_file w)) eqn:Hw.
    + match goal with
      | |- context [finish w ?s] =>
          destruct (finish_frame w s) as [request [events [Hf [Hreq Hev]]]]
      end.
      fold c in Hreq, Hev. cbn [trace] in Hf.
      exists attempt, (WriteFile (cookieFilePath c) (CookieJar_toJSON (cookieJar st3))
                       :: request ++ events)%list.
      split; [|split]; [|exact Hshape|].
      * rewrite Hf, Ht. cbn [app]. rewrite <- ?app_assoc. reflexivity.
      * right. split; [reflexivity|]. split; [auto|].
        eexists. split; [reflexivity|]. right. split; [reflexivity|].
        exists request, events. auto.
    + cbn [report trace].
      exists attempt, [WriteFile (cookieFilePath c) (CookieJar_toJSON (cookieJar st3));
                       Log (Failed WriteError); Exit 1].
      split; [|split]; [|exact Hshape|].
      * rewrite Ht. cbn [app]. rewrite <- ?app_assoc. reflexivity.
      * right. split; [reflexivity|]. split; [auto|].
        eexists. split; [reflexivity|]. left. auto.
  - cbn [report trace].
    exists attempt, [Log (Failed e); Exit 1].
    split; [|split]; [|exact Hshape|].
    + rewrite Ht. cbn [app]. rewrite <- ?app_assoc. reflexivity.
    + left. exists e. auto.
Qed.

Lemma load_failure_invalid (w : World) (files : gmap string string) :
  (files !! session_file w = None
   \/ exists content,
        files !! session_file w = Some content /\ CookieJar_fromJSON content = None) ->
  cookieJar (snd (loadCookies w (initial files))) = CookieJar_new
  /\ valid_on_load w files = Return false.
Proof.
  intros Hfail.
  assert (Hjar : cookieJar (snd (loadCookies w (initial files))) = CookieJar_new).
  { rewrite loadCookies_eq. cbn [snd]. cbn [initial disk].
    destruct Hfail as [-> | [content [-> ->]]]; reflexivity. }
  split; [exact Hjar|].
  unfold valid_on_load. rewrite checked_eq, hasValidSession_eq. cbv zeta.
  unfold sent_cookies. rewrite Hjar.
  pose proof (new_jar_empty (now w (ticks (snd (loadCookies w (initial files))))) (cwd w))
    as Hnew.
  destruct (CookieJar_getCookies _ _ CookieJar_new) as [[cookies jar]|];
    cbn [option_map fst] in Hnew; [|discriminate Hnew].
  injection Hnew as ->. reflexivity.
Qed.

(** What a run that ends well has done after the check of the session. *)
Lemma run_success (w : World) (files : gmap string string) :
  let c := config (cwd w) in
  exit_code (run w files) = 0%Z ->
  exists valid st3 allData st4,
    valid_on_load w files = Return valid
    /\ login_phase valid w (snd (checked w files)) = (Return tt, st3)
    /\ fetchData w st3 = (Return allData, st4)
    /\ writable w (outputFilePath c) = true
    /\ disk (run w files)
       = <[outputFilePath c := JSON.stringify (JSON.JArr allData) 2]> (disk st4)
    /\ trace (run w files)
       = (trace st4 ++ [WriteFile (outputFilePath c) (JSON.stringify (JSON.JArr allData) 2);
                        Log (Success (outputFilePath c));
                        Log (TotalItems (length allData))])%list.
Proof.
  intros c. rewrite run_eq. unfold valid_on_load.
  destruct (checked w files) as [[valid|e] st2]; cbn [fst snd];
    [|rewrite exit_code_failed; discriminate].
  destruct (login_phase _ w _) as [[[]|e] st3] eqn:Hlogin;
    [|rewrite exit_code_failed; discriminate].
  rewrite finish_eq.
  destruct (fetchData w st3) as [[allData|e] st4] eqn:Hfetch;
    [|rewrite exit_code_failed; discriminate].
  rewrite output_phase_eq. cbv zeta. fold c.
  destruct (writable w (outputFilePath c)); [|rewrite exit_code_failed; discriminate].
  intros _. exists valid, st3, allData, st4. repeat split; auto.
Qed.

(** What [fetchData] has received when it returns. *)
Lemma fetchData_success (w : World) (st : State) (allData : list JSON.json) (st' : State) :
  fetchData w st = (Return allData, st') ->
  let c := config (cwd w) in
  exists req usersResponse userList items cookies shown events,
    url req = usersApiUrl c
    /\ network w req = Some usersResponse
    /\ ok usersResponse = true
    /\ JSON_parse (text usersResponse) = Some userList
    /\ JSON.spread userList = Some items
    /\ navigate w cookies (settingsPageUrl c) = Some shown
    /\ Puppeteer.appears shown Dom.form_space_y_4_input = true
    /\ allData = (items ++ [User_value
                    (currentUser (cheerio_load (Puppeteer.content shown)))])%list
    /\ disk st' = disk st
    /\ page st' = None
    /\ trace st' = (trace st ++ Fetch req :: events)%list.
Proof.
  intros Hfetch c. rewrite fetchData_eq in Hfetch. cbv zeta in Hfetch. fold c in Hfetch.
  destruct (sent_cookies w st) as [[sent jar1]|]; [|discriminate].
  set (req := users_request c _) in Hfetch.
  destruct (network w req) as [usersResponse|] eqn:Hnet; [|discriminate].
  destruct (ok usersResponse) eqn:Hok; [|discriminate].
  destruct (JSON_parse _) as [userList|] eqn:Hparse; [|discriminate].
  destruct (launches w); [|discriminate].
  destruct (CookieJar_getCookies _ _ jar1) as [[again jar2]|]; [|discriminate].
  destruct (forallb _ _); [|discriminate].
  destruct (navigate w _ _) as [shown|] eqn:Hnav; [|discriminate].
  destruct (Puppeteer.appears shown _) eqn:Happ; [|discriminate].
  destruct (JSON.spread userList) as [items|] eqn:Hspread; [|discriminate].
  injection Hfetch as <- <-.
  exists req, usersResponse, userList, items. eexists. exists shown. eexists.
  repeat split; try eassumption; try reflexivity.
Qed.

Lemma or_empty_some (s : string) : or_empty (Some s) = s.
Proof.
  unfold or_empty. destruct (String.eqb s EmptyString) eqn:E; [|reflexivity].
  apply String.eqb_eq in E. congruence.
Qed.

Lemma val_eq (i : nat) (doc : list Dom.node) :
  Dom.val (Dom.eq i (Dom.select Dom.form_input doc)) = value_at i doc.
Proof.
  unfold value_at, input_values, Dom.eq. rewrite nth_error_map.
  destruct (nth_error _ i); reflexivity.
Qed.

Lemma currentUser_eq (doc : list Dom.node) :
  currentUser doc =
  {| id := Some (or_empty (value_at 0 doc));
     firstName := Some (or_empty (value_at 1 doc));
     lastName := Some (or_empty (value_at 2 doc));
     email := Some (or_empty (value_at 3 doc)) |}.
Proof. unfold currentUser. cbv zeta. rewrite !val_eq. reflexivity. Qed.

Lemma ok_iff (res : Response) : ok res = true <-> (200 <= status res <= 299)%Z.
Proof. unfold ok. rewrite andb_true_iff, !Z.leb_le. reflexivity. Qed.

(** When the users endpoint gives no successful answer, what follows
    the login branch stops at its request at the latest. *)
Lemma finish_refused (w : World) (st : State) :
  let c := config (cwd w) in
  (forall req res, url req = usersApiUrl c -> network w req = Some res -> ok res = false) ->
  exists e st',
    finish w st = (Throw e, st')
    /\ disk st' = disk st
    /\ (trace st' = trace st \/ exists req, trace st' = (trace st ++ [Fetch req])%list).
Proof.
  intros c Hrefused. rewrite finish_eq, fetchData_eq. cbv zeta. fold c.
  destruct (sent_cookies w st) as [[sent jar1]|].
  2:{ eexists. eexists. split; [reflexivity|]. split; [reflexivity|].
      left. cbn [trace]. apply app_nil_r. }
  set (req := users_request c _).
  destruct (network w req) as [res|] eqn:Hnet.
  - rewrite (Hrefused req res eq_refl Hnet).
    eexists. eexists. split; [reflexivity|]. split; [reflexivity|]. right. eauto.
  - eexists. eexists. split; [reflexivity|]. split; [reflexivity|]. right. eauto.
Qed.

(** What a run that ends well has received and written. *)
Lemma successful_run (w : World) (files : gmap string string) :
  exit_code (run w files) = 0%Z ->
  let c := config (cwd w) in
  exists req usersResponse userList items cookies shown,
    In (Fetch req) (trace (run w files))
    /\ url req = usersApiUrl c
    /\ network w req = Some usersResponse
    /\ JSON_parse (text usersResponse) = Some userList
    /\ JSON.spread userList = Some items
    /\ navigate w cookies (settingsPageUrl c) = Some shown
    /\ let allData :=
         (items ++ [User_value (currentUser (cheerio_load (Puppeteer.content shown)))])%list in
       disk (run w files) !! outputFilePath c
       = Some (JSON.stringify (JSON.JArr allData) 2)
       /\ In (Log (TotalItems (length allData))) (trace (run w files)).
Proof.
  intros Hexit c.
  destruct (run_success w files Hexit)
    as [valid [st3 [allData [st4 [_ [_ [Hfetch [_ [Hdisk Htrace]]]]]]]]].
  fold c in Hdisk, Htrace.
  destruct (fetchData_success w st3 allData st4 Hfetch)
    as [req [usersResponse [userList [items [cookies [shown [events
         [Hurl [Hnet [_ [Hparse [Hspread [Hnav [_ [Hall [_ [_ Ht4]]]]]]]]]]]]]]]]].
  fold c in Hurl, Hnav.
  exists req, usersResponse, userList, items, cookies, shown.
  split; [|split; [exact Hurl|split; [exact Hnet|split; [exact Hparse|
          split; [exact Hspread|split; [exact Hnav|]]]]]].
  - rewrite Htrace, Ht4. apply in_or_app. left. apply in_or_app. right. left. reflexivity.
  - cbv zeta. rewrite <- Hall. split.
    + rewrite Hdisk. apply lookup_insert_eq.
    + rewrite Htrace. apply in_or_app. right. right. right. left. reflexivity.
Qed.

(** A run whose login raises stops there. *)
Lemma login_failure_aborts (w : World) :
  let c := config (cwd w) in
  let page_request := login_page_request c in
  (forall files e,
        valid_on_load w files = Return false ->
        fst (authenticate w (before_login w files)) = Throw e ->
        trace (run w files)
        = (trace (snd (authenticate w (before_login w files)))
           ++ [Log (Failed e); Exit 1])%list
        /\ (List.filter (is_login_request c) (trace (run w files)) = [Fetch page_request]
            \/ exists nonce,
                 List.filter (is_login_request c) (trace (run w files))
                 = [Fetch page_request; Fetch (login_submit_request c nonce)])
        /\ Forall (fun ev => is_write ev = false) (trace (run w files))
        /\ disk (run w files) = files
        /\ exit_code (run w files) = 1%Z).
Proof.
  intros c page_request.
  intros files e Hinvalid Hraised.
    destruct (authenticate_frame w (before_login w files))
      as [Hd [_ [attempt [Ht [Hshape _]]]]].
    fold c in Ht, Hshape. fold page_request in Ht.
    destruct (checked_frame w files) as [Htrace [Hdisk _]]. fold c in Htrace.
    assert (Hstart : trace (before_login w files)
                     = [ReadFile (cookieFilePath c); Log NoValidSession]).
    { unfold before_login. cbn [log emit snd trace]. rewrite Htrace. reflexivity. }
    assert (Hfiles : disk (before_login w files) = files).
    { unfold before_login. cbn [log emit snd disk]. exact Hdisk. }
    rewrite Hstart in Ht. rewrite Hfiles in Hd.
    rewrite (run_checked w files false Hinvalid), login_phase_invalid.
    fold (before_login w files).
    destruct (authenticate w (before_login w files)) as [[[]|e'] st3];
      cbn [fst snd] in *; [discriminate|].
    injection Hraised as ->.
    split; [reflexivity|]. cbn [report trace disk].
    split; [|split; [|split; [exact Hd | apply exit_code_failed]]].
    + rewrite Ht. destruct Hshape as [-> | [nonce ->]]; [left | right; exists nonce];
        reflexivity.
    + rewrite Ht. destruct Hshape as [-> | [nonce ->]]; repeat constructor.
Qed.

(** The files after a run, away from the output file. *)
Lemma run_disk (w : World) (files : gmap string string) (p : string) :
  let c := config (cwd w) in
  let login := authenticate w (before_login w files) in
  p <> outputFilePath c ->
  disk (run w files) !! p =
  match valid_on_load w files with
  | Return false =>
      match fst login with
      | Return _ =>
          if writable w (session_file w)
          then <[session_file w := CookieJar_toJSON (cookieJar (snd login))]> files !! p
          else files !! p
      | Throw _ => files !! p
      end
  | _ => files !! p
  end.
Proof.
  intros c login Hp. subst login.
  destruct (checked_frame w files) as [_ [Hfiles _]].
  destruct (valid_on_load w files) as [[|]|e] eqn:Hcheck.
  - rewrite (run_checked w files true Hcheck), login_phase_valid,
      finish_disk by exact Hp.
    cbn [log emit snd disk]. rewrite Hfiles. reflexivity.
  - rewrite (run_checked w files false Hcheck), login_phase_invalid.
    fold (before_login w files).
    destruct (authenticate_frame w (before_login w files)) as [Hd _].
    assert (Hstart : disk (before_login w files) = files).
    { unfold before_login. cbn [log emit snd disk]. exact Hfiles. }
    rewrite Hstart in Hd.
    destruct (authenticate w (before_login w files)) as [[[]|e] st3];
      cbn [fst snd] in *.
    + rewrite saveCookies_eq. cbv zeta.
      destruct (writable w (session_file w)).
      * rewrite finish_disk by exact Hp. cbn [disk]. rewrite Hd. reflexivity.
      * cbn [report disk]. rewrite Hd. reflexivity.
    + cbn [report disk]. rewrite Hd. reflexivity.
  - destruct (run_unchecked w files e Hcheck) as [_ [-> _]]. reflexivity.
Qed.

(** *** Order of events *)









(** *** Numbers *)

Lemma nearest_even_spec (num den : Z) :
  (0 < den)%Z ->
  (2 * Z.abs (num - Number.nearest_even num den * den) <= den)%Z.
Proof.
  intros Hden. unfold Number.nearest_even.
  pose proof (Z.div_mod num den ltac:(lia)) as Hdiv.
  pose proof (Z.mod_pos_bound num den Hden) as Hmod.
  destruct (2 * (num mod den) <? den)%Z eqn:Hlow; [apply Z.ltb_lt in Hlow; nia|].
  apply Z.ltb_ge in Hlow.
  destruct (den <? 2 * (num mod den))%Z eqn:Hhigh; [apply Z.ltb_lt in Hhigh; nia|].
  apply Z.ltb_ge in Hhigh.
  destruct (Z.even (num / den)); nia.
Qed.

(** The exponent of the quotient of a time value by 1000. *)
Lemma exponent_in_range (a : Z) :
  (0 < a <= 8640000000000000)%Z ->
  exists k,
    Number.exponent a 1000 = (- k)%Z
    /\ (9 <= k <= 62)%Z
    /\ (2 ^ 52 * 1000 <= a * 2 ^ k < 2 ^ 53 * 1000)%Z.
Proof.
  intros Ha. unfold Number.exponent.
  change (Z.log2 1000) with 9%Z.
  pose proof (Z.log2_spec a ltac:(lia)) as [Hlow Hhigh].
  pose proof (Z.log2_nonneg a) as Hnn.
  assert (Hla : (Z.log2 a <= 52)%Z).
  { apply Z.lt_succ_r. apply Z.log2_lt_pow2; [lia|].
    change (2 ^ Z.succ 52)%Z with 9007199254740992%Z. lia. }
  set (la := Z.log2 a) in *.
  assert (Hnum : Number.scaled_num a (la - 9 - 52) = (a * 2 ^ (61 - la))%Z).
  { unfold Number.scaled_num. f_equal. f_equal. lia. }
  assert (Hden : Number.scaled_den 1000 (la - 9 - 52) = 1000%Z).
  { unfold Number.scaled_den. replace (Z.max 0 (la - 9 - 52)) with 0%Z by lia.
    reflexivity. }
  rewrite Hnum, Hden.
  assert (Hp : (2 ^ la * 2 ^ (61 - la) = 2 ^ 61)%Z).
  { rewrite <- Z.pow_add_r by lia. f_equal. lia. }
  assert (Hs : (2 ^ Z.succ la = 2 * 2 ^ la)%Z) by (apply Z.pow_succ_r; lia).
  assert (Hq : (2 ^ (62 - la) = 2 * 2 ^ (61 - la))%Z).
  { replace (62 - la)%Z with (Z.succ (61 - la)) by lia. apply Z.pow_succ_r. lia. }
  assert (Hpos : (0 < 2 ^ (61 - la))%Z) by (apply Z.pow_pos_nonneg; lia).
  change (2 ^ 61)%Z with 2305843009213693952%Z in Hp.
  change (2 ^ 52)%Z with 4503599627370496%Z.
  change (2 ^ 53)%Z with 9007199254740992%Z.
  set (P := (2 ^ (61 - la))%Z) in *. set (B := (2 ^ la)%Z) in *.
  destruct (4503599627370496 * 1000 <=? a * P)%Z eqn:Htest.
  - apply Z.leb_le in Htest. exists (61 - la)%Z. split; [lia|]. split; [lia|].
    fold P. nia.
  - apply Z.leb_gt in Htest. exists (62 - la)%Z. split; [lia|]. split; [lia|].
    rewrite Hq. nia.
Qed.

(** The quotient of a time value by 1000: a double with a 53-bit
    significand [m] and an exponent [- k], at most half a unit in the
    last place away from the exact quotient. *)
Lemma div_shape (ms : Z) :
  ms <> 0%Z -> time_value ms ->
  exists m k,
    Number.div ms 1000 = Number.Num (Qred ((Z.sgn ms * m)%Z # Z.to_pos (2 ^ k)))
    /\ (9 <= k <= 62)%Z
    /\ (2 ^ 52 <= m <= 2 ^ 53)%Z
    /\ (2 * Z.abs (Z.abs ms * 2 ^ k - m * 1000) <= 1000)%Z.
Proof.
  intros Hnz Hrange. unfold time_value in Hrange.
  destruct (exponent_in_range (Z.abs ms) ltac:(lia)) as [k [He [Hk Hnorm]]].
  exists (Number.nearest_even (Z.abs ms * 2 ^ k) 1000), k.
  pose proof (nearest_even_spec (Z.abs ms * 2 ^ k) 1000 ltac:(lia)) as Hnear.
  split; [|split; [exact Hk|split; [|exact Hnear]]].
  - unfold Number.div. rewrite (proj2 (Z.eqb_neq ms 0%Z) Hnz). cbv zeta. rewrite He.
    replace (0 <=? - k)%Z with false by (symmetry; apply Z.leb_gt; lia).
    unfold Number.scaled_num, Number.scaled_den.
    replace (Z.max 0 (- - k)) with k by lia.
    replace (Z.max 0 (- k)) with 0%Z by lia.
    replace (- - k)%Z with k by lia.
    change (1000 * 2 ^ 0)%Z with 1000%Z. reflexivity.
  - change (2 ^ 52)%Z with 4503599627370496%Z in *.
    change (2 ^ 53)%Z with 9007199254740992%Z in *. lia.
Qed.

Lemma Num_eq (m k : Z) (x : Q) :
  (0 <= k)%Z ->
  (Qred (m # Z.to_pos (2 ^ k)) == x)%Q <-> (m * Z.pos (Qden x) = Qnum x * 2 ^ k)%Z.
Proof.
  intros Hk. rewrite Qred_correct. unfold Qeq. cbn [Qnum Qden].
  rewrite Z2Pos.id by (apply Z.pow_pos_nonneg; lia). reflexivity.
Qed.

(** The quotient is -1 for one time value only. *)
Lemma div_minus_one (ms : Z) (q : Q) :
  time_value ms ->
  Number.div ms 1000 = Number.Num q ->
  (q == (-1) # 1)%Q <-> ms = (-1000)%Z.
Proof.
  intros Hrange Hdiv. split.
  - intros Hq. destruct (Z.eq_dec ms 0%Z) as [-> | Hnz].
    + vm_compute in Hdiv. injection Hdiv as <-. vm_compute in Hq. discriminate Hq.
    + destruct (div_shape ms Hnz Hrange) as [m [k [Heq [Hk [Hm Hnear]]]]].
      rewrite Heq in Hdiv. injection Hdiv as <-.
      apply Num_eq in Hq; [|lia]. cbn [Qnum Qden] in Hq.
      assert (Hpos : (512 <= 2 ^ k)%Z).
      { change 512%Z with (2 ^ 9)%Z. apply Z.pow_le_mono_r; lia. }
      change (2 ^ 52)%Z with 4503599627370496%Z in *.
      change (2 ^ 53)%Z with 9007199254740992%Z in *.
      set (P := (2 ^ k)%Z) in *.
      assert (Hneg : (ms < 0)%Z).
      { destruct (Z.lt_trichotomy ms 0%Z) as [H | [H | H]]; [exact H | lia|].
        rewrite (Z.sgn_pos ms) in Hq by lia. lia. }
      rewrite (Z.sgn_neg ms Hneg) in Hq.
      assert (Hmp : m = P) by lia. subst m.
      assert (Ha : Z.abs ms = 1000%Z) by nia. lia.
  - intros ->. vm_compute in Hdiv. injection Hdiv as <-. reflexivity.
Qed.


(** [new Date(expires).getTime()] gives time values. *)
Lemma getTime_time_value (e : Tough.Expires) (ms : Z) :
  Tough.getTime e = Some ms -> time_value ms.
Proof.
  unfold time_value. destruct e as [|ms'| |]; cbn [Tough.getTime]; try discriminate.
  - destruct (Z.abs ms' <=? 8640000000000000)%Z eqn:H; [|discriminate].
    intros [= <-]. apply Z.leb_le. exact H.
  - intros [= <-]. cbn. lia.
Qed.

(** *** Selectors *)

Lemma node_forall (P : Dom.node -> Prop) :
  (forall data, P (Dom.TextNode data)) ->
  (forall tag attribs children,
     Forall P children -> P (Dom.Element tag attribs children)) ->
  forall n, P n.
Proof.
  intros Htext Helement. fix IH 1. intros [tag attribs children | data].
  - apply Helement.
    induction children as [|child rest IHrest]; constructor;
      [apply IH | exact IHrest].
  - apply Htext.
Qed.

Lemma flat_map_sublist {A B : Type} (f g : A -> list B) (l : list A) :
  Forall (fun x => sublist (f x) (g x)) l ->
  sublist (flat_map f l) (flat_map g l).
Proof.
  induction 1 as [|x rest Hx _ IH]; cbn [flat_map]; [constructor|].
  apply sublist_app; assumption.
Qed.

(** Dropping the ancestors of a chain selects no less. *)
Lemma select_node_any_ancestor (tgt : Dom.compound) (n : Dom.node) :
  forall pending,
    sublist (Dom.select_node pending tgt n) (Dom.select_node [] tgt n).
Proof.
  induction n as [data | tag attribs children IH] using node_forall;
    intros pending; [constructor|].
  destruct pending as [|a rest]; [reflexivity|].
  cbn [Dom.select_node app]. apply sublist_inserts_l.
  apply flat_map_sublist. eapply Forall_impl; [exact IH|].
  intros child Hchild. apply Hchild.
Qed.

(** A chain with a narrower ancestor selects no more. *)
Lemma select_node_narrower (a b tgt : Dom.compound) (n : Dom.node) :
  (forall m, Dom.matches a m = true -> Dom.matches b m = true) ->
  sublist (Dom.select_node [a] tgt n) (Dom.select_node [b] tgt n).
Proof.
  intros Hab.
  induction n as [data | tag attribs children IH] using node_forall;
    [constructor|].
  cbn [Dom.select_node app].
  destruct (Dom.matches a (Dom.Element tag attribs children)) eqn:Ha.
  - rewrite (Hab _ Ha). reflexivity.
  - destruct (Dom.matches b (Dom.Element tag attribs children)).
    + apply flat_map_sublist. eapply Forall_impl; [exact IH|].
      intros child _. apply select_node_any_ancestor.
    + apply flat_map_sublist. exact IH.
Qed.

(** Whatever a chain selects matches its last compound selector. *)
Lemma select_node_matches (tgt : Dom.compound) (n : Dom.node) :
  forall pending,
    Forall (fun m => Dom.matches tgt m = true) (Dom.select_node pending tgt n).
Proof.
  induction n as [data | tag attribs children IH] using node_forall;
    intros pending; [constructor|].
  cbn [Dom.select_node]. apply Forall_app_2.
  - destruct pending; [|constructor].
    destruct (Dom.matches tgt (Dom.Element tag attribs children)) eqn:Hm;
      repeat constructor. exact Hm.
  - generalize (match pending with
                | [] => []
                | a :: rest =>
                    if Dom.matches a (Dom.Element tag attribs children)
                    then rest else pending
                end).
    intros pending'. induction IH as [|child rest Hchild _ IHrest];
      cbn [flat_map]; [constructor|].
    apply Forall_app_2; [apply Hchild | exact IHrest].
Qed.

Lemma sublist_map {A B : Type} (f : A -> B) (l1 l2 : list A) :
  sublist l1 l2 -> sublist (map f l1) (map f l2).
Proof. induction 1; cbn [map]; constructor; assumption. Qed.

(** The inputs inside a form are among the inputs of the markup. *)
Lemma form_inputs_among_inputs (doc : list Dom.node) :
  sublist (Dom.select Dom.form_input doc) (Dom.select any_input doc).
Proof.
  unfold Dom.select. apply flat_map_sublist.
  apply Forall_forall. intros n _. apply select_node_any_ancestor.
Qed.

(** *** The exit code *)

Lemma exit_code_of_trace (st : State) (before : list Event) (x y : Event) :
  trace st = (before ++ [x; y])%list ->
  exit_code st = match y with Exit code => code | _ => 0%Z end.
Proof. intros Ht. unfold exit_code. rewrite Ht, last_app_cons. reflexivity. Qed.

End Properties.

(** ** The claims of the specification *)

Section Claims.

Context {L : Libraries}.

(** C3 (as amended). The session-validity check asks the jar for the
    cookies it sends to the target domain at that time and looks at
    their names, in order.  It returns true if and only if one of the
    cookies the jar yields has a name that contains "session" (a string
    with that substring, or an array with that element) and no cookie
    before it has a name without [includes]; it returns false if and
    only if no yielded cookie has such a name and every name is a
    string, an array or [null].  It raises when the jar does not give
    its cookies, and when it comes to a name that is a number, a
    boolean or an object.  When all the names are strings, as they are
    for cookies parsed from Set-Cookie headers, it returns, and returns
    true exactly when a yielded cookie has a name containing "session".
    It makes no request, no call to the outside at all, leaves the files
    alone and compares no expiry date itself. *)
Theorem hasValidSession_iff_session_cookie (w : World) (st : State) :
  let r := fst (hasValidSession w st) in
  let st' := snd (hasValidSession w st) in
  trace st' = trace st /\ disk st' = disk st /\ page st' = page st
  /\ match sent_cookies w st with
     | None => r = Throw JarError /\ cookieJar st' = cookieJar st
     | Some (cookies, jar) =>
         cookieJar st' = jar
         /\ (r = Return true
             <-> exists before cookie after,
                   cookies = (before ++ cookie :: after)%list
                   /\ names_session (Tough.key cookie)
                   /\ Forall (fun c => includes (Tough.key c) "session" = Return false)
                        before)
         /\ (r = Return false
             <-> Forall (fun c => includes (Tough.key c) "session" = Return false)
                   cookies)
         /\ (forall e,
               r = Throw e
               <-> e = TypeError
                   /\ exists before cookie after,
                        cookies = (before ++ cookie :: after)%list
                        /\ has_no_includes (Tough.key cookie)
                        /\ Forall (fun c => includes (Tough.key c) "session"
                                            = Return false) before)
         /\ (Forall (fun c => exists name, Tough.key c = JSON.JStr name) cookies ->
             (r = Return true \/ r = Return false)
             /\ (r = Return true
                 <-> exists cookie before after,
                       In cookie cookies
                       /\ Tough.key cookie = JSON.JStr (before ++ "session" ++ after)))
     end.
Proof.
  intros r st'. subst r st'. rewrite hasValidSession_eq. cbv zeta.
  destruct (sent_cookies w st) as [[cookies jar]|]; cbn [fst snd trace disk page cookieJar with_jar];
    [|repeat split; reflexivity].
  split; [reflexivity|]. split; [reflexivity|]. split; [reflexivity|].
  split; [reflexivity|].
  split; [apply session_check_true|]. split; [apply session_check_false|].
  split; [intros e; apply session_check_throws|].
  intros Hstrings.
  assert (Hreturns : session_check cookies = Return true
                     \/ session_check cookies = Return false).
  { destruct (session_check cookies) as [[|]|e] eqn:Hcheck; auto.
    apply session_check_throws in Hcheck
      as [_ [before [cookie [after [Heq [Hbad _]]]]]].
    exfalso. rewrite Forall_forall in Hstrings.
    destruct (Hstrings cookie) as [name Hname].
    { rewrite Heq. apply list_elem_of_In, in_or_app. right. left. reflexivity. }
    rewrite Hname in Hbad. exact Hbad. }
  split; [exact Hreturns|]. split.
  - intros Htrue. apply session_check_true in Htrue
      as [before [cookie [after [Heq [Hname _]]]]].
    rewrite Forall_forall in Hstrings.
    assert (Hin : In cookie cookies)
      by (rewrite Heq; apply in_or_app; right; left; reflexivity).
    destruct (Hstrings cookie (proj2 (list_elem_of_In _ _) Hin)) as [name Hkey].
    destruct Hname as [[a [z Hname]] | [items [Hname _]]]; [|congruence].
    exists cookie, a, z. auto.
  - intros [cookie [a [z [Hin Hkey]]]].
    destruct Hreturns as [Htrue | Hfalse]; [exact Htrue|]. exfalso.
    apply session_check_false in Hfalse. rewrite Forall_forall in Hfalse.
    specialize (Hfalse cookie (proj2 (list_elem_of_In _ _) Hin)).
    assert (Hyes : includes (Tough.key cookie) "session" = Return true).
    { apply includes_true. left. eauto. }
    congruence.
Qed.

(** C8. Loading the session file never raises.  When the file is absent
    or its content is malformed, the jar is left as it was, which at the
    start of a run is the new, empty jar; the run goes on from there: it
    finds no valid session and requests the login page. *)
Theorem loadCookies_failure_is_not_fatal (w : World) :
  let file := session_file w in
  (forall st,
     exists st',
       loadCookies w st = (Return tt, st')
       /\ disk st' = disk st
       /\ ((disk st !! file = None
            \/ exists content,
                 disk st !! file = Some content /\ CookieJar_fromJSON content = None) ->
           cookieJar st' = cookieJar st))
  /\ (forall files,
        (files !! file = None
         \/ exists content,
              files !! file = Some content /\ CookieJar_fromJSON content = None) ->
        cookieJar (snd (loadCookies w (initial files))) = CookieJar_new
        /\ exists rest,
             trace (run w files)
             = ReadFile (cookieFilePath (config (cwd w))) :: Log NoValidSession
               :: Fetch (login_page_request (config (cwd w))) :: rest).
Proof.
  intros file. split.
  - intros st. rewrite loadCookies_eq. cbv zeta. fold file.
    eexists. split; [reflexivity|]. split.
    + destruct (disk st !! file) as [content|];
        [destruct (CookieJar_fromJSON content)|]; reflexivity.
    + intros [-> | [content [-> ->]]]; reflexivity.
  - intros files Hfail.
    destruct (load_failure_invalid w files Hfail) as [Hjar Hinvalid].
    split; [exact Hjar|].
    destruct (run_trace_invalid w files Hinvalid) as [attempt [rest [Ht _]]].
    exists (attempt ++ rest)%list. exact Ht.
Qed.


(** C1. On every run that ends well, the output file holds exactly the
    records of the users endpoint, in the order received, followed by
    the one record scraped from the settings page: one record more than
    the endpoint gave, the scraped record last, whatever the length of
    the list (the empty list included); nothing is removed or
    reordered.  The records of the endpoint are the elements of the
    array its body parses to (the items the spread operator draws from
    the parsed body). *)
Theorem output_is_user_list_then_current_user (w : World) (files : gmap string string) :
  exit_code (run w files) = 0%Z ->
  let c := config (cwd w) in
  exists req usersResponse userList items cookies shown,
    In (Fetch req) (trace (run w files))
    /\ url req = usersApiUrl c
    /\ network w req = Some usersResponse
    /\ JSON_parse (text usersResponse) = Some userList
    /\ JSON.spread userList = Some items
    /\ (forall records, userList = JSON.JArr records -> items = records)
    /\ navigate w cookies (settingsPageUrl c) = Some shown
    /\ let scraped :=
         User_value (currentUser (cheerio_load (Puppeteer.content shown))) in
       let allData := (items ++ [scraped])%list in
       disk (run w files) !! outputFilePath c
       = Some (JSON.stringify (JSON.JArr allData) 2)
       /\ length allData = length items + 1
       /\ last allData = Some scraped
       /\ (forall i record,
            nth_error items i = Some record -> nth_error allData i = Some record)
       /\ In (Log (TotalItems (length items + 1))) (trace (run w files)).
Proof.
  intros Hexit c.
  destruct (successful_run w files Hexit)
    as [req [usersResponse [userList [items [cookies [shown
         [Hin [Hurl [Hnet [Hparse [Hspread [Hnav [Hdisk Hlog]]]]]]]]]]]]].
  fold c in Hurl, Hnav, Hdisk.
  exists req, usersResponse, userList, items, cookies, shown.
  split; [exact Hin|split; [exact Hurl|split; [exact Hnet|split; [exact Hparse|
          split; [exact Hspread|split; [|split; [exact Hnav|]]]]]]].
  - intros records ->. cbn in Hspread. congruence.
  - cbv zeta. split; [exact Hdisk|]. split; [|split; [|split]].
    + rewrite length_app. reflexivity.
    + apply last_snoc.
    + intros i record Hi. rewrite nth_error_app1; [exact Hi|].
      apply nth_error_Some. congruence.
    + rewrite length_app in Hlog. exact Hlog.
Qed.

(** C2 (as amended). The scraper reads the values of the first, second,
    third and fourth input elements that are inside a form element of
    the rendered markup (the selector is "form input"; an input outside
    every form is not counted), by position: the record depends on
    nothing but these values in document order, so not on the name or id
    attributes, and they become the identifier, the first name, the last
    name and the email.  The inputs read are among the input elements
    of the markup, in the same order.  In particular, when the users endpoint answers
    with the one record of the example and the form has the four inputs
    valued "42", "John", "Doe", "john@doe.com", the output file holds
    the two-element array of the specification, printed with an
    indentation of two spaces. *)
Theorem current_user_is_read_by_position :
  (forall doc,
     currentUser doc =
     {| id := Some (or_empty (value_at 0 doc));
        firstName := Some (or_empty (value_at 1 doc));
        lastName := Some (or_empty (value_at 2 doc));
        email := Some (or_empty (value_at 3 doc)) |})
  /\ (forall doc doc',
        input_values doc = input_values doc' -> currentUser doc = currentUser doc')
  /\ (forall doc i f l e more,
        input_values doc = Some i :: Some f :: Some l :: Some e :: more ->
        User_value (currentUser doc) = user_object i f l e)
  /\ (forall w files,
        let c := config (cwd w) in
        exit_code (run w files) = 0%Z ->
        (forall req res,
           url req = usersApiUrl c -> network w req = Some res ->
           JSON_parse (text res) = Some (JSON.JArr [user_object "1" "A" "B" "a@b.com"])) ->
        (forall cookies shown,
           navigate w cookies (settingsPageUrl c) = Some shown ->
           input_values (cheerio_load (Puppeteer.content shown))
           = [Some "42"; Some "John"; Some "Doe"; Some "john@doe.com"]) ->
        disk (run w files) !! outputFilePath c
        = Some (JSON.stringify
                  (JSON.JArr [user_object "1" "A" "B" "a@b.com";
                              user_object "42" "John" "Doe" "john@doe.com"]) 2))
  /\ JSON.stringify
       (JSON.JArr [user_object "1" "A" "B" "a@b.com";
                   user_object "42" "John" "Doe" "john@doe.com"]) 2
     = spec_example_output
  /\ (forall doc, sublist (input_values doc) (markup_input_values doc)).
Proof.
  split; [exact currentUser_eq|]. split; [|split; [|split; [|split]]].
  - intros doc doc' Hsame. rewrite !currentUser_eq. unfold value_at.
    rewrite Hsame. reflexivity.
  - intros doc i f l e more Hvalues. rewrite currentUser_eq. unfold value_at.
    rewrite Hvalues. cbn [nth_error]. rewrite !or_empty_some. reflexivity.
  - intros w files c Hexit Husers Hform.
    destruct (successful_run w files Hexit)
      as [req [usersResponse [userList [items [cookies [shown
           [_ [Hurl [Hnet [Hparse [Hspread [Hnav [Hdisk _]]]]]]]]]]]]].
    fold c in Hurl, Hnav, Hdisk.
    rewrite (Husers req usersResponse Hurl Hnet) in Hparse.
    injection Hparse as <-. cbn in Hspread. injection Hspread as <-.
    rewrite Hdisk. rewrite currentUser_eq. unfold value_at.
    rewrite (Hform cookies shown Hnav). reflexivity.
  - vm_compute. reflexivity.
  - intros doc. apply sublist_map, form_inputs_among_inputs.
Qed.

(** C10. The data model lets every field of a user be undefined, but
    the scraped record never has one: each of its four fields is a
    string, the value of the input at its position, or the empty string
    when there is no input at that position or when its value is
    undefined or empty.  So the last record of the output file always
    has its four string fields, while a record of the users endpoint can
    lack one, as in the run shown last. *)
Theorem scraped_record_fields_are_strings :
  (forall doc,
     exists i f l e,
       currentUser doc
       = {| id := Some i; firstName := Some f; lastName := Some l; email := Some e |}
       /\ User_value (currentUser doc) = user_object i f l e
       /\ i = or_empty (value_at 0 doc) /\ f = or_empty (value_at 1 doc)
       /\ l = or_empty (value_at 2 doc) /\ e = or_empty (value_at 3 doc))
  /\ (forall doc n,
        value_at n doc = None \/ value_at n doc = Some EmptyString ->
        or_empty (value_at n doc) = EmptyString)
  /\ (forall doc n,
        length (input_values doc) <= n -> or_empty (value_at n doc) = EmptyString)
  /\ (forall w files,
        exit_code (run w files) = 0%Z ->
        exists allData i f l e,
          disk (run w files) !! outputFilePath (config (cwd w))
          = Some (JSON.stringify (JSON.JArr allData) 2)
          /\ last allData = Some (user_object i f l e))
  /\ (let w := Sample.world (Sample.with_users 200 Sample.partial_user_json Sample.usual) in
      let st := @run Sample.libraries w ∅ in
      exit_code st = 0%Z
      /\ exists record scraped,
           disk st !! outputFilePath (config (cwd w))
           = Some (JSON.stringify (JSON.JArr [record; scraped]) 2)
           /\ JSON.prop "id" record = Some (JSON.JStr "7")
           /\ JSON.prop "email" record = None
           /\ JSON.prop "email" scraped = Some (JSON.JStr "john@doe.com")).
Proof.
  split; [|split; [|split; [|split]]].
  - intros doc. rewrite currentUser_eq.
    do 4 eexists. split; [reflexivity|]. split; [reflexivity|].
    repeat split; reflexivity.
  - intros doc n [-> | ->]; reflexivity.
  - intros doc n Hlen. unfold value_at.
    apply nth_error_None in Hlen. rewrite Hlen. reflexivity.
  - intros w files Hexit.
    destruct (successful_run w files Hexit)
      as [req [usersResponse [userList [items [cookies [shown
           [_ [_ [_ [_ [_ [_ [Hdisk _]]]]]]]]]]]]].
    rewrite currentUser_eq in Hdisk.
    eexists. do 4 eexists. split; [exact Hdisk | apply last_snoc].
  - cbv zeta. split; [vm_compute; reflexivity|].
    exists (JSON.JObj [("id", JSON.JStr "7")]),
           (user_object "42" "John" "Doe" "john@doe.com").
    repeat split; vm_compute; reflexivity.
Qed.

Ltac no_output_write H :=
  rewrite ?Forall_app; repeat split;
  repeat first [exact H | apply session_write_is_not_output | constructor].

(** C7. [fetchData] raises FetchError exactly when the users endpoint
    has answered its request with a status outside 200..299, and it
    then stops right after the request, touching no file; the error
    goes to the [catch] block of [main].  A run in which the users
    endpoint gives no 2xx answer never calls [writeFile] on the output
    path, leaves the output file as it was and exits with code 1. *)
Theorem users_fetch_failure_aborts_before_output :
  (forall w st sent jar usersResponse,
     let c := config (cwd w) in
     let req := users_request c (cookie_header sent) in
     sent_cookies w st = Some (sent, jar) ->
     network w req = Some usersResponse ->
     (fst (fetchData w st) = Throw FetchError
      <-> ~ (200 <= status usersResponse <= 299)%Z)
     /\ (~ (200 <= status usersResponse <= 299)%Z ->
         disk (snd (fetchData w st)) = disk st
         /\ trace (snd (fetchData w st)) = (trace st ++ [Fetch req])%list
         /\ trace (report (finish w st))
            = (trace st ++ [Fetch req; Log (Failed FetchError); Exit 1])%list))
  /\ (forall w st,
        fst (fetchData w st) = Throw FetchError
        <-> exists sent jar usersResponse,
              sent_cookies w st = Some (sent, jar)
              /\ network w (users_request (config (cwd w)) (cookie_header sent))
                 = Some usersResponse
              /\ ~ (200 <= status usersResponse <= 299)%Z)
  /\ (forall w files,
        let c := config (cwd w) in
        (forall req res,
           url req = usersApiUrl c -> network w req = Some res ->
           ~ (200 <= status res <= 299)%Z) ->
        disk (run w files) !! outputFilePath c = files !! outputFilePath c
        /\ Forall (fun e => is_output_write c e = false) (trace (run w files))
        /\ exit_code (run w files) = 1%Z).
Proof.
  assert (Hpart : forall w st sent jar usersResponse,
            let c := config (cwd w) in
            let req := users_request c (cookie_header sent) in
            sent_cookies w st = Some (sent, jar) ->
            network w req = Some usersResponse ->
            (fst (fetchData w st) = Throw FetchError
             <-> ~ (200 <= status usersResponse <= 299)%Z)
            /\ (~ (200 <= status usersResponse <= 299)%Z ->
                disk (snd (fetchData w st)) = disk st
                /\ trace (snd (fetchData w st)) = (trace st ++ [Fetch req])%list
                /\ trace (report (finish w st))
                   = (trace st ++ [Fetch req; Log (Failed FetchError); Exit 1])%list)).
  { intros w st sent jar usersResponse c req Hsent Hnet.
    assert (Heq := fetchData_eq w st). cbv zeta in Heq.
    fold c in Heq. rewrite Hsent in Heq. fold req in Heq. rewrite Hnet in Heq.
    destruct (ok usersResponse) eqn:Hok.
    + assert (H2xx : (200 <= status usersResponse <= 299)%Z) by now apply ok_iff.
      split; [|intros Hno; contradiction].
      split; [|intros Hno; contradiction].
      intros Hraised. rewrite Heq in Hraised. exfalso.
      destruct (JSON_parse _); [|discriminate].
      destruct (launches w); [|discriminate].
      destruct (CookieJar_getCookies _ _ jar) as [[again jar2]|]; [|discriminate].
      destruct (forallb _ _); [|discriminate].
      destruct (navigate w _ _) as [shown|]; [|discriminate].
      destruct (Puppeteer.appears shown _); [|discriminate].
      destruct (JSON.spread _); discriminate.
    + assert (Hno : ~ (200 <= status usersResponse <= 299)%Z).
      { intros H. apply ok_iff in H. congruence. }
      split; [split; [intros _; exact Hno | intros _; rewrite Heq; reflexivity]|].
      intros _. rewrite finish_eq, Heq. cbn [snd disk trace report].
      rewrite <- app_assoc. repeat split; reflexivity. }
  split; [exact Hpart|]. split.
  - intros w st. split.
    + intros Hraised.
      destruct (sent_cookies w st) as [[sent jar]|] eqn:Hsent.
      * destruct (network w (users_request (config (cwd w)) (cookie_header sent)))
          as [usersResponse|] eqn:Hnet.
        -- exists sent, jar, usersResponse. split; [reflexivity|]. split; [exact Hnet|].
           apply (Hpart w st sent jar usersResponse Hsent Hnet). exact Hraised.
        -- exfalso. rewrite fetchData_eq in Hraised. cbv zeta in Hraised.
           rewrite Hsent, Hnet in Hraised. discriminate Hraised.
      * exfalso. rewrite fetchData_eq in Hraised. cbv zeta in Hraised.
        rewrite Hsent in Hraised. discriminate Hraised.
    + intros [sent [jar [usersResponse [Hsent [Hnet Hno]]]]].
      apply (Hpart w st sent jar usersResponse Hsent Hnet). exact Hno.
  - intros w files c Hrefused.
    assert (Hrefused' : forall req res,
              url req = usersApiUrl c -> network w req = Some res -> ok res = false).
    { intros req res Hurl Hnet. destruct (ok res) eqn:Hok; [|reflexivity].
      apply ok_iff in Hok. destruct (Hrefused req res Hurl Hnet Hok). }
    assert (Hfinish : forall st,
              disk (report (finish w st)) = disk st
              /\ exit_code (report (finish w st)) = 1%Z
              /\ (Forall (fun e => is_output_write c e = false) (trace st) ->
                  Forall (fun e => is_output_write c e = false)
                    (trace (report (finish w st))))).
    { intros st. destruct (finish_refused w st Hrefused') as [e [st' [-> [Hd Ht]]]].
      split; [exact Hd|]. split; [apply exit_code_failed|].
      intros Hbefore. cbn [report trace].
      destruct Ht as [-> | [req ->]]; no_output_write Hbefore. }
    destruct (checked_frame w files) as [Htrace [Hdisk _]]. fold c in Htrace.
    destruct (valid_on_load w files) as [[|]|err] eqn:Hcheck.
    + rewrite (run_checked w files true Hcheck), login_phase_valid.
      destruct (Hfinish (snd (log ReusingSession w (snd (checked w files)))))
        as [Hd [Hexit Hquiet]].
      split; [|split; [|exact Hexit]].
      * rewrite Hd. cbn [log emit snd disk]. rewrite Hdisk. reflexivity.
      * apply Hquiet. cbn [log emit snd trace]. rewrite Htrace. repeat constructor.
    + rewrite (run_checked w files false Hcheck), login_phase_invalid.
      fold (before_login w files).
      destruct (authenticate_frame w (before_login w files))
        as [Hd [_ [attempt [Ht [Hshape _]]]]].
      fold c in Ht, Hshape.
      assert (Hstart : trace (before_login w files)
                       = [ReadFile (cookieFilePath c); Log NoValidSession]).
      { unfold before_login. cbn [log emit snd trace]. rewrite Htrace. reflexivity. }
      assert (Hfiles : disk (before_login w files) = files).
      { unfold before_login. cbn [log emit snd disk]. exact Hdisk. }
      rewrite Hstart in Ht. rewrite Hfiles in Hd.
      assert (Hattempt : Forall (fun e => is_output_write c e = false) attempt).
      { destruct Hshape as [-> | [nonce ->]]; repeat constructor. }
      destruct (authenticate w (before_login w files)) as [[[]|e] st3];
        cbn [fst snd] in *.
      * rewrite saveCookies_eq. cbv zeta. fold c.
        destruct (writable w (session_file w)).
        -- match goal with
           | |- context [finish w ?s] =>
               destruct (Hfinish s) as [Hd' [Hexit Hquiet]]
           end.
           split; [|split; [|exact Hexit]].
           ++ rewrite Hd'. cbn [disk]. rewrite lookup_insert_ne, Hd; [reflexivity|].
              apply files_differ.
           ++ apply Hquiet. cbn [trace]. rewrite Ht. no_output_write Hattempt.
        -- split; [|split; [|apply exit_code_failed]].
           ++ cbn [report disk]. rewrite Hd. reflexivity.
           ++ cbn [report trace]. rewrite Ht. no_output_write Hattempt.
      * split; [|split; [|apply exit_code_failed]].
        -- cbn [report disk]. rewrite Hd. reflexivity.
        -- cbn [report trace]. rewrite Ht. no_output_write Hattempt.
    + destruct (run_unchecked w files err Hcheck) as [-> [-> Hexit]].
      split; [reflexivity|]. split; [repeat constructor | exact Hexit].
Qed.

(** C5 (as amended). When both login requests are answered and the jar
    takes every returned cookie, the authenticator raises exactly in two
    cases: ProtocolError when the first input named nonce of the login
    page has no string value (or there is no such input), and
    AuthenticationError when the answer to the submission has a status
    other than 302 or carries no Set-Cookie header.  Besides these it
    raises only when a request gets no answer or when the jar rejects a
    returned cookie.  On success every returned cookie has been merged
    into the jar, in order.  On any error the run aborts: each login
    request was made at most once, nothing is written and the process
    exits with code 1. *)
Theorem authenticate_outcomes (w : World) :
  let c := config (cwd w) in
  let page_request := login_page_request c in
  (forall st,
     let r := fst (authenticate w st) in
     (r = Throw ProtocolError
      <-> exists loginPage,
            network w page_request = Some loginPage
            /\ nonce_of (text loginPage) = None)
     /\ (r = Throw AuthenticationError
         <-> exists loginPage nonce res,
               network w page_request = Some loginPage
               /\ nonce_of (text loginPage) = Some nonce
               /\ network w (login_submit_request c nonce) = Some res
               /\ (status res <> 302%Z \/ getSetCookie res = []))
     /\ (r = Throw NetworkError
         <-> network w page_request = None
             \/ exists loginPage nonce,
                  network w page_request = Some loginPage
                  /\ nonce_of (text loginPage) = Some nonce
                  /\ network w (login_submit_request c nonce) = None)
     /\ (forall loginPage nonce res,
           network w page_request = Some loginPage ->
           nonce_of (text loginPage) = Some nonce ->
           network w (login_submit_request c nonce) = Some res ->
           status res = 302%Z -> getSetCookie res <> [] ->
           match merged w (domain c) (ticks st) (getSetCookie res) (cookieJar st) with
           | Some jar => r = Return tt /\ cookieJar (snd (authenticate w st)) = jar
           | None => r = Throw CookieRejected
           end)
     /\ (forall e,
           r = Throw e ->
           e = ProtocolError \/ e = AuthenticationError
           \/ e = NetworkError \/ e = CookieRejected))
  /\ (forall files e,
        valid_on_load w files = Return false ->
        fst (authenticate w (before_login w files)) = Throw e ->
        trace (run w files)
        = (trace (snd (authenticate w (before_login w files)))
           ++ [Log (Failed e); Exit 1])%list
        /\ (List.filter (is_login_request c) (trace (run w files)) = [Fetch page_request]
            \/ exists nonce,
                 List.filter (is_login_request c) (trace (run w files))
                 = [Fetch page_request; Fetch (login_submit_request c nonce)])
        /\ Forall (fun ev => is_write ev = false) (trace (run w files))
        /\ disk (run w files) = files
        /\ exit_code (run w files) = 1%Z).
Proof.
  intros c page_request. split; [|exact (login_failure_aborts w)].
  - intros st r. subst r. rewrite authenticate_eq. cbv zeta.
    fold c. fold page_request.
    destruct (network w page_request) as [loginPage|] eqn:Hpage.
    2:{ cbn [fst]. repeat split; try naive_solver. }
    destruct (nonce_of (text loginPage)) as [nonce|] eqn:Hnonce.
    2:{ cbn [fst]. repeat split; try naive_solver. }
    destruct (network w (login_submit_request c nonce)) as [res|] eqn:Hres.
    2:{ cbn [fst]. repeat split; try naive_solver. }
    destruct (negb _ || _) eqn:Hbad.
    { apply bad_response_iff in Hbad. cbn [fst].
      repeat split; try naive_solver. }
    assert (Hgood : ~ (status res <> 302%Z \/ getSetCookie res = [])).
    { intros H. apply bad_response_iff in H. congruence. }
    set (st2 := snd (emit _ w (snd (emit _ w st)))).
    assert (Hm2 : merged w (domain c) (ticks st2) (getSetCookie res) (cookieJar st2)
                  = merged w (domain c) (ticks st) (getSetCookie res) (cookieJar st))
      by reflexivity.
    destruct (merged w (domain c) (ticks st) (getSetCookie res) (cookieJar st))
      as [jar|] eqn:Hm.
    + rewrite (for_each_setCookie_merged _ _ _ _ _ Hm2). cbn [fst snd cookieJar].
      repeat split; try naive_solver.
      intros loginPage' nonce' res' H1 H2 H3 _ _.
      assert (loginPage' = loginPage) by congruence. subst loginPage'.
      assert (nonce' = nonce) by congruence. subst nonce'.
      assert (res' = res) by congruence. subst res'.
      rewrite Hm. split; reflexivity.
    + destruct (for_each_setCookie_rejected _ _ _ _ Hm2) as [st' [-> _]].
      cbn [fst snd].
      repeat split; try naive_solver.
      intros loginPage' nonce' res' H1 H2 H3 _ _.
      assert (loginPage' = loginPage) by congruence. subst loginPage'.
      assert (nonce' = nonce) by congruence. subst nonce'.
      assert (res' = res) by congruence. subst res'.
      rewrite Hm. reflexivity.
Qed.

(** C6 (as amended). Authentication fails fast: when the login page has
    no nonce, or when the answer to the login submission is not a 302
    carrying at least one Set-Cookie header, the authenticator leaves
    the cookie jar as it found it, and the run writes no file at all (so
    no output file), leaves the files as they were and exits with
    code 1. *)
Theorem failed_login_is_atomic (w : World) :
  let c := config (cwd w) in
  let lacks_nonce :=
    exists loginPage,
      network w (login_page_request c) = Some loginPage
      /\ nonce_of (text loginPage) = None in
  let not_accepted :=
    exists loginPage nonce res,
      network w (login_page_request c) = Some loginPage
      /\ nonce_of (text loginPage) = Some nonce
      /\ network w (login_submit_request c nonce) = Some res
      /\ (status res <> 302%Z \/ getSetCookie res = []) in
  (forall st,
     lacks_nonce \/ not_accepted ->
     (fst (authenticate w st) = Throw ProtocolError
      \/ fst (authenticate w st) = Throw AuthenticationError)
     /\ cookieJar (snd (authenticate w st)) = cookieJar st
     /\ disk (snd (authenticate w st)) = disk st)
  /\ (forall files,
        valid_on_load w files = Return false ->
        lacks_nonce \/ not_accepted ->
        cookieJar (run w files) = cookieJar (before_login w files)
        /\ disk (run w files) = files
        /\ Forall (fun ev => is_write ev = false) (trace (run w files))
        /\ exit_code (run w files) = 1%Z).
Proof.
  intros c lacks_nonce not_accepted.
  assert (Hraises : forall st,
            lacks_nonce \/ not_accepted ->
            exists e,
              fst (authenticate w st) = Throw e
              /\ (e = ProtocolError \/ e = AuthenticationError)).
  { intros st Hcase.
    destruct (authenticate_raises w st) as [Hp Ha].
    destruct Hcase as [H | H].
    - exists ProtocolError. split; [apply Hp; exact H | now left].
    - exists AuthenticationError. split; [apply Ha; exact H | now right]. }
  split.
  - intros st Hcase. destruct (Hraises st Hcase) as [e [He Hkind]].
    destruct (authenticate_fails_fast w st e He) as [Hjar [Hdisk _]].
    { destruct Hkind as [-> | ->]; auto. }
    split; [|split; [exact Hjar | exact Hdisk]].
    destruct Hkind as [-> | ->]; auto.
  - intros files Hinvalid Hcase.
    destruct (Hraises (before_login w files) Hcase) as [e [He Hkind]].
    destruct (authenticate_fails_fast w _ e He) as [Hjar _].
    { destruct Hkind as [-> | ->]; auto. }
    destruct (login_failure_aborts w files e Hinvalid He)
      as [_ [_ [Hwrites [Hdisk Hexit]]]].
    split; [|split; [exact Hdisk | split; [exact Hwrites | exact Hexit]]].
    rewrite <- Hjar. rewrite (run_checked w files false Hinvalid), login_phase_invalid.
    fold (before_login w files).
    destruct (authenticate w (before_login w files)) as [[[]|e'] st3];
      cbn [fst snd] in *; [discriminate | reflexivity].
Qed.


End Claims.

(** ** Further properties of the script *)

Section Further.

Context {L : Libraries}.


(** X2. The requests of [authenticate], in order: the login page is
    requested first; the submission follows exactly when the page was
    received and shows a nonce, and it carries that nonce.  No other
    call is made. *)
Theorem login_submission_echoes_nonce (w : World) (st : State) :
  let c := config (cwd w) in
  exists requests,
    trace (snd (authenticate w st)) = (trace st ++ map Fetch requests)%list
    /\ match network w (login_page_request c) with
       | Some loginPage =>
           match nonce_of (text loginPage) with
           | Some nonce =>
               requests = [login_page_request c; login_submit_request c nonce]
           | None => requests = [login_page_request c]
           end
       | None => requests = [login_page_request c]
       end.
Proof.
  intros c. rewrite authenticate_eq. cbv zeta. fold c.
  destruct (network w (login_page_request c)) as [loginPage|].
  2:{ exists [login_page_request c]. split; reflexivity. }
  destruct (nonce_of (text loginPage)) as [nonce|].
  2:{ exists [login_page_request c]. split; reflexivity. }
  exists [login_page_request c; login_submit_request c nonce]. split; [|reflexivity].
  assert (Hsub : forall (r : Result unit) st',
            trace st' = ((trace st ++ [Fetch (login_page_request c)])
                         ++ [Fetch (login_submit_request c nonce)])%list ->
            trace (snd (r, st'))
            = (trace st ++ map Fetch [login_page_request c;
                                      login_submit_request c nonce])%list).
  { intros r st' Ht. cbn [snd map]. rewrite Ht, <- app_assoc. reflexivity. }
  destruct (network w (login_submit_request c nonce)) as [authRes|];
    [|apply Hsub; reflexivity].
  destruct (negb _ || _); [apply Hsub; reflexivity|].
  set (st2 := snd (emit _ w (snd (emit _ w st)))).
  destruct (merged w (domain c) (ticks st2) (getSetCookie authRes) (cookieJar st2))
    as [jar|] eqn:Hm.
  - rewrite (for_each_setCookie_merged _ _ _ _ _ Hm). apply Hsub. reflexivity.
  - destruct (for_each_setCookie_rejected _ _ _ _ Hm) as [st' [-> [_ [Ht _]]]].
    apply Hsub. rewrite Ht. reflexivity.
Qed.

(** X4. The returned cookies are merged one by one, with no undo: when
    the jar rejects one of them, [authenticate] raises there, the jar
    holds the cookies that came before it, the ones after it are never
    handed over and no file is touched. *)
Theorem rejected_cookie_keeps_earlier_ones (w : World) (st : State)
  (loginPage : Response) (nonce : string) (res : Response)
  (before : list string) (rejected : string) (after : list string) (jar : Jar) :
  let c := config (cwd w) in
  network w (login_page_request c) = Some loginPage ->
  nonce_of (text loginPage) = Some nonce ->
  network w (login_submit_request c nonce) = Some res ->
  status res = 302%Z ->
  getSetCookie res = (before ++ rejected :: after)%list ->
  merged w (domain c) (ticks st) before (cookieJar st) = Some jar ->
  CookieJar_setCookie (now w (length before + ticks st)) rejected (domain c) jar = None ->
  fst (authenticate w st) = Throw CookieRejected
  /\ cookieJar (snd (authenticate w st)) = jar
  /\ disk (snd (authenticate w st)) = disk st.
Proof.
  intros c Hpage Hnonce Hres Hstatus Hcookies Hmerged Hrejected.
  rewrite authenticate_eq. cbv zeta. fold c.
  rewrite Hpage, Hnonce, Hres.
  assert (Hgood : negb (status res =? 302)%Z
                  || (length (getSetCookie res) =? 0)%nat = false).
  { rewrite Hstatus, Hcookies, length_app. cbn [length].
    rewrite Nat.add_succ_r. reflexivity. }
  rewrite Hgood, Hcookies.
  rewrite (for_each_setCookie_stops w (domain c) before rejected after _ jar).
  - repeat split; reflexivity.
  - exact Hmerged.
  - exact Hrejected.
Qed.

(** X3. The body of the login submission has exactly three fields:
    the nonce, then the two credentials of the configuration.  Whatever
    the login page gave as nonce, its characters are encoded so that it
    adds no field separator and no second equals sign. *)
Theorem login_form_has_three_fields (cwd nonce : string) :
  exists form,
    body (login_submit_request (config cwd) nonce) = Some form
    /\ form = "nonce=" ++ Text.urlencode nonce
              ++ "&username=demo%40example.org&password=test"
    /\ count_char "&" form = 2
    /\ count_char "=" form = 3.
Proof.
  eexists. split; [reflexivity|].
  assert (Hform : Text.URLSearchParams_toString
                    [("nonce", nonce);
                     ("username", username (credentials (config cwd)));
                     ("password", password (credentials (config cwd)))]
                  = "nonce=" ++ Text.urlencode nonce
                    ++ "&username=demo%40example.org&password=test").
  { unfold Text.URLSearchParams_toString. cbn [map fst snd String.concat].
    change (Text.urlencode "nonce") with "nonce".
    change (Text.urlencode (username (credentials (config cwd))))
      with "demo%40example.org".
    change (Text.urlencode "username") with "username".
    change (Text.urlencode "password") with "password".
    change (Text.urlencode (password (credentials (config cwd)))) with "test".
    apply (append_assoc "nonce="). }
  rewrite Hform. split; [reflexivity|].
  destruct (urlencode_no_separator nonce) as [Hamp Heq].
  change ("nonce=" ++ Text.urlencode nonce
          ++ "&username=demo%40example.org&password=test")
    with ("nonce=" ++ (Text.urlencode nonce
                       ++ "&username=demo%40example.org&password=test")).
  rewrite !count_char_app, Hamp, Heq. split; reflexivity.
Qed.

(** X5. [fetchData] makes at most one request.  When the jar does not
    give its cookies for the domain, it raises the jar's error before
    any call.  Otherwise it makes exactly one request, to the users
    endpoint, with the cookies the jar sends to the domain at that
    time, and every later call goes to the browser.  In both cases no
    file is written or changed. *)
Theorem fetchData_makes_one_request (w : World) (st : State) :
  let c := config (cwd w) in
  disk (snd (fetchData w st)) = disk st
  /\ match sent_cookies w st with
     | None =>
         fst (fetchData w st) = Throw JarError
         /\ trace (snd (fetchData w st)) = trace st
     | Some (sent, _) =>
         let req := users_request c (cookie_header sent) in
         exists calls,
           trace (snd (fetchData w st)) = (trace st ++ Fetch req :: calls)%list
           /\ Forall (fun e => is_browser_call e = true) calls
           /\ List.filter (fun e => is_fetch e || is_write e) (Fetch req :: calls)
              = [Fetch req]
     end.
Proof.
  intros c. split; [apply fetchData_disk|].
  pose proof (fetchData_calls w st) as Hcalls. cbv zeta in Hcalls. fold c in Hcalls.
  destruct (sent_cookies w st) as [[sent jar]|]; [|exact Hcalls].
  destruct Hcalls as [calls [Ht Hcalls]].
  exists calls. split; [exact Ht|]. split; [exact Hcalls|].
  cbn [List.filter is_fetch orb]. f_equal. clear Ht.
  induction Hcalls as [|e calls He _ IH]; [reflexivity|].
  cbn [List.filter]. destruct e; try discriminate He; exact IH.
Qed.

Ltac browser_cases :=
  cbn [In]; rewrite ?in_app_iff; cbn [In];
  intuition (try discriminate; try congruence;
             try match goal with H : ex _ |- _ => destruct H; discriminate end;
             eauto).

(** X6. When the jar does not give the cookies to send, [fetchData]
    makes no call at all.  Otherwise the browser is launched exactly
    when the users endpoint gave an answer with a 2xx status whose body
    parsed, and [fetchData] stops right after the request when it is
    not. *)
Theorem browser_starts_after_user_list (w : World) (st : State) :
  let c := config (cwd w) in
  match sent_cookies w st with
  | None =>
      fst (fetchData w st) = Throw JarError
      /\ trace (snd (fetchData w st)) = trace st
  | Some (sent, _) =>
      let req := users_request c (cookie_header sent) in
      exists calls,
        trace (snd (fetchData w st)) = (trace st ++ Fetch req :: calls)%list
        /\ (In Launch calls
            <-> exists usersResponse userList,
                  network w req = Some usersResponse
                  /\ ok usersResponse = true
                  /\ JSON_parse (text usersResponse) = Some userList)
        /\ (~ In Launch calls ->
            calls = []
            /\ (fst (fetchData w st) = Throw NetworkError
                \/ fst (fetchData w st) = Throw FetchError
                \/ fst (fetchData w st) = Throw ParseError))
  end.
Proof.
  intros c. rewrite fetchData_eq. cbv zeta. fold c.
  destruct (sent_cookies w st) as [[sent jar]|];
    [|cbn [fst snd trace]; rewrite app_nil_r; split; reflexivity].
  set (req := users_request c (cookie_header sent)).
  destruct (network w req) as [usersResponse|] eqn:Hnet; cbn [fst snd trace].
  2:{ exists []. split; [reflexivity|]. split; [|auto].
      split; [intros [] | intros [r [u [H _]]]; discriminate H]. }
  destruct (ok usersResponse) eqn:Hok; cbn [fst snd trace].
  2:{ exists []. split; [reflexivity|]. split; [|auto].
      split; [intros [] | intros [r [u [H [H' _]]]]; congruence]. }
  destruct (JSON_parse (text usersResponse)) as [userList|] eqn:Hparse;
    cbn [fst snd trace].
  2:{ exists []. split; [reflexivity|]. split; [|auto].
      split; [intros [] | intros [r [u [H [_ H']]]]; congruence]. }
  assert (Hyes : exists r u, Some usersResponse = Some r /\ ok r = true
                             /\ JSON_parse (text r) = Some u) by eauto.
  assert (Hlaunched : forall (r : Result (list JSON.json)) rest,
    (In Launch (Launch :: rest) <-> exists r0 u, Some usersResponse = Some r0
        /\ ok r0 = true /\ JSON_parse (text r0) = Some u)
    /\ (~ In Launch (Launch :: rest) ->
        Launch :: rest = []
        /\ (r = Throw NetworkError \/ r = Throw FetchError \/ r = Throw ParseError))).
  { intros r rest. split.
    - split; [intros _; exact Hyes | intros _; left; reflexivity].
    - intros H. exfalso. apply H. left. reflexivity. }
  destruct (launches w); cbn [fst snd trace].
  2:{ exists [Launch]. split; [reflexivity|]. apply Hlaunched. }
  destruct (CookieJar_getCookies _ _ jar) as [[again jar2]|]; cbn [fst snd trace].
  2:{ eexists. split; [reflexivity|]. apply Hlaunched. }
  destruct (forallb _ _); cbn [fst snd trace].
  2:{ eexists. split; [reflexivity|]. apply Hlaunched. }
  destruct (navigate w _ _) as [shown|]; cbn [fst snd trace].
  2:{ eexists. split; [reflexivity|]. apply Hlaunched. }
  destruct (Puppeteer.appears shown _); cbn [fst snd trace].
  - eexists. split; [reflexivity|]. apply Hlaunched.
  - eexists. split; [reflexivity|]. apply Hlaunched.
Qed.

(** X7. [fetchData] closes the browser only on the way through: once
    the users request is made, the browser is closed exactly when the
    function returns or fails on spreading the list afterwards.  When
    the jar does not give its cookies for the page that was opened,
    when a cookie is refused by the page, when the navigation fails or
    when the form does not appear in time, the page is left open.  When
    the jar does not give the cookies to send, no page is opened. *)
Theorem browser_left_open_on_failure (w : World) (st : State) :
  let c := config (cwd w) in
  page st = None ->
  let r := fst (fetchData w st) in
  let st' := snd (fetchData w st) in
  match sent_cookies w st with
  | None => r = Throw JarError /\ trace st' = trace st /\ page st' = None
  | Some (sent, _) =>
      let req := users_request c (cookie_header sent) in
      exists calls,
        trace st' = (trace st ++ Fetch req :: calls)%list
        /\ (In Close calls
            <-> (exists allData, r = Return allData) \/ r = Throw NotIterable)
        /\ (page st' <> None
            <-> r = Throw JarError \/ r = Throw PageCookieError
                \/ r = Throw NavigationError \/ r = Throw TimeoutError)
        /\ (page st' <> None -> In NewPage calls /\ ~ In Close calls)
  end.
Proof.
  intros c Hpage r st'. subst r st'.
  rewrite fetchData_eq. cbv zeta. fold c.
  destruct (sent_cookies w st) as [[sent jar]|];
    [|cbn [fst snd trace page]; rewrite app_nil_r; auto].
  set (req := users_request c (cookie_header sent)).
  assert (Hnc : forall l, ~ In Close (map PageSetCookie l))
    by (intros l; apply not_in_page_cookies; discriminate).
  destruct (network w req) as [usersResponse|]; cbn [fst snd trace page].
  2:{ exists []. rewrite Hpage. browser_cases. }
  destruct (ok usersResponse); cbn [fst snd trace page].
  2:{ exists []. rewrite Hpage. browser_cases. }
  destruct (JSON_parse _) as [userList|]; cbn [fst snd trace page].
  2:{ exists []. rewrite Hpage. browser_cases. }
  destruct (launches w); cbn [fst snd trace page].
  2:{ exists [Launch]. rewrite Hpage. browser_cases. }
  destruct (CookieJar_getCookies _ _ jar) as [[again jar2]|]; cbn [fst snd trace page].
  2:{ exists [Launch; NewPage]. browser_cases. }
  set (cookies := map toPuppeteer _).
  specialize (Hnc (attempted w cookies)).
  destruct (forallb _ _); cbn [fst snd trace page].
  2:{ eexists. split; [reflexivity|]. browser_cases. }
  destruct (navigate w _ _) as [shown|]; cbn [fst snd trace page].
  2:{ eexists. split; [reflexivity|]. browser_cases. }
  destruct (Puppeteer.appears shown _); cbn [fst snd trace page].
  - eexists. split; [reflexivity|].
    destruct (JSON.spread userList) as [items|]; browser_cases.
  - eexists. split; [reflexivity|]. browser_cases.
Qed.

(** X8. The sentinel for a cookie without expiry is not reserved: the
    translated expiry is the number -1 exactly for a cookie without
    expiry and for one that expires one second before the epoch.  A
    null expiry is translated to 0, and a date that is invalid or out
    of range to NaN. *)
Theorem sentinel_collides_with_one_date (cookie : Tough.Cookie) :
  ((exists q, Puppeteer.expires (toPuppeteer cookie) = Number.Num q
              /\ (q == (-1) # 1)%Q)
   <-> Tough.expires cookie = Tough.Infinity
       \/ Tough.expires cookie = Tough.Date (-1000))
  /\ (Tough.expires cookie = Tough.Null ->
      Puppeteer.expires (toPuppeteer cookie) = Number.of_Z 0)
  /\ (Puppeteer.expires (toPuppeteer cookie) = Number.NaN
      <-> Tough.expires cookie = Tough.InvalidDate
          \/ exists ms, Tough.expires cookie = Tough.Date ms /\ ~ time_value ms).
Proof.
  unfold toPuppeteer. cbn [Puppeteer.expires].
  destruct (Tough.expires cookie) as [|ms| |] eqn:He.
  - split; [|split].
    + split; [auto|]. intros _. exists ((-1) # 1). split; reflexivity.
    + discriminate.
    + split; [discriminate|]. intros [H | [ms [H _]]]; discriminate H.
  - split; [|split].
    + split.
      * intros [q [Hq Hone]]. right.
        destruct (Tough.getTime (Tough.Date ms)) as [ms'|] eqn:Ht; [|discriminate Hq].
        pose proof (getTime_time_value _ _ Ht) as Hrange.
        assert (ms' = ms).
        { cbn [Tough.getTime] in Ht. destruct (_ <=? _)%Z; congruence. }
        subst ms'. f_equal. apply (div_minus_one ms q Hrange Hq). exact Hone.
      * intros [H | H]; [discriminate H|]. injection H as ->.
        eexists. split; [vm_compute; reflexivity | reflexivity].
    + discriminate.
    + cbn [Tough.getTime]. unfold time_value.
      destruct (Z.abs ms <=? 8640000000000000)%Z eqn:Hr.
      * apply Z.leb_le in Hr. split.
        -- unfold Number.div. destruct (ms =? 0)%Z; discriminate.
        -- intros [H | [ms' [H Hout]]]; [discriminate H|].
           injection H as <-. contradiction.
      * apply Z.leb_gt in Hr. split; [|reflexivity].
        intros _. right. exists ms. split; [reflexivity | lia].
  - split; [|split].
    + split; [intros [q [H _]]; discriminate H | intros [H | H]; discriminate H].
    + discriminate.
    + split; [auto | reflexivity].
  - split; [|split].
    + split.
      * intros [q [Hq Hone]]. exfalso. vm_compute in Hq. injection Hq as <-.
        vm_compute in Hone. discriminate Hone.
      * intros [H | H]; discriminate H.
    + reflexivity.
    + split; [intros H; vm_compute in H; discriminate H|].
      intros [H | [ms [H _]]]; discriminate H.
Qed.

(** X9. The selector waited for is narrower than the one read:
    whatever [form.space-y-4 input] selects in a document is among the
    elements [form input] selects there, in the same order, and all the
    elements read are [input] elements. *)
Theorem waited_for_inputs_are_read (doc : list Dom.node) :
  sublist (Dom.select Dom.form_space_y_4_input doc)
          (Dom.select Dom.form_input doc)
  /\ Forall (fun n => exists attribs children,
                        n = Dom.Element "input" attribs children)
       (Dom.select Dom.form_input doc).
Proof.
  split.
  - unfold Dom.select. apply flat_map_sublist.
    apply Forall_forall. intros n _.
    apply select_node_narrower.
    intros [tag attribs children | data]; cbn; [|discriminate].
    rewrite !andb_true_r. intros H. apply andb_true_iff in H. apply H.
  - unfold Dom.select.
    induction doc as [|n rest IH]; cbn [flat_map]; [constructor|].
    apply Forall_app_2; [|exact IH].
    eapply Forall_impl; [apply select_node_matches|].
    intros [tag attribs children | data]; cbn; [|discriminate].
    rewrite !andb_true_r. intros Htag. apply String.eqb_eq in Htag.
    subst tag. eauto.
Qed.

(** X10. A run touches two files at most.  The relative path of the
    session file resolves, against the working directory, to
    <cwd>/cookies.json, and the path of the output file is absolute;
    every file other than these two holds after the run what it held
    before. *)
Theorem run_touches_two_files (w : World) (files : gmap string string) :
  let c := config (cwd w) in
  path_resolve (cwd w) (cookieFilePath c) = path_join (cwd w) "cookies.json"
  /\ path_resolve (cwd w) (outputFilePath c) = path_join (cwd w) "users.json"
  /\ forall p,
       p <> path_join (cwd w) "cookies.json" ->
       p <> path_join (cwd w) "users.json" ->
       disk (run w files) !! p = files !! p.
Proof.
  intros c. split; [reflexivity|]. split; [apply output_file_resolved|].
  intros p Hcookie Hout.
  rewrite run_disk by exact Hout.
  destruct (valid_on_load w files) as [[|]|e]; try reflexivity.
  destruct (fst (authenticate w (before_login w files))); [|reflexivity].
  destruct (writable w _); [|reflexivity].
  apply lookup_insert_ne. rewrite session_file_eq. congruence.
Qed.


(** What follows the login branch writes the output file last, once the
    browser is closed. *)
Lemma finish_output (w : World) (st : State) :
  let c := config (cwd w) in
  exists calls rest,
    trace (report (finish w st)) = (trace st ++ calls ++ rest)%list
    /\ Forall (fun e => is_output_write c e = false /\ is_report e = false) calls
    /\ ((exists e, rest = [Log (Failed e); Exit 1])
        \/ (In Close calls
            /\ exists text,
                 rest = [WriteFile (outputFilePath c) text;
                         Log (Failed WriteError); Exit 1]
                 \/ exists n,
                      rest = [WriteFile (outputFilePath c) text;
                              Log (Success (outputFilePath c));
                              Log (TotalItems n)])).
Proof.
  intros c.
  destruct (finish_events w st) as [request [calls [ending [Ht [Hreq [Hcalls Hend]]]]]].
  fold c in Hreq, Hend.
  exists (request ++ calls)%list, ending.
  split; [rewrite Ht, <- app_assoc; reflexivity|]. split.
  - apply Forall_app. split.
    + destruct (sent_cookies w st) as [[sent jar]|].
      * rewrite Hreq. repeat constructor.
      * destruct Hreq as [-> _]. constructor.
    + eapply Forall_impl; [exact Hcalls|]. intros e He.
      destruct (browser_call_is_quiet c e He) as [_ [_ [H1 [_ [_ [_ H2]]]]]]. auto.
  - destruct (fst (fetchData w st)) as [allData|e].
    + destruct Hend as [Hclose ->]. right.
      split; [apply in_app_iff; right; exact Hclose|].
      eexists. destruct (writable w (outputFilePath c)).
      * right. eexists. reflexivity.
      * left. reflexivity.
    + left. exists e. exact Hend.
Qed.

(** X12. The output file is written at most once, by the last call
    before the report, and only once the browser has been closed: no
    earlier call writes to the output path, and after it come either
    the two success lines or the failure line and the exit. *)
Theorem output_is_written_last (w : World) (files : gmap string string) :
  let c := config (cwd w) in
  exists early rest,
    trace (run w files) = (early ++ rest)%list
    /\ Forall (fun e => is_output_write c e = false) early
    /\ ((exists e, rest = [Log (Failed e); Exit 1])
        \/ (In Close early
            /\ exists text,
                 rest = [WriteFile (outputFilePath c) text;
                         Log (Failed WriteError); Exit 1]
                 \/ exists n,
                      rest = [WriteFile (outputFilePath c) text;
                              Log (Success (outputFilePath c));
                              Log (TotalItems n)])).
Proof.
  intros c.
  assert (Hglue : forall st (start : list Event),
            trace st = start ->
            Forall (fun e => is_output_write c e = false) start ->
            exists early rest,
              trace (report (finish w st)) = (early ++ rest)%list
              /\ Forall (fun e => is_output_write c e = false) early
              /\ ((exists e, rest = [Log (Failed e); Exit 1])
                  \/ (In Close early
                      /\ exists text,
                           rest = [WriteFile (outputFilePath c) text;
                                   Log (Failed WriteError); Exit 1]
                           \/ exists n,
                                rest = [WriteFile (outputFilePath c) text;
                                        Log (Success (outputFilePath c));
                                        Log (TotalItems n)]))).
  { intros st start Hstart Hno.
    destruct (finish_output w st) as [calls [rest [Ht [Hcalls Hrest]]]].
    fold c in Hcalls, Hrest. rewrite Hstart in Ht.
    exists (start ++ calls)%list, rest.
    split; [rewrite Ht, app_assoc; reflexivity|].
    split.
    { apply Forall_app; split; [assumption|].
      eapply Forall_impl; [exact Hcalls|]. intros e [He _]. exact He. }
    destruct Hrest as [Hfail | [Hclose Hout]]; [left; exact Hfail|].
    right. split; [apply in_app_iff; right; exact Hclose | exact Hout]. }
  destruct (checked_frame w files) as [Htrace _]. fold c in Htrace.
  destruct (valid_on_load w files) as [[|]|err] eqn:Hcheck.
  - rewrite (run_checked w files true Hcheck), login_phase_valid.
    apply (Hglue _ [ReadFile (cookieFilePath c); Log ReusingSession]).
    + cbn [log emit snd trace]. rewrite Htrace. reflexivity.
    + repeat constructor.
  - rewrite (run_checked w files false Hcheck), login_phase_invalid.
    fold (before_login w files).
    destruct (authenticate_frame w (before_login w files))
      as [_ [_ [attempt [Ht [Hshape _]]]]].
    fold c in Ht, Hshape.
    assert (Hstart : trace (before_login w files)
                     = [ReadFile (cookieFilePath c); Log NoValidSession]).
    { unfold before_login. cbn [log emit snd trace]. rewrite Htrace. reflexivity. }
    rewrite Hstart in Ht.
    assert (Hlogin : Forall (fun e => is_output_write c e = false)
                       ([ReadFile (cookieFilePath c); Log NoValidSession]
                        ++ Fetch (login_page_request c) :: attempt)%list).
    { apply Forall_app; split; [repeat constructor|].
      constructor; [reflexivity|].
      destruct Hshape as [-> | [nonce ->]]; repeat constructor. }
    rewrite <- Ht in Hlogin.
    destruct (authenticate w (before_login w files)) as [[[]|e] st3];
      cbn [fst snd] in *.
    + rewrite saveCookies_eq. cbv zeta. fold c.
      destruct (writable w (session_file w)).
      * eapply Hglue; [reflexivity|]. cbn [trace].
        apply Forall_app; split; [exact Hlogin|].
        constructor; [apply session_write_is_not_output | constructor].
      * cbn [report trace]. eexists. eexists. split; [reflexivity|].
        split; [|left; eexists; reflexivity].
        apply Forall_app; split; [exact Hlogin|].
        constructor; [apply session_write_is_not_output | constructor].
    + cbn [report trace]. eexists. eexists. split; [reflexivity|].
      split; [exact Hlogin | left; eexists; reflexivity].
  - destruct (run_unchecked w files err Hcheck) as [-> _].
    exists [ReadFile (cookieFilePath c)], [Log (Failed err); Exit 1].
    split; [reflexivity|]. split; [repeat constructor | left; eexists; reflexivity].
Qed.

(** The end of what follows the login branch. *)
Lemma finish_ending (w : World) (st : State) :
  let c := config (cwd w) in
  exists body ending,
    trace (report (finish w st)) = (trace st ++ body ++ ending)%list
    /\ Forall (fun e => is_report e = false) body
    /\ ((exists n, ending = [Log (Success (outputFilePath c)); Log (TotalItems n)])
        \/ (exists e, ending = [Log (Failed e); Exit 1])).
Proof.
  intros c.
  destruct (finish_output w st) as [calls [rest [Ht [Hcalls Hrest]]]].
  fold c in Hcalls, Hrest.
  assert (Hquiet : Forall (fun e => is_report e = false) calls).
  { eapply Forall_impl; [exact Hcalls|]. intros e [_ He]. exact He. }
  destruct Hrest as [[e ->] | [_ [text [-> | [n ->]]]]].
  - exists calls. eexists. split; [exact Ht|]. split; [exact Hquiet|].
    right. eexists. reflexivity.
  - exists (calls ++ [WriteFile (outputFilePath c) text])%list. eexists.
    split; [rewrite Ht, <- !app_assoc; reflexivity|].
    split; [apply Forall_app; split; [exact Hquiet | repeat constructor]|].
    right. eexists. reflexivity.
  - exists (calls ++ [WriteFile (outputFilePath c) text])%list. eexists.
    split; [rewrite Ht, <- !app_assoc; reflexivity|].
    split; [apply Forall_app; split; [exact Hquiet | repeat constructor]|].
    left. eexists. reflexivity.
Qed.

(** X13. A run reports once, at its end: its last two events are the
    two success lines, and the exit code is 0, or the failure line and
    the exit with code 1; nothing before them is a report.  So the exit
    code is 0 exactly when the success line was printed and 1 exactly
    when a failure was. *)
Theorem run_reports_once (w : World) (files : gmap string string) :
  let c := config (cwd w) in
  let events := trace (run w files) in
  (exists body ending,
     events = (body ++ ending)%list
     /\ Forall (fun e => is_report e = false) body
     /\ ((exit_code (run w files) = 0%Z
          /\ exists n, ending = [Log (Success (outputFilePath c)); Log (TotalItems n)])
         \/ (exit_code (run w files) = 1%Z
             /\ exists e, ending = [Log (Failed e); Exit 1])))
  /\ (exit_code (run w files) = 0%Z <-> In (Log (Success (outputFilePath c))) events)
  /\ (exit_code (run w files) = 1%Z <-> exists e, In (Log (Failed e)) events).
Proof.
  intros c events.
  assert (Hshape : exists body ending,
            events = (body ++ ending)%list
            /\ Forall (fun e => is_report e = false) body
            /\ ((exists n, ending = [Log (Success (outputFilePath c)); Log (TotalItems n)])
                \/ (exists e, ending = [Log (Failed e); Exit 1]))).
  { subst events.
    destruct (checked_frame w files) as [Htrace _]. fold c in Htrace.
    destruct (valid_on_load w files) as [[|]|err] eqn:Hcheck.
    - rewrite (run_checked w files true Hcheck), login_phase_valid.
      set (st0 := snd (log ReusingSession w (snd (checked w files)))).
      assert (H0 : trace st0 = [ReadFile (cookieFilePath c); Log ReusingSession]).
      { subst st0. cbn [log emit snd trace]. rewrite Htrace. reflexivity. }
      destruct (finish_ending w st0) as [body [ending [Ht [Hbody Hend]]]].
      fold c in Hend. rewrite H0 in Ht.
      exists ([ReadFile (cookieFilePath c); Log ReusingSession] ++ body)%list, ending.
      split; [rewrite Ht, <- app_assoc; reflexivity|]. split; [|exact Hend].
      apply Forall_app; split; [repeat constructor | exact Hbody].
    - rewrite (run_checked w files false Hcheck), login_phase_invalid.
      fold (before_login w files).
      destruct (authenticate_frame w (before_login w files))
        as [_ [_ [attempt [Ht [Hshape _]]]]].
      fold c in Ht, Hshape.
      assert (Hstart : trace (before_login w files)
                       = [ReadFile (cookieFilePath c); Log NoValidSession]).
      { unfold before_login. cbn [log emit snd trace]. rewrite Htrace. reflexivity. }
      rewrite Hstart in Ht.
      assert (Hlogin : Forall (fun e => is_report e = false)
                         ([ReadFile (cookieFilePath c); Log NoValidSession]
                          ++ Fetch (login_page_request c) :: attempt)%list).
      { apply Forall_app; split; [repeat constructor|].
        constructor; [reflexivity|].
        destruct Hshape as [-> | [nonce ->]]; repeat constructor. }
      rewrite <- Ht in Hlogin.
      destruct (authenticate w (before_login w files)) as [[[]|e] st3];
        cbn [fst snd] in *.
      + rewrite saveCookies_eq. cbv zeta. fold c.
        destruct (writable w (session_file w)).
        * match goal with
          | |- context [finish w ?s] =>
              destruct (finish_ending w s) as [body [ending [Hf [Hbody Hend]]]]
          end.
          fold c in Hend. cbn [trace] in Hf.
          eexists. exists ending. split; [rewrite Hf, app_assoc; reflexivity|].
          split; [|exact Hend].
          apply Forall_app; split; [|exact Hbody].
          apply Forall_app; split; [exact Hlogin | repeat constructor].
        * cbn [report trace]. eexists. eexists.
          split; [reflexivity|]. split; [|right; eexists; reflexivity].
          apply Forall_app; split; [exact Hlogin | repeat constructor].
      + cbn [report trace]. eexists. eexists.
        split; [reflexivity|]. split; [exact Hlogin | right; eexists; reflexivity].
    - destruct (run_unchecked w files err Hcheck) as [-> _].
      exists [ReadFile (cookieFilePath c)], [Log (Failed err); Exit 1].
      split; [reflexivity|]. split; [repeat constructor | right; eexists; reflexivity]. }
  destruct Hshape as [body [ending [Ht [Hbody Hend]]]].
  assert (Hin : forall e, is_report e = true -> In e events <-> In e ending).
  { intros e He. rewrite Ht, in_app_iff. split; [|auto].
    intros [Hb | Hb]; [|exact Hb].
    rewrite Forall_forall in Hbody. apply list_elem_of_In in Hb.
    rewrite (Hbody e Hb) in He. discriminate He. }
  destruct Hend as [[n ->] | [e ->]].
  - assert (Hexit : exit_code (run w files) = 0%Z).
    { rewrite (exit_code_of_trace _ body _ _ Ht). reflexivity. }
    split; [exists body; eexists; split; [exact Ht|]; split; [exact Hbody|]; left; eauto|].
    split.
    + split; [|intros _; exact Hexit]. intros _. apply Hin; [reflexivity|].
      left. reflexivity.
    + split; [rewrite Hexit; discriminate|].
      intros [e He]. apply Hin in He; [|reflexivity].
      destruct He as [He | [He | []]]; discriminate He.
  - assert (Hexit : exit_code (run w files) = 1%Z).
    { rewrite (exit_code_of_trace _ body _ _ Ht). reflexivity. }
    split; [exists body; eexists; split; [exact Ht|]; split; [exact Hbody|]; right; eauto|].
    split.
    + split; [rewrite Hexit; discriminate|].
      intros He. apply Hin in He; [|reflexivity].
      destruct He as [He | [He | []]]; discriminate He.
    + split; [|intros _; exact Hexit]. intros _. exists e. apply Hin; [reflexivity|].
      left. reflexivity.
Qed.

Lemma filter_no_fetch (events : list Event) :
  Forall (fun e => is_fetch e = false) events ->
  List.filter is_fetch events = [].
Proof.
  induction 1 as [|e rest He _ IH]; [reflexivity|].
  cbn [List.filter]. rewrite He. exact IH.
Qed.

(** The requests of what follows the login branch: one, to the users
    endpoint, unless the jar does not give its cookies. *)
Lemma finish_requests (w : World) (st : State) :
  let c := config (cwd w) in
  List.filter is_fetch (trace (report (finish w st)))
  = (List.filter is_fetch (trace st)
     ++ match sent_cookies w st with
        | Some (sent, _) => [Fetch (users_request c (cookie_header sent))]
        | None => []
        end)%list.
Proof.
  intros c.
  destruct (finish_events w st) as [request [calls [ending [Ht [Hreq [Hcalls Hend]]]]]].
  fold c in Hreq, Hend. rewrite Ht, !List.filter_app. f_equal.
  assert (Hc : List.filter is_fetch calls = []).
  { apply filter_no_fetch. eapply Forall_impl; [exact Hcalls|].
    intros e He. apply (browser_call_is_quiet c e He). }
  assert (He : List.filter is_fetch ending = []).
  { destruct (fst (fetchData w st)) as [allData|e].
    - destruct Hend as [_ ->]. destruct (writable w _); reflexivity.
    - rewrite Hend. reflexivity. }
  rewrite Hc, He.
  destruct (sent_cookies w st) as [[sent jar]|].
  - rewrite Hreq. reflexivity.
  - destruct Hreq as [-> _]. reflexivity.
Qed.

(** X14. A run makes no more than three requests and repeats none.
    When the check of the session raises it makes none.  When the
    session is reused it makes one, to the users endpoint, unless the
    jar then does not give its cookies, in which case it makes none.
    Otherwise it requests the login page first, then at most the
    submission and the users endpoint.  A run without any request
    exits with code 1. *)
Theorem run_makes_at_most_three_requests (w : World) (files : gmap string string) :
  let c := config (cwd w) in
  let requests := List.filter is_fetch (trace (run w files)) in
  let reused := snd (log ReusingSession w (snd (checked w files))) in
  length requests <= 3
  /\ ((exists e, valid_on_load w files = Throw e) -> requests = [])
  /\ (valid_on_load w files = Return true ->
      requests = match sent_cookies w reused with
                 | Some (sent, _) => [Fetch (users_request c (cookie_header sent))]
                 | None => []
                 end)
  /\ (valid_on_load w files = Return false ->
      exists later,
        requests = Fetch (login_page_request c) :: later
        /\ (later = []
            \/ exists nonce,
                 later = [Fetch (login_submit_request c nonce)]
                 \/ exists req,
                      url req = usersApiUrl c
                      /\ later = [Fetch (login_submit_request c nonce); Fetch req]))
  /\ (requests = [] -> exit_code (run w files) = 1%Z).
Proof.
  intros c requests reused.
  assert (Hweak : forall events,
            Forall (fun e => is_fetch e = false /\ is_session_write c e = false) events ->
            List.filter is_fetch events = []).
  { intros events Hev. apply filter_no_fetch.
    eapply Forall_impl; [exact Hev|]. intros e [He _]. exact He. }
  destruct (valid_on_load w files) as [[|]|err] eqn:Hvalid.
  - assert (Hreq : requests = match sent_cookies w reused with
                              | Some (sent, _) =>
                                  [Fetch (users_request c (cookie_header sent))]
                              | None => []
                              end).
    { subst requests. rewrite (run_checked w files true Hvalid), login_phase_valid.
      fold reused. rewrite finish_requests. fold c.
      assert (H0 : trace reused = [ReadFile (cookieFilePath c); Log ReusingSession]).
      { subst reused. cbn [log emit snd trace].
        destruct (checked_frame w files) as [-> _]. reflexivity. }
      rewrite H0. reflexivity. }
    split; [rewrite Hreq; destruct (sent_cookies w reused) as [[sent jar]|];
            cbn [length]; lia|].
    split; [intros [e He]; discriminate He|].
    split; [intros _; exact Hreq|].
    split; [discriminate|].
    intros Hnone. rewrite Hreq in Hnone.
    rewrite (run_checked w files true Hvalid), login_phase_valid. fold reused.
    destruct (finish_events w reused) as [request [calls [ending [Ht [Hr _]]]]].
    destruct (sent_cookies w reused) as [[sent jar]|]; [discriminate Hnone|].
    destruct Hr as [-> [-> ->]].
    apply (exit_code_of_trace _ (trace reused) (Log (Failed JarError)) (Exit 1)).
    rewrite Ht. reflexivity.
  - destruct (run_trace_invalid w files Hvalid)
      as [attempt [rest [Ht [Hshape Hrest]]]].
    fold c in Ht, Hshape, Hrest.
    assert (Hreq : requests
                   = Fetch (login_page_request c)
                     :: (List.filter is_fetch attempt ++ List.filter is_fetch rest)%list).
    { subst requests. rewrite Ht. cbn [List.filter is_fetch].
      rewrite List.filter_app. reflexivity. }
    assert (Hlater : exists later,
              requests = Fetch (login_page_request c) :: later
              /\ (later = []
                  \/ exists nonce,
                       later = [Fetch (login_submit_request c nonce)]
                       \/ exists req,
                            url req = usersApiUrl c
                            /\ later = [Fetch (login_submit_request c nonce);
                                        Fetch req])).
    { eexists. split; [exact Hreq|].
      destruct Hrest as [[e [_ ->]] | [_ [Hsome [rest' [-> Hrest']]]]].
      - destruct Hshape as [-> | [nonce ->]]; [left; reflexivity|].
        right. exists nonce. left. reflexivity.
      - destruct Hshape as [-> | [nonce ->]]; [contradiction Hsome; reflexivity|].
        right. exists nonce.
        destruct Hrest' as [[_ ->] | [_ [request [events [-> [Hrq Hev]]]]]];
          [left; reflexivity|].
        cbn [List.filter is_fetch app]. rewrite List.filter_app, (Hweak events Hev).
        destruct Hrq as [-> | [req [Hurl ->]]]; [left; reflexivity|].
        right. exists req. split; [exact Hurl | reflexivity]. }
    split.
    { destruct Hlater as [later [-> [-> | [nonce [-> | [req [_ ->]]]]]]];
        cbn [length]; lia. }
    split; [intros [e He]; discriminate He|].
    split; [discriminate|].
    split; [intros _; exact Hlater|].
    intros Hnone. destruct Hlater as [later [Hl _]]. congruence.
  - destruct (run_unchecked w files err Hvalid) as [Ht [_ Hexit]].
    assert (Hreq : requests = []) by (subst requests; rewrite Ht; reflexivity).
    split; [rewrite Hreq; cbn [length]; lia|].
    split; [intros _; exact Hreq|].
    split; [discriminate|]. split; [discriminate|].
    intros _. exact Hexit.
Qed.

End Further.

(** ** The claims on the sample worlds *)

Import Sample.

(** C1 on a day when the users endpoint lists the current user too: the
    run ends well and the output is a list followed by one record. *)
Lemma output_is_user_list_then_current_user_witness :
  exit_code (run (world john_listed) ∅) = 0%Z
  /\ exists items scraped,
       disk (run (world john_listed) ∅) !! outputFilePath home
       = Some (JSON.stringify (JSON.JArr (items ++ [scraped])%list) 2)
       /\ length (items ++ [scraped])%list = length items + 1
       /\ last (items ++ [scraped])%list = Some scraped.
Proof.
  assert (Hexit : exit_code (run (world john_listed) ∅) = 0%Z)
    by (vm_compute; reflexivity).
  split; [exact Hexit|].
  destruct (output_is_user_list_then_current_user (world john_listed) ∅ Hexit)
    as [req [usersResponse [userList [items [cookies [shown
         [_ [_ [_ [_ [_ [_ [_ [Hdisk [Hlen [Hlast _]]]]]]]]]]]]]]]].
  eexists. eexists. split; [exact Hdisk|]. split; [exact Hlen | exact Hlast].
Defined.

(** The calls of the usual day that reach the network or write a file. *)
Example usual_day :
  List.filter (fun e => is_fetch e || is_write e) (trace (run (world usual) ∅))
  = [Fetch (login_page_request home);
     Fetch (login_submit_request home "n0nce");
     WriteFile "cookies.json" (CookieJar_toJSON [session_cookie Tough.Infinity]);
     Fetch (users_request home "session=abc");
     WriteFile "/home/app/users.json" spec_example_output]
  /\ dom (disk (run (world usual) ∅))
     = ({[ "/home/app/cookies.json"; "/home/app/users.json" ]} : gset string).
Proof. split; vm_compute; reflexivity. Qed.

(** An empty list gives the scraped record alone. *)
Example empty_list_gives_one_record :
  disk (run (world (with_users 200 "[]" usual)) ∅) !! outputFilePath home
  = Some (JSON.stringify (JSON.JArr [user_object "42" "John" "Doe" "john@doe.com"]) 2).
Proof. vm_compute. reflexivity. Qed.

(** The current user is then in the output twice. *)
Example listed_user_is_kept_twice :
  disk (run (world john_listed) ∅) !! outputFilePath home
  = Some (JSON.stringify
            (JSON.JArr [user_object "42" "John" "Doe" "john@doe.com";
                        user_object "42" "John" "Doe" "john@doe.com"]) 2).
Proof. vm_compute. reflexivity. Qed.

(** What the sample server answers, whatever the headers of the request. *)
Lemma sample_users_answer (s : Scenario) (req : Request) (res : Response) :
  url req = usersApiUrl home ->
  network (world s) req = Some res ->
  text res = users_body s /\ status res = users_status s.
Proof.
  intros Hurl Hnet. cbn in Hnet. rewrite Hurl in Hnet. cbn in Hnet.
  injection Hnet as <-. split; reflexivity.
Qed.

Lemma sample_settings_page (s : Scenario) (cookies : list Puppeteer.CookieParam)
  (shown : Puppeteer.Page) :
  navigate (world s) cookies (settingsPageUrl home) = Some shown ->
  Puppeteer.content shown = settings_page s.
Proof. cbn. intros [= <-]. reflexivity. Qed.

(** C2 on the usual day: the example of the specification. *)
Lemma current_user_is_read_by_position_witness :
  exit_code (run (world usual) ∅) = 0%Z
  /\ disk (run (world usual) ∅) !! outputFilePath home = Some spec_example_output.
Proof.
  assert (Hexit : exit_code (run (world usual) ∅) = 0%Z)
    by (vm_compute; reflexivity).
  split; [exact Hexit|].
  destruct current_user_is_read_by_position as [_ [_ [_ [Hexample [Htext _]]]]].
  rewrite <- Htext.
  apply (Hexample (world usual) ∅ Hexit).
  - intros req res Hurl Hnet.
    destruct (sample_users_answer usual req res Hurl Hnet) as [-> _].
    vm_compute. reflexivity.
  - intros cookies shown Hnav.
    rewrite (sample_settings_page usual cookies shown Hnav).
    vm_compute. reflexivity.
Defined.

(** The renamed form gives the same record: the names play no part. *)
Example names_play_no_part :
  currentUser (load settings_html_renamed) = currentUser (load settings_html).
Proof. vm_compute. reflexivity. Qed.

(** C2 as stated fails on a settings page with an input outside the
    form: the first input element of the rendered markup is the search
    box, valued "find", and the identifier of the scraped record is the
    value of the second input element, the first one inside the form.
    The run on that page ends well and writes the same output as on the
    usual day. *)
Lemma input_outside_form_is_not_read :
  let doc := load settings_html_search in
  markup_input_values doc
  = [Some "find"; Some "42"; Some "John"; Some "Doe"; Some "john@doe.com"]
  /\ currentUser doc
     = {| id := Some "42"; firstName := Some "John";
          lastName := Some "Doe"; email := Some "john@doe.com" |}
  /\ ~ (forall doc,
          currentUser doc
          = {| id := Some (or_empty (markup_value_at 0 doc));
               firstName := Some (or_empty (markup_value_at 1 doc));
               lastName := Some (or_empty (markup_value_at 2 doc));
               email := Some (or_empty (markup_value_at 3 doc)) |})
  /\ settings_page with_search = settings_html_search
  /\ exit_code (run (world with_search) ∅) = 0%Z
  /\ disk (run (world with_search) ∅) !! outputFilePath home = Some spec_example_output.
Proof.
  split; [vm_compute; reflexivity|]. split; [vm_compute; reflexivity|].
  split; [|repeat split; vm_compute; reflexivity].
  intros Hall. specialize (Hall (load settings_html_search)).
  vm_compute in Hall. discriminate Hall.
Qed.

(** C3 on the jar loaded from three session files: one that is good
    until 2030, one whose session cookie has the expiry null, and one
    whose cookie is named by a number. *)
Lemma hasValidSession_iff_session_cookie_witness :
  let check files :=
    fst (hasValidSession (world usual) (snd (loadCookies (world usual) (initial files)))) in
  check fresh_files = Return true
  /\ check null_expiry_files = Throw JarError
  /\ check number_key_files = Throw TypeError
  /\ check ∅ = Return false.
Proof.
  cbv zeta. split; [|split; [|split]].
  - pose proof (hasValidSession_iff_session_cookie (world usual)
                  (snd (loadCookies (world usual) (initial fresh_files)))) as Hcheck.
    cbv zeta in Hcheck. destruct Hcheck as [_ [_ [_ Hcheck]]].
    assert (Hsent : sent_cookies (world usual)
                      (snd (loadCookies (world usual) (initial fresh_files)))
                    = Some ([session_cookie (Tough.Date new_year_2030)],
                            [session_cookie (Tough.Date new_year_2030)]))
      by (vm_compute; reflexivity).
    rewrite Hsent in Hcheck. destruct Hcheck as [_ [Htrue _]].
    apply Htrue. exists [], (session_cookie (Tough.Date new_year_2030)), [].
    split; [reflexivity|]. split; [|constructor].
    left. exists EmptyString, EmptyString. reflexivity.
  - pose proof (hasValidSession_iff_session_cookie (world usual)
                  (snd (loadCookies (world usual) (initial null_expiry_files))))
      as Hcheck.
    cbv zeta in Hcheck. destruct Hcheck as [_ [_ [_ Hcheck]]].
    assert (Hsent : sent_cookies (world usual)
                      (snd (loadCookies (world usual) (initial null_expiry_files)))
                    = None)
      by (vm_compute; reflexivity).
    rewrite Hsent in Hcheck. apply Hcheck.
  - pose proof (hasValidSession_iff_session_cookie (world usual)
                  (snd (loadCookies (world usual) (initial number_key_files))))
      as Hcheck.
    cbv zeta in Hcheck. destruct Hcheck as [_ [_ [_ Hcheck]]].
    assert (Hsent : sent_cookies (world usual)
                      (snd (loadCookies (world usual) (initial number_key_files)))
                    = Some ([named_cookie (JSON.JNum "7") Tough.Infinity],
                            [named_cookie (JSON.JNum "7") Tough.Infinity]))
      by (vm_compute; reflexivity).
    rewrite Hsent in Hcheck. destruct Hcheck as [_ [_ [_ [Hraise _]]]].
    apply Hraise. split; [reflexivity|].
    exists [], (named_cookie (JSON.JNum "7") Tough.Infinity), [].
    split; [reflexivity|]. split; [exact I | constructor].
  - pose proof (hasValidSession_iff_session_cookie (world usual)
                  (snd (loadCookies (world usual) (initial ∅)))) as Hcheck.
    cbv zeta in Hcheck. destruct Hcheck as [_ [_ [_ Hcheck]]].
    assert (Hsent : sent_cookies (world usual)
                      (snd (loadCookies (world usual) (initial ∅)))
                    = Some ([], []))
      by (vm_compute; reflexivity).
    rewrite Hsent in Hcheck. destruct Hcheck as [_ [_ [Hfalse _]]].
    apply Hfalse. constructor.
Defined.

(** C3 as stated fails on a jar that contains, for the target domain, a
    session cookie that has expired: the jar does not yield it and the
    check returns false.  It also fails on a jar whose session cookie
    has the expiry null: the jar raises and so does the check. *)
Lemma expired_session_cookie_is_not_valid :
  let jar := [session_cookie (Tough.Date new_year_2020)] in
  let st := with_jar jar (initial ∅) in
  ~ (fst (hasValidSession (world usual) st) = Return true
     <-> exists cookie before after,
           In cookie jar
           /\ Tough.domain cookie = JSON.JStr host
           /\ Tough.key cookie = JSON.JStr (before ++ "session" ++ after))
  /\ domain home = "https://" ++ host
  /\ (new_year_2020 < now (world usual) 0)%Z
  /\ fst (hasValidSession (world usual) st) = Return false
  /\ fst (hasValidSession (world usual)
            (with_jar [session_cookie Tough.Null] (initial ∅)))
     = Throw JarError.
Proof.
  cbv zeta. split; [|repeat split; vm_compute; reflexivity].
  intros [_ Hif].
  assert (Hvalid : fst (hasValidSession (world usual)
                          (with_jar [session_cookie (Tough.Date new_year_2020)]
                             (initial ∅)))
                   = Return true).
  { apply Hif. exists (session_cookie (Tough.Date new_year_2020)), EmptyString, EmptyString.
    split; [left; reflexivity|]. split; reflexivity. }
  vm_compute in Hvalid. discriminate Hvalid.
Qed.


(** C5 on a login page without nonce. *)
Lemma authenticate_outcomes_witness :
  valid_on_load (world without_nonce) ∅ = Return false
  /\ fst (authenticate (world without_nonce) (before_login (world without_nonce) ∅))
     = Throw ProtocolError
  /\ disk (run (world without_nonce) ∅) = ∅
  /\ exit_code (run (world without_nonce) ∅) = 1%Z.
Proof.
  assert (Hinvalid : valid_on_load (world without_nonce) ∅ = Return false)
    by (vm_compute; reflexivity).
  assert (Hraised : fst (authenticate (world without_nonce)
                           (before_login (world without_nonce) ∅))
                    = Throw ProtocolError)
    by (vm_compute; reflexivity).
  split; [exact Hinvalid|]. split; [exact Hraised|].
  destruct (authenticate_outcomes (world without_nonce)) as [_ Hrun].
  destruct (Hrun ∅ ProtocolError Hinvalid Hraised) as [_ [_ [_ [Hdisk Hexit]]]].
  split; [exact Hdisk | exact Hexit].
Defined.

(** C6 on a login page without nonce. *)
Lemma failed_login_is_atomic_witness :
  valid_on_load (world without_nonce) ∅ = Return false
  /\ nonce_of login_html_without_nonce = None
  /\ cookieJar (run (world without_nonce) ∅) = cookieJar (before_login (world without_nonce) ∅)
  /\ disk (run (world without_nonce) ∅) = ∅
  /\ exit_code (run (world without_nonce) ∅) = 1%Z.
Proof.
  assert (Hinvalid : valid_on_load (world without_nonce) ∅ = Return false)
    by (vm_compute; reflexivity).
  assert (Hnonce : nonce_of login_html_without_nonce = None)
    by (vm_compute; reflexivity).
  split; [exact Hinvalid|]. split; [exact Hnonce|].
  pose proof (failed_login_is_atomic (world without_nonce)) as Hatomic.
  cbv zeta in Hatomic. destruct Hatomic as [_ Hrun].
  destruct (Hrun ∅ Hinvalid) as [Hjar [Hdisk [_ Hexit]]].
  { left. eexists. split; [reflexivity | exact Hnonce]. }
  split; [exact Hjar|]. split; [exact Hdisk | exact Hexit].
Defined.

(** C7 on a day when the users endpoint answers 403, over the output of
    an earlier run. *)
Lemma users_fetch_failure_aborts_before_output_witness :
  users_status users_forbidden = 403%Z
  /\ fst (fetchData (world users_forbidden) (initial earlier_output)) = Throw FetchError
  /\ disk (run (world users_forbidden) earlier_output) !! outputFilePath home = Some "[]"
  /\ exit_code (run (world users_forbidden) earlier_output) = 1%Z.
Proof.
  split; [reflexivity|].
  destruct users_fetch_failure_aborts_before_output as [Hfetch [_ Hrun]].
  split.
  { apply (Hfetch (world users_forbidden) (initial earlier_output) [] []
             {| status := 403; getSetCookie := []; text := EmptyString |});
      [reflexivity | reflexivity | cbn; lia]. }
  destruct (Hrun (world users_forbidden) earlier_output) as [Hdisk [_ Hexit]].
  { intros req res Hurl Hnet.
    destruct (sample_users_answer users_forbidden req res Hurl Hnet) as [_ ->].
    cbn. lia. }
  split; [|exact Hexit].
  transitivity (earlier_output !! outputFilePath home); [exact Hdisk | reflexivity].
Defined.

(** C8 on a session file that is no JSON. *)
Lemma loadCookies_failure_is_not_fatal_witness :
  broken_files !! session_file (world usual) = Some "{ not json"
  /\ CookieJar_fromJSON "{ not json" = None
  /\ cookieJar (snd (loadCookies (world usual) (initial broken_files))) = CookieJar_new
  /\ exists rest,
       trace (run (world usual) broken_files)
       = ReadFile "cookies.json" :: Log NoValidSession
         :: Fetch (login_page_request home) :: rest.
Proof.
  assert (Hfile : broken_files !! session_file (world usual) = Some "{ not json")
    by reflexivity.
  assert (Hbroken : CookieJar_fromJSON "{ not json" = None) by reflexivity.
  split; [exact Hfile|]. split; [exact Hbroken|].
  pose proof (loadCookies_failure_is_not_fatal (world usual)) as Hload.
  cbv zeta in Hload. destruct Hload as [_ Hrun].
  apply (Hrun broken_files).
  right. exists "{ not json". split; [exact Hfile | exact Hbroken].
Defined.


(** Seconds in double arithmetic: a millisecond after the epoch is the
    double nearest to 0.001, and a second and a half is exact. *)
Example one_millisecond_in_seconds :
  Puppeteer.expires (toPuppeteer (session_cookie (Tough.Date 1)))
  = Number.Num (1152921504606847 # 1152921504606846976)
  /\ Puppeteer.expires (toPuppeteer (session_cookie (Tough.Date 1500)))
     = Number.Num (3 # 2)
  /\ Puppeteer.expires (toPuppeteer (session_cookie Tough.Null)) = Number.of_Z 0
  /\ Puppeteer.expires (toPuppeteer (session_cookie Tough.InvalidDate)) = Number.NaN.
Proof. repeat split; vm_compute; reflexivity. Qed.

(** C10 on the usual day, and on a form with fewer than four inputs. *)
Lemma scraped_record_fields_are_strings_witness :
  exit_code (run (world usual) ∅) = 0%Z
  /\ value_at 3 (load settings_html_short) = None
  /\ or_empty (value_at 3 (load settings_html_short)) = EmptyString
  /\ exists allData i f l e,
       disk (run (world usual) ∅) !! outputFilePath home
       = Some (JSON.stringify (JSON.JArr allData) 2)
       /\ last allData = Some (user_object i f l e).
Proof.
  assert (Hexit : exit_code (run (world usual) ∅) = 0%Z)
    by (vm_compute; reflexivity).
  assert (Hshort : value_at 3 (load settings_html_short) = None)
    by (vm_compute; reflexivity).
  split; [exact Hexit|]. split; [exact Hshort|].
  destruct scraped_record_fields_are_strings as [_ [Hempty [_ [Hrun _]]]].
  split; [apply Hempty; left; exact Hshort|].
  apply (Hrun (world usual) ∅ Hexit).
Defined.


(** C5 as stated fails when the jar rejects a returned cookie: the
    login page has its nonce, the submission is answered with a 302 and
    a Set-Cookie header, and the authenticator raises all the same. *)
Lemma rejected_cookie_raises :
  ~ ((exists e, fst (authenticate (world foreign_cookie) (initial ∅)) = Throw e)
     <-> ((exists loginPage,
             network (world foreign_cookie) (login_page_request home) = Some loginPage
             /\ nonce_of (text loginPage) = None)
          \/ (exists loginPage nonce res,
                network (world foreign_cookie) (login_page_request home) = Some loginPage
                /\ nonce_of (text loginPage) = Some nonce
                /\ network (world foreign_cookie) (login_submit_request home nonce)
                   = Some res
                /\ (status res <> 302%Z \/ getSetCookie res = [])))).
Proof.
  intros [Honly_if _].
  assert (Hraised : exists e,
            fst (authenticate (world foreign_cookie) (initial ∅)) = Throw e).
  { exists CookieRejected. vm_compute. reflexivity. }
  destruct (Honly_if Hraised)
    as [[loginPage [Hpage Hnonce]] | [loginPage [nonce [res [Hpage [Hnonce [Hres Hbad]]]]]]].
  - injection Hpage as <-. vm_compute in Hnonce. discriminate Hnonce.
  - injection Hpage as <-. vm_compute in Hnonce. injection Hnonce as <-.
    injection Hres as <-. destruct Hbad as [Hstatus | Hcookies].
    + apply Hstatus. reflexivity.
    + discriminate Hcookies.
Qed.

(** C6 as stated fails when the login is answered with a redirect and a
    cookie that is no session cookie: the jar takes the cookie and the
    run goes on to write the output file. *)
Lemma cookie_without_session_is_merged :
  valid_on_load (world theme_only) ∅ = Return false
  /\ network (world theme_only) (login_submit_request home "n0nce")
     = Some {| status := 302; getSetCookie := ["theme=dark; Path=/"];
               text := EmptyString |}
  /\ Text.includes "session" "theme=dark; Path=/" = false
  /\ cookieJar (before_login (world theme_only) ∅) = []
  /\ cookieJar (run (world theme_only) ∅) = [theme_cookie]
  /\ (∅ : gmap string string) !! outputFilePath home = None
  /\ disk (run (world theme_only) ∅) !! outputFilePath home = Some spec_example_output.
Proof. repeat split; vm_compute; reflexivity. Qed.

(** ** The further properties on the sample worlds *)


(** X4 on a login answered with three cookies, the second for another
    host: the first is in the jar, the session cookie is not. *)
Lemma rejected_cookie_keeps_earlier_ones_witness :
  CookieJar_setCookie today foreign_header (domain home) [theme_cookie] = None
  /\ fst (authenticate (world theme_then_foreign) (initial ∅)) = Throw CookieRejected
  /\ cookieJar (snd (authenticate (world theme_then_foreign) (initial ∅)))
     = [theme_cookie].
Proof.
  assert (Hrejected : CookieJar_setCookie today foreign_header (domain home)
                        [theme_cookie] = None)
    by reflexivity.
  split; [exact Hrejected|].
  destruct (rejected_cookie_keeps_earlier_ones (L := libraries)
              (world theme_then_foreign) (initial ∅)
              {| status := 200; getSetCookie := []; text := login_html |} "n0nce"
              {| status := 302;
                 getSetCookie := ["theme=dark; Path=/"; foreign_header;
                                  "session=abc; Path=/; HttpOnly"];
                 text := EmptyString |}
              ["theme=dark; Path=/"] foreign_header ["session=abc; Path=/; HttpOnly"]
              [theme_cookie])
    as [Hraised [Hjar _]];
    [reflexivity | vm_compute; reflexivity | reflexivity | reflexivity
     | reflexivity | reflexivity | exact Hrejected | ].
  split; [exact Hraised | exact Hjar].
Defined.

(** X5 and X14 on a session file whose session cookie has the expiry
    null: the check raises and the run ends without any request.  With
    such a cookie in the jar, [fetchData] makes no call either. *)
Example null_expiry_stops_the_run :
  List.filter is_fetch (trace (run (world usual) null_expiry_files)) = []
  /\ exit_code (run (world usual) null_expiry_files) = 1%Z
  /\ disk (run (world usual) null_expiry_files) = null_expiry_files
  /\ fetchData (world usual) (with_jar [session_cookie Tough.Null] (initial ∅))
     = (Throw JarError,
        {| cookieJar := [session_cookie Tough.Null]; disk := ∅; ticks := 1;
           page := None; trace := [] |}).
Proof. repeat split; vm_compute; reflexivity. Qed.

(** X6 on the usual day: the browser is launched. *)
Lemma browser_starts_after_user_list_witness :
  sent_cookies (world usual) (initial ∅) = Some ([], [])
  /\ In Launch (trace (snd (fetchData (world usual) (initial ∅)))).
Proof.
  assert (Hsent : sent_cookies (world usual) (initial ∅) = Some ([], []))
    by reflexivity.
  split; [exact Hsent|].
  pose proof (browser_starts_after_user_list (world usual) (initial ∅)) as Hcalls.
  cbv zeta in Hcalls. rewrite Hsent in Hcalls.
  destruct Hcalls as [calls [Ht [Hlaunch _]]].
  rewrite Ht. apply in_or_app. right. right. apply Hlaunch.
  eexists. eexists. split; [reflexivity|]. split; [reflexivity|].
  vm_compute. reflexivity.
Defined.

(** X7 on a settings page that renders to an empty document: the wait
    times out and the page stays open. *)
Lemma browser_left_open_on_failure_witness :
  page (initial ∅) = None
  /\ sent_cookies (world blank_settings) (initial ∅) = Some ([], [])
  /\ fst (fetchData (world blank_settings) (initial ∅)) = Throw TimeoutError
  /\ page (snd (fetchData (world blank_settings) (initial ∅))) <> None.
Proof.
  assert (Hnone : page (initial ∅) = None) by reflexivity.
  assert (Hsent : sent_cookies (world blank_settings) (initial ∅) = Some ([], []))
    by reflexivity.
  assert (Hraised : fst (fetchData (world blank_settings) (initial ∅))
                    = Throw TimeoutError)
    by (vm_compute; reflexivity).
  split; [exact Hnone|]. split; [exact Hsent|]. split; [exact Hraised|].
  pose proof (browser_left_open_on_failure (world blank_settings) (initial ∅) Hnone)
    as Hopen.
  cbv zeta in Hopen. rewrite Hsent in Hopen.
  destruct Hopen as [calls [_ [_ [Hopen _]]]].
  apply Hopen. right. right. right. exact Hraised.
Defined.

(** X10 on the usual day, with a file of the working directory that is
    neither the session file nor the output file; the session file
    itself, <cwd>/cookies.json, is written. *)
Lemma run_touches_two_files_witness :
  disk (run (world usual) other_files) !! "/home/app/notes.txt" = Some "keep"
  /\ other_files !! "/home/app/cookies.json" = None
  /\ disk (run (world usual) other_files) !! "/home/app/cookies.json"
     = Some (CookieJar_toJSON [session_cookie Tough.Infinity]).
Proof.
  split; [|split; vm_compute; reflexivity].
  pose proof (run_touches_two_files (world usual) other_files) as Hkept.
  cbv zeta in Hkept. destruct Hkept as [_ [_ Hkept]].
  etransitivity; [apply (Hkept "/home/app/notes.txt")|reflexivity].
  - intros H; vm_compute in H; discriminate H.
  - intros H; vm_compute in H; discriminate H.
Defined.

